(** * X profile analyzer: a shallow embedding and its checked properties

    The development follows the Python sources of the repository:
    - [X_profile_data.py]  : the rate-limited client [X_tweets] and the
      post-to-row transformer [X_profile_analytics.tweets_to_dataframe];
    - [content_agent.py]   : the rule-based categorizer and the standard
      analysis lane of [ContentAnalysisAgent];
    - [langchain_agent.py] : the enhanced lane of [LangChainContentAgent];
    - [cli.py]             : the orchestrator [get_profile_analysis].

    Modelling conventions.
    - Python [int] is [Z]; true division and pandas aggregates are exact
      rationals ([Q]); [NaN] is [None].  The float that a division of two
      ints returns is the rounding [PyNum.binary64] of the quotient.
    - Python [str] is [string]; texts are read as ASCII, so [str.lower]
      touches the letters A-Z only and slicing counts characters.
    - A raised exception is the [Raise] branch of [result]; every exception
      class that occurs derives from [Exception].
    - Time is a logical clock in integral time-units, advanced by
      [time.sleep] and by the latency of a provider call.
    - The provider, the generation service, the process environment and the
      wall clock are oracles collected in the record [env].
    - A DataFrame is an object in the world's store, passed by reference:
      an assignment to a column is seen through every reference and is
      recorded in the log.
    - The retry recursion of the client is driven by fuel; running out of
      fuel stands for a call that has not returned yet.  The [_bounded]
      variants of the two methods add the interpreter's recursion limit,
      at which the recursion ends with the null result. *)

From Stdlib Require Import ZArith QArith Qround Qabs Qpower List String Ascii Bool Lia Lqa.
From Stdlib Require Import DecimalString.
From stdpp Require Import gmap strings.

Local Open Scope Z_scope.

(** ** Exceptions *)

Inductive exn : Type :=
| TooManyRequests
| AttributeError (msg : string)
| NameError (msg : string)
| ValueError (msg : string)
| ZeroDivisionError (msg : string)
| KeyError (msg : string)
| OpenAIError (msg : string)
| ProviderError (msg : string).

(** [str(e)] *)
Definition exn_str (e : exn) : string :=
  match e with
  | TooManyRequests => "429 Too Many Requests"
  | AttributeError m | NameError m | ValueError m | ZeroDivisionError m
  | KeyError m | OpenAIError m | ProviderError m => m
  end.

Inductive result (A : Type) : Type :=
| Ok (a : A)
| Raise (e : exn).
Arguments Ok {A} a.
Arguments Raise {A} e.

Definition bind {A B} (r : result A) (k : A -> result B) : result B :=
  match r with
  | Ok a => k a
  | Raise e => Raise e
  end.

Notation "'let!' x ':=' r 'in' k" := (bind r (fun x => k))
  (at level 10, x name, r at level 100, k at level 200).

(** ** Python string primitives *)

Module PyStr.

(** [c.lower()] on one ASCII character. *)
Definition lower_char (c : ascii) : ascii :=
  let n := nat_of_ascii c in
  if ((65 <=? n) && (n <=? 90))%nat then ascii_of_nat (n + 32) else c.

(** [s.lower()] *)
Fixpoint lower (s : string) : string :=
  match s with
  | EmptyString => EmptyString
  | String c s' => String (lower_char c) (lower s')
  end.

(** [s.startswith(p)] *)
Fixpoint startswith (p s : string) : bool :=
  match p, s with
  | EmptyString, _ => true
  | String _ _, EmptyString => false
  | String a p', String b s' => if Ascii.eqb a b then startswith p' s' else false
  end.

(** [p in s] *)
Fixpoint contains (p s : string) : bool :=
  startswith p s ||
  match s with
  | EmptyString => false
  | String _ s' => contains p s'
  end.

(** [s[:n]] *)
Fixpoint take (n : nat) (s : string) : string :=
  match n, s with
  | O, _ => EmptyString
  | S _, EmptyString => EmptyString
  | S n', String c s' => String c (take n' s')
  end.

(** Characters on which [str.split()] breaks, within ASCII. *)
Definition is_space (c : ascii) : bool :=
  let n := nat_of_ascii c in
  (((9 <=? n) && (n <=? 13)) || ((28 <=? n) && (n <=? 32)))%nat.

(** [len(s.split())]: the number of maximal runs of non-space characters.
    [inword] tells whether the previous character belonged to a token. *)
Fixpoint count_tokens (inword : bool) (s : string) : nat :=
  match s with
  | EmptyString => O
  | String c s' =>
      if is_space c then count_tokens false s'
      else if inword then count_tokens true s'
      else S (count_tokens true s')
  end.

Definition split_len (s : string) : nat := count_tokens false s.

(** [any(p in s for p in patterns)] *)
Definition any_in (patterns : list string) (s : string) : bool :=
  existsb (fun p => contains p s) patterns.

End PyStr.

(** ** content_agent.py: the categorizer *)

Inductive category : Type :=
| Educational | Personal | Promotional | OpinionCommentary | NewsUpdates | General.

Definition category_label (c : category) : string :=
  match c with
  | Educational => "Educational"
  | Personal => "Personal"
  | Promotional => "Promotional"
  | OpinionCommentary => "Opinion/Commentary"
  | NewsUpdates => "News/Updates"
  | General => "General"
  end.

Global Instance category_eq_dec : EqDecision category.
Proof. solve_decision. Defined.

Definition educational_patterns : list string :=
  ["how to"; "guide"; "tutorial"; "learn"; "tip"; "advice"; "here's"; "steps"].
Definition personal_patterns : list string :=
  ["i "; "my "; "me "; "personal"; "story"; "experience"; "feeling"; "today"].
Definition promotional_patterns : list string :=
  ["buy"; "sale"; "course"; "product"; "launch"; "offer"; "discount"; "link in bio"].
Definition opinion_patterns : list string :=
  ["think"; "believe"; "opinion"; "hot take"; "unpopular"; "controversial"].
Definition news_patterns : list string :=
  ["breaking"; "just announced"; "update"; "news"; "happening now"].

Section Categorizer.

(** The lower-casing function; [categorize_tweet] below fixes it to
    [PyStr.lower]. *)
Variable str_lower : string -> string.

Definition categorize_tweet_with (text : string) : category :=
  let text_lower := str_lower text in
  if PyStr.any_in educational_patterns text_lower then Educational
  else if PyStr.any_in personal_patterns text_lower then Personal
  else if PyStr.any_in promotional_patterns text_lower then Promotional
  else if PyStr.any_in opinion_patterns text_lower then OpinionCommentary
  else if PyStr.any_in news_patterns text_lower then NewsUpdates
  else General.

End Categorizer.

Definition categorize_tweet (text : string) : category :=
  categorize_tweet_with PyStr.lower text.

(** The categorizer as the specification words it: an ordered list of
    (label, pattern set) pairs, the first matching pair wins. *)
Definition pattern_groups : list (category * list string) :=
  [ (Educational, educational_patterns);
    (Personal, personal_patterns);
    (Promotional, promotional_patterns);
    (OpinionCommentary, opinion_patterns);
    (NewsUpdates, news_patterns) ].

(** [p] occurs in [s] as a contiguous substring. *)
Definition substring_of (p s : string) : Prop :=
  exists pre post : string, s = (pre +:+ p +:+ post)%string.

(** Some pattern of the set occurs in the lower-cased text. *)
Definition group_matches (patterns : list string) (text_lower : string) : Prop :=
  exists p, In p patterns /\ substring_of p text_lower.

Definition first_matching_group (text_lower : string) : category :=
  match find (fun g => PyStr.any_in (snd g) text_lower) pattern_groups with
  | Some g => fst g
  | None => General
  end.

(** ** Numbers: Python division, pandas aggregates, fixed-point printing *)

Module PyNum.

(** [a / b] on two Python ints: [ZeroDivisionError] for a zero divisor,
    otherwise the quotient, kept exactly.  The float that Python returns
    is the rounding [binary64] of this quotient, defined below. *)
Definition truediv (a b : Z) : result Q :=
  if b =? 0 then Raise (ZeroDivisionError "division by zero")
  else Ok (Qred (inject_Z a / inject_Z b)).

(** [floor (log2 q)] for a positive rational: the difference of the bit
    lengths of numerator and denominator, or one less. *)
Definition ilog2 (q : Q) : Z :=
  let k := Z.log2 (Qnum q) - Z.log2 (Z.pos (Qden q)) in
  if Qle_bool (Qpower 2 k) q then k else k - 1.

Fixpoint sum (xs : list Z) : Z :=
  match xs with
  | [] => 0
  | x :: xs' => x + sum xs'
  end.

Fixpoint qsum (xs : list Q) : Q :=
  match xs with
  | [] => 0%Q
  | x :: xs' => (x + qsum xs')%Q
  end.

Definition count (xs : list Z) : Z := Z.of_nat (length xs).

(** [Series.mean()]; [None] is NaN (empty series). *)
Definition mean (xs : list Z) : option Q :=
  match xs with
  | [] => None
  | _ => Some (Qred (inject_Z (sum xs) / inject_Z (count xs)))
  end.

(** [Series.max()] *)
Fixpoint max (xs : list Z) : option Z :=
  match xs with
  | [] => None
  | x :: xs' =>
      match max xs' with
      | None => Some x
      | Some m => Some (Z.max x m)
      end
  end.

Fixpoint insert_sorted (x : Z) (xs : list Z) : list Z :=
  match xs with
  | [] => [x]
  | y :: ys => if x <=? y then x :: xs else y :: insert_sorted x ys
  end.

Fixpoint sort (xs : list Z) : list Z :=
  match xs with
  | [] => []
  | x :: xs' => insert_sorted x (sort xs')
  end.

(** [Series.median()]: the middle value of the sorted series, or the mean
    of the two middle values. *)
Definition median (xs : list Z) : option Q :=
  let s := sort xs in
  let n := length s in
  match n with
  | O => None
  | _ =>
      if Nat.even n
      then Some (Qred ((inject_Z (nth (n / 2 - 1)%nat s 0%Z)
                       + inject_Z (nth (n / 2)%nat s 0%Z)) / 2))
      else Some (inject_Z (nth (n / 2)%nat s 0))
  end.

(** [Series.var()] with the pandas default [ddof = 1]: the squared
    deviations from the mean, summed and divided by [n - 1]; NaN for
    fewer than two values. *)
Definition var (xs : list Z) : option Q :=
  match mean xs with
  | None => None
  | Some m =>
      if (length xs <=? 1)%nat then None
      else Some (Qred (qsum (map (fun x => (inject_Z x - m) * (inject_Z x - m))%Q xs)
                       / inject_Z (count xs - 1)))
  end.

(** A real number of the shape [coeff * sqrt radicand], kept exactly. *)
Record surd : Type := { coeff : Q; radicand : Q }.

(** [Series.std()]: the square root of [var]. *)
Definition std (xs : list Z) : option surd :=
  match var xs with
  | None => None
  | Some v => Some {| coeff := 1; radicand := v |}
  end.

(** [s / m] on the standard deviation and the mean of a column: no
    exception is raised; the result is not a number ([None]) when an
    operand is NaN or [m] is zero.  A zero mean with a deviation that is
    not zero takes engagements of both signs; for counts, which are not
    negative, a zero mean comes with a zero deviation. *)
Definition surd_div (s : option surd) (m : option Q) : option surd :=
  match s, m with
  | Some s, Some m =>
      if Qeq_bool m 0 then None
      else Some {| coeff := Qred (coeff s / m); radicand := radicand s |}
  | _, _ => None
  end.

(** The surd [s] is the rational [q]. *)
Definition surd_is (s : surd) (q : Q) : Prop :=
  (0 <= q * coeff s /\ q * q == coeff s * coeff s * radicand s)%Q.

(** Round to the nearest integer, ties to even. *)
Definition round_half_even (q : Q) : Z :=
  let f := Qfloor q in
  let r := (q - inject_Z f)%Q in
  match (r ?= 1 # 2)%Q with
  | Lt => f
  | Gt => f + 1
  | Eq => if Z.even f then f else f + 1
  end.

(** The float nearest to [q], ties to even, as [int / int] computes it: a
    binary64 number has 53 significant bits and a unit in the last place
    of at least [2^-1074].  [None] stands for the [OverflowError] raised
    when the nearest float would lie beyond the largest one. *)
Definition binary64 (q : Q) : option Q :=
  if Qeq_bool q 0 then Some 0%Q
  else
    let a := Qabs q in
    let x := Z.max (ilog2 a - 52) (-1074) in
    let m := round_half_even (a / Qpower 2 x) in
    let r := (inject_Z m * Qpower 2 x)%Q in
    if Qle_bool (Qpower 2 1024) r then None
    else Some (Qred (if Qle_bool 0 q then r else - r)).

(** [round(q, d)] as a number of units [10^-d]. *)
Definition round_scaled (d : nat) (q : Q) : Z :=
  round_half_even (q * inject_Z (10 ^ Z.of_nat d)).

(** The nearest integer to [|coeff| * sqrt radicand * 10^d], computed
    exactly: [floor (y + 1/2)] for [y = sqrt x] is
    [(floor (sqrt (4 x)) + 1) / 2]. *)
Definition surd_round_scaled (d : nat) (s : surd) : Z :=
  let c := (coeff s * inject_Z (10 ^ Z.of_nat d))%Q in
  let x := (4 * c * c * radicand s)%Q in
  let k := (Z.sqrt (Qfloor x) + 1) / 2 in
  if Qle_bool 0 (coeff s) then k else - k.

Definition digits (n : Z) : string :=
  NilZero.string_of_uint (N.to_uint (Z.to_N n)).

Fixpoint zeros (n : nat) : string :=
  match n with
  | O => EmptyString
  | S n' => String "0" (zeros n')
  end.

(** Print [scaled * 10^-d] with exactly [d] decimals. *)
Definition print_scaled (d : nat) (negative : bool) (scaled : Z) : string :=
  let a := Z.abs scaled in
  let p := 10 ^ Z.of_nat d in
  let frac := digits (a mod p) in
  let frac := (zeros (d - String.length frac) +:+ frac)%string in
  ((if negative then "-" else "") +:+ digits (a / p) +:+
   (match d with O => "" | _ => "." +:+ frac end))%string.

(** [f"{q:.df}"]: what is formatted is the float nearest to [q], whose
    exact value is rounded to [d] decimals, ties to even; an aggregate
    beyond the floats is infinite. *)
Definition format_fixed (d : nat) (q : option Q) : string :=
  match q with
  | None => "nan"
  | Some q =>
      match binary64 q with
      | Some f => print_scaled d (negb (Qle_bool 0 f)) (round_scaled d f)
      | None => if Qle_bool 0 q then "inf" else "-inf"
      end
  end.

(** [f"{s:.df}"] for a surd. *)
Definition format_fixed_surd (d : nat) (s : option surd) : string :=
  match s with
  | None => "nan"
  | Some s => print_scaled d (negb (Qle_bool 0 (coeff s))) (surd_round_scaled d s)
  end.

(** Insert a comma before every complete group of three trailing
    digits. *)
Fixpoint group3 (s : string) : string :=
  match s with
  | EmptyString => EmptyString
  | String c s' =>
      let rest := group3 s' in
      if (Nat.eqb (String.length s' mod 3) 0 && negb (Nat.eqb (String.length s') 0))%nat
      then String c (String "," rest)
      else String c rest
  end.

(** [f"{n:,}"] *)
Definition format_thousands (n : option Z) : string :=
  match n with
  | None => "nan"
  | Some n => ((if Z.ltb n 0 then "-" else "") +:+ group3 (digits (Z.abs n)))%string
  end.

End PyNum.

(** ** Data model *)

(** A [datetime]: its position on the time line, and the two components the
    transformer extracts ([.hour] and [.strftime('%A')]). *)
Record datetime : Type := {
  dt_epoch : Z;
  dt_hour : Z;
  dt_weekday : string
}.

(** [tweet.public_metrics] *)
Record public_metrics : Type := {
  like_count : Z;
  retweet_count : Z;
  reply_count : Z;
  quote_count : Z
}.

(** One fetched post. *)
Record Tweet : Type := {
  tweet_id : Z;
  tweet_text : string;
  tweet_created_at : datetime;
  tweet_public_metrics : public_metrics
}.

(** [user.data] of the provider's user lookup. *)
Record User : Type := {
  user_id : Z;
  user_username : string
}.

(** One row of the feature table, as appended by [tweets_to_dataframe]. *)
Record FeatureRow : Type := {
  text : string;
  created_at : datetime;
  hour : Z;
  day_of_week : string;
  likes : Z;
  retweets : Z;
  replies : Z;
  quotes : Z;
  engagement : Z;
  word_count : Z;
  has_hashtags : bool;
  has_mentions : bool;
  has_links : bool;
  is_thread : bool;
  engagement_rate : Q
}.

(** The feature table: the rows in fetch order and the column
    ["content_category"], absent until it is first assigned. *)
Record DataFrame : Type := {
  df_rows : list FeatureRow;
  df_content_category : option (list category)
}.

(** [df[name] = values] for the category column. *)
Definition set_content_category (df : DataFrame) (values : list category) : DataFrame :=
  {| df_rows := df_rows df; df_content_category := Some values |}.

(** ** X_profile_data.py: the transformer *)

(** The sum of the four counts of a tweet. *)
Definition total_engagement (tweet : Tweet) : Z :=
  let m := tweet_public_metrics tweet in
  like_count m + retweet_count m + reply_count m + quote_count m.

(** The body of the loop of [tweets_to_dataframe]: the dictionary appended
    for one tweet.  Its [engagement_rate] is the quotient of the division;
    the float that the division returns is [engagement_rate_float]. *)
Definition row_of_tweet (tweet : Tweet) : result FeatureRow :=
  let m := tweet_public_metrics tweet in
  let engagement := like_count m + retweet_count m + reply_count m + quote_count m in
  let text := tweet_text tweet in
  let word_count := Z.of_nat (PyStr.split_len text) in
  let has_hashtags := PyStr.contains "#" text in
  let has_mentions := PyStr.contains "@" text in
  let has_links := PyStr.contains "http" text || PyStr.contains "https" text in
  let is_thread := PyStr.startswith "1/" text || PyStr.contains "1/" (PyStr.take 10 text) in
  let created_at := tweet_created_at tweet in
  let hour := dt_hour created_at in
  let day_of_week := dt_weekday created_at in
  let! rate := PyNum.truediv engagement (Z.max (like_count m) 1) in
  Ok {| text := text;
        created_at := created_at;
        hour := hour;
        day_of_week := day_of_week;
        likes := like_count m;
        retweets := retweet_count m;
        replies := reply_count m;
        quotes := quote_count m;
        engagement := engagement;
        word_count := word_count;
        has_hashtags := has_hashtags;
        has_mentions := has_mentions;
        has_links := has_links;
        is_thread := is_thread;
        engagement_rate := rate |}.

(** The float the frame holds as the [engagement_rate] of a row: the
    division of the two ints is rounded to the nearest float, and raises
    [OverflowError] ([None]) when that float is out of range.  The row
    itself keeps the quotient before rounding. *)
Definition engagement_rate_float (row : FeatureRow) : option Q :=
  PyNum.binary64 (engagement_rate row).

(** The loop over [self.tweets]. *)
Fixpoint rows_of_tweets (tweets : list Tweet) : result (list FeatureRow) :=
  match tweets with
  | [] => Ok []
  | tweet :: rest =>
      let! row := row_of_tweet tweet in
      let! rows := rows_of_tweets rest in
      Ok (row :: rows)
  end.

(** [X_profile_analytics.tweets_to_dataframe].  A frame built from no rows
    has no columns, so reading [df['created_at']] raises [KeyError]. *)
Definition tweets_to_dataframe (tweets : list Tweet) : result DataFrame :=
  let! data := rows_of_tweets tweets in
  match data with
  | [] => Raise (KeyError "'created_at'")
  | _ => Ok {| df_rows := data; df_content_category := None |}
  end.

(** ** content_agent.py: the data summary of the standard lane *)

Module Summary.

(** One line of [category_performance]: the aggregates of one category,
    the means rounded to one decimal. *)
Record category_stats : Type := {
  engagement_mean : Q;
  engagement_count : Z;
  engagement_max : Z;
  likes_mean : Q;
  replies_mean : Q;
  retweets_mean : Q
}.

(** One entry of [top_tweets_by_category]. *)
Record top_tweet : Type := {
  top_text : string;
  top_engagement : Z
}.

(** The interpolated fields of the summary text, in the order of the
    template; the four overall metrics are kept as printed. *)
Record content_summary : Type := {
  total_tweets : Z;
  period_start : option datetime;
  period_end : option datetime;
  category_performance : list (category * category_stats);
  top_tweets_by_category : list (category * top_tweet);
  average_engagement : string;
  median_engagement : string;
  best_performing_tweet : string;
  engagement_consistency : string
}.

(** [round(q, 1)] *)
Definition round1 (q : Q) : Q :=
  Qred (inject_Z (PyNum.round_scaled 1 q) / 10).

(** The rows of the frame paired with their category. *)
Definition labelled_rows (df : DataFrame) : list (category * FeatureRow) :=
  match df_content_category df with
  | Some cats => combine cats (df_rows df)
  | None => []
  end.

(** [df[df['content_category'] == c]] *)
Definition rows_of_category (c : category) (df : DataFrame) : list FeatureRow :=
  map snd (List.filter (fun cr => bool_decide (fst cr = c)) (labelled_rows df)).

(** The group keys in the order [groupby] sorts them: by label. *)
Definition sorted_categories : list category :=
  [Educational; General; NewsUpdates; OpinionCommentary; Personal; Promotional].

Definition stats_of_rows (rows : list FeatureRow) : option category_stats :=
  match PyNum.mean (map engagement rows), PyNum.max (map engagement rows),
        PyNum.mean (map likes rows), PyNum.mean (map replies rows),
        PyNum.mean (map retweets rows) with
  | Some em, Some emax, Some lm, Some rm, Some tm =>
      Some {| engagement_mean := round1 em;
              engagement_count := PyNum.count (map engagement rows);
              engagement_max := emax;
              likes_mean := round1 lm;
              replies_mean := round1 rm;
              retweets_mean := round1 tm |}
  | _, _, _, _, _ => None
  end.

(** [df.groupby('content_category').agg({...}).round(1)] *)
Definition group_performance (df : DataFrame) : list (category * category_stats) :=
  flat_map (fun c =>
              match stats_of_rows (rows_of_category c df) with
              | Some s => [(c, s)]
              | None => []
              end) sorted_categories.

(** [Series.unique()]: the distinct values in order of first appearance. *)
Fixpoint unique (seen cats : list category) : list category :=
  match cats with
  | [] => []
  | c :: rest =>
      if bool_decide (c ∈ seen) then unique seen rest
      else c :: unique (c :: seen) rest
  end.

(** [rows.loc[rows['engagement'].idxmax()]]: the first row carrying the
    largest engagement. *)
Fixpoint first_max (rows : list FeatureRow) : option FeatureRow :=
  match rows with
  | [] => None
  | r :: rest =>
      match first_max rest with
      | None => Some r
      | Some r' => if engagement r' <=? engagement r then Some r else Some r'
      end
  end.

Definition top_tweets (df : DataFrame) : list (category * top_tweet) :=
  flat_map (fun c =>
              match first_max (rows_of_category c df) with
              | Some r =>
                  [(c, {| top_text := (PyStr.take 100 (text r) +:+ "...")%string;
                          top_engagement := engagement r |})]
              | None => []
              end)
           (unique [] (default [] (df_content_category df))).

(** [Series.min()] and [Series.max()] on the creation times. *)
Fixpoint earliest (ds : list datetime) : option datetime :=
  match ds with
  | [] => None
  | d :: rest =>
      match earliest rest with
      | None => Some d
      | Some d' => if dt_epoch d <=? dt_epoch d' then Some d else Some d'
      end
  end.

Fixpoint latest (ds : list datetime) : option datetime :=
  match ds with
  | [] => None
  | d :: rest =>
      match latest rest with
      | None => Some d
      | Some d' => if dt_epoch d' <=? dt_epoch d then Some d else Some d'
      end
  end.

(** The engagement column, [df['engagement']]. *)
Definition engagement_column (df : DataFrame) : list Z :=
  map engagement (df_rows df).

(** [df['engagement'].std() / df['engagement'].mean()] *)
Definition consistency_ratio (df : DataFrame) : option PyNum.surd :=
  PyNum.surd_div (PyNum.std (engagement_column df)) (PyNum.mean (engagement_column df)).

(** The f-string of [prepare_content_data], evaluated on a frame whose
    category column is already assigned. *)
Definition summarize (df : DataFrame) : content_summary :=
  {| total_tweets := Z.of_nat (length (df_rows df));
     period_start := earliest (map created_at (df_rows df));
     period_end := latest (map created_at (df_rows df));
     category_performance := group_performance df;
     top_tweets_by_category := top_tweets df;
     average_engagement := PyNum.format_fixed 1 (PyNum.mean (engagement_column df));
     median_engagement := PyNum.format_fixed 1 (PyNum.median (engagement_column df));
     best_performing_tweet := PyNum.format_thousands (PyNum.max (engagement_column df));
     engagement_consistency := PyNum.format_fixed_surd 2 (consistency_ratio df) |}.

End Summary.

(** ** The outside world *)

(** The prompts sent to the generation service: the template that was
    filled and the data interpolated into it. *)
Inductive prompt : Type :=
| AnalysisPrompt (username : string) (content_data : Summary.content_summary)
| ThemePrompt (username : string) (tweet_texts : list string)
| EngagementPrompt (username : string) (records : list (string * Z * Z * Z * Z))
| StrategyPrompt (username : string) (themes engagement_insights : string).

(** [client.chat.completions.create(...)] *)
Record chat_request : Type := {
  chat_model : string;
  chat_system : string;
  chat_user : prompt;
  chat_temperature : Q;
  chat_max_tokens : Z
}.

(** The two provider endpoints used by the client. *)
Inductive request : Type :=
| GetUser (username : string)
| GetUsersTweets (id : Z) (max_results : Z).

(** What a provider call does: it returns, it is rejected with
    [tweepy.TooManyRequests], or it raises another exception. *)
Inductive api_outcome (A : Type) : Type :=
| ApiData (a : A)
| ApiRateLimited
| ApiError (msg : string).
Arguments ApiData {A} a.
Arguments ApiRateLimited {A}.
Arguments ApiError {A} msg.

Inductive lane : Type := EnhancedLane | StandardLane.

(** What a run leaves in the log, newest first. *)
Inductive event : Type :=
| EvSleep (d : Z)
| EvGate (t : Z)
| EvCall (r : request) (t : Z)
| EvSetColumn (frame : nat) (name : string) (values : list category)
| EvLane (l : lane)
| EvChat (r : chat_request).

(** The mutable world of one process: the clock, the number of provider
    and generation calls issued so far, the DataFrame objects by address,
    and the log. *)
Record world : Type := {
  now : Z;
  provider_calls : nat;
  chat_calls : nat;
  frames : gmap nat DataFrame;
  next_frame : nat;
  log : list event
}.

(** The oracles: the process environment; the constructor of the OpenAI
    client, given the key and the base URL; whether the LangChain packages
    import and whether their components construct; the provider and the
    generation service, each indexed by the number of the call; the
    latency of a provider call; and the rendering of the wall clock.  The
    generation service answers with a string or raises. *)
Record env : Type := {
  twitter_bearer_token : option string;
  openai_api_key : option string;
  openai_client : option string -> option string -> result unit;
  langchain_available : bool;
  langchain_components : result unit;
  api_get_user : nat -> string -> api_outcome (option User);
  api_get_users_tweets : nat -> Z -> Z -> api_outcome (option (list Tweet));
  api_latency : nat -> nat;
  chat_completion : nat -> chat_request -> result string;
  strftime : Z -> string
}.

Inductive outcome (S A : Type) : Type :=
| Returned (a : A) (s : S)
| Pending (s : S).
Arguments Returned {S A} a s.
Arguments Pending {S A} s.

Definition push (ev : event) (w : world) : world :=
  {| now := now w; provider_calls := provider_calls w; chat_calls := chat_calls w;
     frames := frames w; next_frame := next_frame w; log := ev :: log w |}.

(** [time.sleep(d)] *)
Definition sleep (d : Z) (w : world) : world :=
  {| now := now w + d; provider_calls := provider_calls w; chat_calls := chat_calls w;
     frames := frames w; next_frame := next_frame w; log := EvSleep d :: log w |}.

(** A provider call: logged at the time it is issued; the clock advances by
    its latency. *)
Definition provider_call (e : env) (r : request) (w : world) : world :=
  {| now := now w + Z.of_nat (api_latency e (provider_calls w));
     provider_calls := S (provider_calls w); chat_calls := chat_calls w;
     frames := frames w; next_frame := next_frame w;
     log := EvCall r (now w) :: log w |}.

(** A generation call. *)
Definition chat_call (r : chat_request) (w : world) : world :=
  {| now := now w; provider_calls := provider_calls w; chat_calls := S (chat_calls w);
     frames := frames w; next_frame := next_frame w; log := EvChat r :: log w |}.

(** A new DataFrame object. *)
Definition alloc_frame (df : DataFrame) (w : world) : nat * world :=
  (next_frame w,
   {| now := now w; provider_calls := provider_calls w; chat_calls := chat_calls w;
      frames := <[next_frame w := df]> (frames w); next_frame := S (next_frame w);
      log := log w |}).

Definition empty_frame : DataFrame :=
  {| df_rows := []; df_content_category := None |}.

(** The object a reference points to. *)
Definition frame_at (ref : nat) (w : world) : DataFrame :=
  default empty_frame (frames w !! ref).

(** [df["content_category"] = values] on the object behind [ref]. *)
Definition assign_content_category (ref : nat) (values : list category) (w : world) : world :=
  {| now := now w; provider_calls := provider_calls w; chat_calls := chat_calls w;
     frames := <[ref := set_content_category (frame_at ref w) values]> (frames w);
     next_frame := next_frame w;
     log := EvSetColumn ref "content_category" values :: log w |}.

(** Python truthiness of an optional string. *)
Definition truthy (s : option string) : bool :=
  match s with
  | None | Some EmptyString => false
  | Some _ => true
  end.

(** ** X_profile_data.py: the rate-limited client *)

(** The attributes of an [X_tweets] instance. *)
Record X_tweets : Type := {
  last_request_time : Z;
  min_delay : Z
}.

(** [X_tweets.__init__]: without a bearer token the constructor returns
    early and the instance has no attributes ([None]). *)
Definition X_tweets_init (e : env) : option X_tweets :=
  if truthy (twitter_bearer_token e)
  then Some {| last_request_time := 0; min_delay := 5 |}
  else None.

(** [X_tweets._rate_limited_request] *)
Definition _rate_limited_request (self : X_tweets) (w : world) : X_tweets * world :=
  let current_time := now w in
  let time_since_last := current_time - last_request_time self in
  let w1 := if time_since_last <? min_delay self
            then sleep (min_delay self - time_since_last) w
            else w in
  ({| last_request_time := now w1; min_delay := min_delay self |},
   push (EvGate (now w1)) w1).

(** [self.client.get_user(username=...)] *)
Definition client_get_user (e : env) (username : string) (w : world)
  : api_outcome (option User) * world :=
  (api_get_user e (provider_calls w) username, provider_call e (GetUser username) w).

(** [self.client.get_users_tweets(id, max_results=...)] *)
Definition client_get_users_tweets (e : env) (id max_results : Z) (w : world)
  : api_outcome (option (list Tweet)) * world :=
  (api_get_users_tweets e (provider_calls w) id max_results,
   provider_call e (GetUsersTweets id max_results) w).

(** [X_tweets.get_user_info] *)
Fixpoint get_user_info (e : env) (fuel : nat) (username : string)
    (self : X_tweets) (w : world) : outcome (X_tweets * world) (option User) :=
  match fuel with
  | O => Pending (self, w)
  | S fuel' =>
      let (self, w) := _rate_limited_request self w in
      let (user, w) := client_get_user e username w in
      match user with
      | ApiData data => Returned data (self, w)
      | ApiRateLimited =>
          let w := sleep 900 w in
          get_user_info e fuel' username self w
      | ApiError _ => Returned None (self, w)
      end
  end.

(** [X_tweets.get_users_tweets] *)
Fixpoint get_users_tweets (e : env) (fuel : nat) (username : string) (max_tweets : Z)
    (self : X_tweets) (w : world) : outcome (X_tweets * world) (list Tweet) :=
  match fuel with
  | O => Pending (self, w)
  | S fuel' =>
      let (self, w) := _rate_limited_request self w in
      let (user, w) := client_get_user e username w in
      match user with
      | ApiRateLimited =>
          let w := sleep 900 w in
          get_users_tweets e fuel' username max_tweets self w
      | ApiError _ => Returned [] (self, w)
      | ApiData data =>
          let w := sleep 3 w in
          match data with
          | None => Returned [] (self, w)
          | Some u =>
              let (tweets, w) := client_get_users_tweets e (user_id u) max_tweets w in
              match tweets with
              | ApiRateLimited =>
                  let w := sleep 900 w in
                  get_users_tweets e fuel' username max_tweets self w
              | ApiError _ => Returned [] (self, w)
              | ApiData (Some (t :: ts)) => Returned (t :: ts) (self, w)
              | ApiData _ => Returned [] (self, w)
              end
          end
      end
  end.

(** *** The retry recursion under the interpreter's recursion limit

    Each retry is a nested call of the method.  [depth] is the number of
    activations in which the call of the client can still run.  In the
    activation after them the gate is passed, and the call of the client,
    the deepest call of an activation, exceeds the limit: it raises
    [RecursionError] inside the [try] block before a request is issued,
    the [except Exception] clause turns it into the null result of the
    method, and every enclosing activation returns that result. *)

(** [X_tweets.get_user_info], with room for [depth] activations. *)
Fixpoint get_user_info_bounded (e : env) (depth : nat) (username : string)
    (self : X_tweets) (w : world) : option User * (X_tweets * world) :=
  let (self, w) := _rate_limited_request self w in
  match depth with
  | O => (None, (self, w))
  | S depth' =>
      let (user, w) := client_get_user e username w in
      match user with
      | ApiData data => (data, (self, w))
      | ApiRateLimited =>
          let w := sleep 900 w in
          get_user_info_bounded e depth' username self w
      | ApiError _ => (None, (self, w))
      end
  end.

(** [X_tweets.get_users_tweets], with room for [depth] activations. *)
Fixpoint get_users_tweets_bounded (e : env) (depth : nat) (username : string)
    (max_tweets : Z) (self : X_tweets) (w : world) : list Tweet * (X_tweets * world) :=
  let (self, w) := _rate_limited_request self w in
  match depth with
  | O => ([], (self, w))
  | S depth' =>
      let (user, w) := client_get_user e username w in
      match user with
      | ApiRateLimited =>
          let w := sleep 900 w in
          get_users_tweets_bounded e depth' username max_tweets self w
      | ApiError _ => ([], (self, w))
      | ApiData data =>
          let w := sleep 3 w in
          match data with
          | None => ([], (self, w))
          | Some u =>
              let (tweets, w) := client_get_users_tweets e (user_id u) max_tweets w in
              match tweets with
              | ApiRateLimited =>
                  let w := sleep 900 w in
                  get_users_tweets_bounded e depth' username max_tweets self w
              | ApiError _ => ([], (self, w))
              | ApiData (Some (t :: ts)) => (t :: ts, (self, w))
              | ApiData _ => ([], (self, w))
              end
          end
      end
  end.

(** A client method invocation, for sequences of calls on one instance. *)
Inductive invocation : Type :=
| CallGetUserInfo (username : string)
| CallGetUsersTweets (username : string) (max_tweets : Z).

Definition invoke (e : env) (fuel : nat) (i : invocation) (self : X_tweets) (w : world)
  : outcome (X_tweets * world) unit :=
  match i with
  | CallGetUserInfo username =>
      match get_user_info e fuel username self w with
      | Returned _ s => Returned tt s
      | Pending s => Pending s
      end
  | CallGetUsersTweets username max_tweets =>
      match get_users_tweets e fuel username max_tweets self w with
      | Returned _ s => Returned tt s
      | Pending s => Pending s
      end
  end.

(** Several invocations in sequence on one instance; the state reached when
    they have all returned or the fuel of one is used up. *)
Fixpoint invoke_all (e : env) (fuel : nat) (calls : list invocation)
    (self : X_tweets) (w : world) : X_tweets * world :=
  match calls with
  | [] => (self, w)
  | i :: rest =>
      match invoke e fuel i self w with
      | Returned _ (self', w') => invoke_all e fuel rest self' w'
      | Pending s => s
      end
  end.

(** *** Reading the log of the client

    The log is kept newest first, and so are the lists read from it. *)

(** The times at which provider calls were issued. *)
Fixpoint call_times (l : list event) : list Z :=
  match l with
  | [] => []
  | EvCall _ t :: l' => t :: call_times l'
  | _ :: l' => call_times l'
  end.

(** The time stamps taken by [_rate_limited_request]. *)
Fixpoint gate_times (l : list event) : list Z :=
  match l with
  | [] => []
  | EvGate t :: l' => t :: gate_times l'
  | _ :: l' => gate_times l'
  end.

(** Every element of a newest-first list of times is at least [d] later
    than the element before it in time. *)
Fixpoint spaced (d : Z) (ts : list Z) : Prop :=
  match ts with
  | later :: rest =>
      match rest with
      | earlier :: _ => earlier + d <= later
      | [] => True
      end /\ spaced d rest
  | [] => True
  end.

(** Every time stamp of the gate is at once followed by a provider call
    issued at that very time. *)
Fixpoint gates_answered (l : list event) : Prop :=
  match l with
  | [] => True
  | EvGate _ :: _ => False
  | EvCall _ t :: l' =>
      match l' with
      | EvGate t' :: l'' => t = t' /\ gates_answered l''
      | _ => gates_answered l'
      end
  | _ :: l' => gates_answered l'
  end.

(** Every provider call that does not follow the gate directly is issued
    at least [d] after the provider call before it. *)
Fixpoint ungated_spaced (d : Z) (l : list event) : Prop :=
  match l with
  | [] => True
  | EvCall _ t :: l' =>
      match l' with
      | EvGate _ :: _ => True
      | _ => match call_times l' with
             | earlier :: _ => earlier + d <= t
             | [] => True
             end
      end /\ ungated_spaced d l'
  | _ :: l' => ungated_spaced d l'
  end.

(** The number of sleeps of length [d]. *)
Fixpoint count_sleeps (d : Z) (l : list event) : nat :=
  match l with
  | [] => O
  | EvSleep d' :: l' => if d' =? d then S (count_sleeps d l') else count_sleeps d l'
  | _ :: l' => count_sleeps d l'
  end.

(** The events the client leaves in the log. *)
Definition client_event (ev : event) : bool :=
  match ev with
  | EvSleep _ | EvGate _ | EvCall _ _ => true
  | _ => false
  end.

(** [w'] is reached from [w] by the client alone: the log grew by client
    events, time did not go back, and nothing else changed. *)
Definition client_steps (w w' : world) : Prop :=
  (exists p, log w' = p ++ log w /\ forallb client_event p = true)
  /\ now w <= now w'
  /\ (provider_calls w <= provider_calls w')%nat
  /\ chat_calls w' = chat_calls w
  /\ frames w' = frames w
  /\ next_frame w' = next_frame w.

(** What holds of an instance and the log between two steps of its
    methods: the delay is the constructor's, the last time stamp of the
    gate is the instance's [last_request_time], and the log is spaced. *)
Definition client_invariant (self : X_tweets) (w : world) : Prop :=
  min_delay self = 5
  /\ (forall t, head (gate_times (log w)) = Some t -> t = last_request_time self)
  /\ spaced 5 (gate_times (log w))
  /\ gates_answered (log w)
  /\ ungated_spaced 3 (log w).

(** The state an outcome carries. *)
Definition state_of {S A : Type} (o : outcome S A) : S :=
  match o with
  | Returned _ s => s
  | Pending s => s
  end.

(** ** The values of the result dictionaries *)

Set Warnings "-register-all".

Inductive pyval : Type :=
| VStr (s : string)
| VInt (n : Z)
| VSummary (s : Summary.content_summary)
| VDict (d : gmap string pyval).

(** ** content_agent.py: the standard lane *)

Record ContentAnalysisAgent : Type := {
  ca_name : string
}.

(** [ContentAnalysisAgent.__init__] *)
Definition ContentAnalysisAgent_init (e : env) : result ContentAnalysisAgent :=
  let! _ := openai_client e (openai_api_key e) (Some "https://api.openai.com/v1") in
  Ok {| ca_name := "Content Analysis Agent" |}.

(** [ContentAnalysisAgent.prepare_content_data] on the frame behind
    [df]: the category column is assigned, then the summary is built. *)
Definition prepare_content_data (df : nat) (w : world) : Summary.content_summary * world :=
  let content_categories := map categorize_tweet (map text (df_rows (frame_at df w))) in
  let w := assign_content_category df content_categories w in
  (Summary.summarize (frame_at df w), w).

(** [ContentAnalysisAgent.create_analysis_prompt] *)
Definition create_analysis_prompt (content_data : Summary.content_summary) (username : string)
  : prompt :=
  AnalysisPrompt username content_data.

(** [ContentAnalysisAgent.gen_ai_analysis] *)
Definition gen_ai_analysis (e : env) (p : prompt) (w : world) : string * world :=
  let r := {| chat_model := "gpt-4o-mini";
              chat_system := "You are an expert Twitter content strategist with deep understanding of viral content patterns and audience psychology.";
              chat_user := p;
              chat_temperature := 7 # 10;
              chat_max_tokens := 1500 |} in
  match chat_completion e (chat_calls w) r with
  | Ok content => (content, chat_call r w)
  | Raise ex => (("Error getting AI analysis: " +:+ exn_str ex)%string, chat_call r w)
  end.

(** [ContentAnalysisAgent.analyze_content_strategy] *)
Definition analyze_content_strategy (e : env) (self : ContentAnalysisAgent)
    (tweets_df : nat) (username : string) (w : world) : gmap string pyval * world :=
  let w := push (EvLane StandardLane) w in
  let (content_data, w) := prepare_content_data tweets_df w in
  let p := create_analysis_prompt content_data username in
  let (ai_insights, w) := gen_ai_analysis e p w in
  (<["agent" := VStr (ca_name self)]>
     (<["username" := VStr username]>
        (<["analysis" := VStr ai_insights]>
           (<["data_summary" := VSummary content_data]>
              (<["timestamp" := VStr (strftime e (now w))]> ∅)))),
   w).

(** ** langchain_agent.py: the enhanced lane *)

Record LangChainContentAgent : Type := {
  lc_name : string;
  langchain_enabled : bool
}.

(** [LangChainContentAgent.__init__] *)
Definition LangChainContentAgent_init (e : env) : result LangChainContentAgent :=
  if negb (truthy (openai_api_key e))
  then Raise (ValueError "OpenAI API key not found. Please set OPENAI_API_KEY in your .env file")
  else
    let! _ := openai_client e (openai_api_key e) None in
    let enabled := langchain_available e in
    let enabled :=
      if enabled
      then match langchain_components e with
           | Ok _ => true
           | Raise _ => false
           end
      else enabled in
    Ok {| lc_name := "Enhanced Content Analysis Agent"; langchain_enabled := enabled |}.

(** The names bound at module level in [langchain_agent.py]: the imports
    (the four LangChain ones only when they succeeded), the flag and the
    class. *)
Definition module_globals (e : env) : list string :=
  ["os"; "pd"; "datetime"; "Counter"; "re"; "OpenAI"; "load_dotenv"; "json";
   "List"; "Dict"; "Any"]
  ++ (if langchain_available e
      then ["Document"; "OpenAIEmbeddings"; "ChatOpenAI";
            "RecursiveCharacterTextSplitter"; "FAISS"]
      else [])
  ++ ["LANGCHAIN_AVAILABLE"; "LangChainContentAgent"].

(** Reading a global name. *)
Definition load_global (e : env) (name : string) : result unit :=
  if bool_decide (name ∈ module_globals e) then Ok tt
  else Raise (NameError ("name '" +:+ name +:+ "' is not defined")%string).

(** [LangChainContentAgent._call_openai] *)
Definition _call_openai (e : env) (p : prompt) (w : world) : string * world :=
  let r := {| chat_model := "gpt-4o-mini";
              chat_system := "You are an expert social media strategist and content analyst.";
              chat_user := p;
              chat_temperature := 7 # 10;
              chat_max_tokens := 1000 |} in
  match chat_completion e (chat_calls w) r with
  | Ok content => (content, chat_call r w)
  | Raise ex => (("Analysis error: " +:+ exn_str ex)%string, chat_call r w)
  end.

(** The signature of the analysis methods that take [(tweets_df, username)]. *)
Definition lane_method : Type :=
  env -> LangChainContentAgent -> nat -> string -> world ->
  result (gmap string pyval) * world.

(** [LangChainContentAgent._enhanced_openai_analysis] *)
Definition _enhanced_openai_analysis : lane_method :=
  fun e self tweets_df username w =>
  let df := frame_at tweets_df w in
  let tweet_texts := map text (df_rows df) in
  let engagement_data :=
    map (fun r => (text r, engagement r, likes r, retweets r, replies r)) (df_rows df) in
  let (themes, w) := _call_openai e (ThemePrompt username (firstn 10 tweet_texts)) w in
  let (engagement, w) :=
    _call_openai e (EngagementPrompt username (firstn 5 engagement_data)) w in
  let analyses : gmap string pyval :=
    <["engagement" := VStr engagement]> (<["themes" := VStr themes]> ∅) in
  let (recommendations, w) :=
    _call_openai e (StrategyPrompt username (PyStr.take 500 themes)
                                   (PyStr.take 500 engagement)) w in
  (Ok (<["agent" := VStr (lc_name self)]>
         (<["username" := VStr username]>
            (<["timestamp" := VStr (strftime e (now w))]>
               (<["theme_analyses" := VDict analyses]>
                  (<["recommendations" := VStr recommendations]>
                     (<["document_count" := VInt (Z.of_nat (length (df_rows df)))]>
                        (<["analysis_type" := VStr "Enhanced OpenAI"]> ∅))))))),
   w).

(** The methods of the class with that signature, by name.  The class
    defines no [_langchain_analysis]. *)
Definition lane_methods : list (string * lane_method) :=
  [("_enhanced_openai_analysis", _enhanced_openai_analysis)].

(** [getattr(self, name)] for such a method. *)
Fixpoint lookup_method (name : string) (table : list (string * lane_method))
  : result lane_method :=
  match table with
  | [] => Raise (AttributeError
                   ("'LangChainContentAgent' object has no attribute '" +:+ name +:+ "'")%string)
  | (n, m) :: rest => if String.eqb n name then Ok m else lookup_method name rest
  end.

(** The dictionary built by the handler of [analyze_content_with_langchain]. *)
Definition error_marker (e : env) (self : LangChainContentAgent) (username : string)
    (ex : exn) (w : world) : gmap string pyval :=
  <["agent" := VStr (lc_name self)]>
    (<["username" := VStr username]>
       (<["error" := VStr (exn_str ex)]>
          (<["timestamp" := VStr (strftime e (now w))]> ∅))).

(** [LangChainContentAgent.analyze_content_with_langchain] *)
Definition analyze_content_with_langchain (e : env) (self : LangChainContentAgent)
    (tweets_df : nat) (username : string) (w : world) : gmap string pyval * world :=
  let w := push (EvLane EnhancedLane) w in
  let attempt :=
    let name := if langchain_enabled self
                then "_langchain_analysis"
                else "_enhanced_openai_analysis" in
    match lookup_method name lane_methods with
    | Ok method => method e self tweets_df username w
    | Raise ex => (Raise ex, w)
    end in
  match attempt with
  | (Ok r, w) => (r, w)
  | (Raise ex, w) => (error_marker e self username ex w, w)
  end.

(** ** cli.py: the orchestrator *)

(** [get_profile_analysis]: [None] is the null result of the early exits
    and of the outer handler.  [display_results] and
    [save_analysis_results] only print and write files. *)
Definition get_profile_analysis (e : env) (fuel : nat) (username : string)
    (max_tweets : Z) (use_langchain : bool) (w : world)
  : outcome world (option (gmap string pyval)) :=
  match X_tweets_init e with
  | None => Returned None w
  | Some tweets_client =>
      match get_users_tweets e fuel username max_tweets tweets_client w with
      | Pending (_, w) => Pending w
      | Returned [] (_, w) => Returned None w
      | Returned tweets (_, w) =>
          match tweets_to_dataframe tweets with
          | Raise _ => Returned None w
          | Ok df =>
              let (tweets_df, w) := alloc_frame df w in
              match ContentAnalysisAgent_init e with
              | Raise _ => Returned None w
              | Ok content_agent =>
                  let content_categories :=
                    map categorize_tweet (map text (df_rows (frame_at tweets_df w))) in
                  let w := assign_content_category tweets_df content_categories w in
                  let results : gmap string pyval := ∅ in
                  let (results, w) :=
                    if use_langchain
                    then match LangChainContentAgent_init e with
                         | Ok langchain_agent =>
                             let (r, w) := analyze_content_with_langchain
                                             e langchain_agent tweets_df username w in
                             (<["langchain" := VDict r]> results, w)
                         | Raise _ => (results, w)
                         end
                    else (results, w) in
                  let (standard, w) :=
                    analyze_content_strategy e content_agent tweets_df username w in
                  let results := <["standard" := VDict standard]> results in
                  Returned (Some results) w
              end
          end
      end
  end.

(** The column assignments in the log: the frame, the column and the
    values written. *)
Fixpoint column_assignments (l : list event) : list (nat * string * list category) :=
  match l with
  | [] => []
  | EvSetColumn f n v :: l' => (f, n, v) :: column_assignments l'
  | _ :: l' => column_assignments l'
  end.

(** The lanes entered, newest first. *)
Fixpoint lanes_entered (l : list event) : list lane :=
  match l with
  | [] => []
  | EvLane x :: l' => x :: lanes_entered l'
  | _ :: l' => lanes_entered l'
  end.

(** The number of generation calls in the log. *)
Fixpoint chats_logged (l : list event) : nat :=
  match l with
  | [] => O
  | EvChat _ :: l' => S (chats_logged l')
  | _ :: l' => chats_logged l'
  end.

(** ** Sample inputs *)

Definition sample_tweet (likes retweets replies quotes : Z) (body : string) : Tweet :=
  {| tweet_id := 1;
     tweet_text := body;
     tweet_created_at := {| dt_epoch := 1700000000; dt_hour := 9; dt_weekday := "Tuesday" |};
     tweet_public_metrics := {| like_count := likes; retweet_count := retweets;
                                reply_count := replies; quote_count := quotes |} |}.

(** Three posts with engagement 5, 10 and 15. *)
Definition scenario_tweets : list Tweet :=
  [ sample_tweet 5 0 0 0 "How to grow on Twitter: 5 tips";
    sample_tweet 6 2 1 1 "my story";
    sample_tweet 9 3 2 1 "hello" ].

Definition scenario_frame : DataFrame :=
  match tweets_to_dataframe scenario_tweets with
  | Ok df => df
  | Raise _ => empty_frame
  end.

Definition initial_world : world :=
  {| now := 100; provider_calls := 0; chat_calls := 0; frames := ∅;
     next_frame := 0; log := [] |}.

Definition fresh_client : X_tweets :=
  {| last_request_time := 0; min_delay := 5 |}.

(** A process with a bearer token and the given OpenAI key, with or
    without the LangChain packages, a provider that rejects the first
    [rejections] calls and then answers at once with [posts], and a
    generation service that answers. *)
Definition sample_env (key : option string) (langchain : bool) (rejections : nat)
    (posts : list Tweet) : env :=
  {| twitter_bearer_token := Some "token";
     openai_api_key := key;
     openai_client := fun _ _ => Ok tt;
     langchain_available := langchain;
     langchain_components := Ok tt;
     api_get_user := fun n _ =>
       if (n <? rejections)%nat then ApiRateLimited
       else ApiData (Some {| user_id := 7; user_username := "someone" |});
     api_get_users_tweets := fun _ _ _ => ApiData (Some posts);
     api_latency := fun _ => 0%nat;
     chat_completion := fun _ _ => Ok "insights";
     strftime := fun _ => "2026-01-01 00:00:00" |}.

(** The scenario's run: both credentials present, no LangChain packages,
    the enhanced lane requested. *)
Definition scenario_env : env := sample_env (Some "sk-key") false 0 scenario_tweets.

Definition scenario_run : outcome world (option (gmap string pyval)) :=
  get_profile_analysis scenario_env 1 "someone" 10 true initial_world.

(** The dictionary a run returned; empty when it returned none. *)
Definition results_of (o : outcome world (option (gmap string pyval))) : gmap string pyval :=
  match o with
  | Returned (Some results) _ => results
  | _ => ∅
  end.

(** ** The precedence of the categories *)

(** The position of a category in the order the categorizer tests the
    groups; [General], the default, comes last. *)
Definition category_rank (c : category) : nat :=
  match c with
  | Educational => 0
  | Personal => 1
  | Promotional => 2
  | OpinionCommentary => 3
  | NewsUpdates => 4
  | General => 5
  end.

(** ** cli.py: the presenter and the entry point *)

(** [s.replace(c, "")] for a one-character [c]. *)
Fixpoint py_remove_char (c : ascii) (s : string) : string :=
  match s with
  | EmptyString => EmptyString
  | String a s' => if Ascii.eqb a c then py_remove_char c s' else String a (py_remove_char c s')
  end.

(** [s.lstrip()] *)
Fixpoint py_lstrip (s : string) : string :=
  match s with
  | EmptyString => EmptyString
  | String a s' => if PyStr.is_space a then py_lstrip s' else s
  end.

(** [s.rstrip()] *)
Fixpoint py_rstrip (s : string) : string :=
  match s with
  | EmptyString => EmptyString
  | String a s' =>
      match py_rstrip s' with
      | EmptyString => if PyStr.is_space a then EmptyString else String a EmptyString
      | rest => String a rest
      end
  end.

(** [s.strip()] *)
Definition py_strip (s : string) : string := py_rstrip (py_lstrip s).

(** [args.username.replace("@", "").strip()] *)
Definition normalize_username (raw : string) : string :=
  py_strip (py_remove_char "@" raw).

(** [s[:limit] + "..." if len(s) > limit else s] *)
Definition truncate (limit : nat) (s : string) : string :=
  if (limit <? String.length s)%nat then (PyStr.take limit s +:+ "...")%string else s.

(** Why the presenter can fail: a key that is read is missing, a value
    that is measured and sliced is not a string, or a value whose items
    are read is not a dictionary. *)
Inductive display_error : Type :=
| MissingKey (key : string)
| NotAString
| NoItems.

(** What is printed for one value: a string, cut where it is too long;
    the summary text, cut at [limit] characters; or the value as it is. *)
Inductive shown : Type :=
| ShownText (s : string)
| ShownSummary (limit : nat) (s : Summary.content_summary)
| ShownValue (v : pyval).

(** The conditional expression that cuts a value for display.  [len] is
    taken first: an integer has none; a dictionary of more than [limit]
    entries cannot be sliced, a smaller one is printed whole. *)
Definition show_value (limit : nat) (v : pyval) : display_error + shown :=
  match v with
  | VStr s => inr (ShownText (truncate limit s))
  | VSummary s => inr (ShownSummary limit s)
  | VInt _ => inl NotAString
  | VDict d => if (limit <? size d)%nat then inl NotAString else inr (ShownValue v)
  end.

(** Python truthiness of a value. *)
Definition py_truthy (v : pyval) : bool :=
  match v with
  | VStr s => negb (String.eqb s "")
  | VInt n => negb (n =? 0)
  | VSummary _ => true
  | VDict d => negb (Nat.eqb (size d) 0)
  end.

(** The sections [display_results] prints, banners left out. *)
Record display : Type := {
  shown_theme_analyses : gmap string shown;
  shown_recommendations : option shown;
  shown_standard : option shown;
  shown_reply : option shown
}.

Definition is_inr {A B : Type} (x : A + B) : bool :=
  match x with
  | inr _ => true
  | inl _ => false
  end.

(** The loop over [theme_analyses.items()]. *)
Definition show_items (limit : nat) (items : gmap string pyval)
  : display_error + gmap string shown :=
  let each := show_value limit <$> items in
  if forallb (fun kv => is_inr (snd kv)) (map_to_list each)
  then inr (omap (fun r => match r with inr s => Some s | inl _ => None end) each)
  else inl NotAString.

(** The enhanced section of [display_results]. *)
Definition display_langchain (langchain_data : gmap string pyval)
  : display_error + (gmap string shown * option shown) :=
  match
    match langchain_data !! "theme_analyses" with
    | None => inr ∅
    | Some (VDict items) => show_items 400 items
    | Some _ => inl NoItems
    end
  with
  | inl err => inl err
  | inr themes =>
      match langchain_data !! "recommendations" with
      | None => inr (themes, None)
      | Some recommendations =>
          match show_value 600 recommendations with
          | inl err => inl err
          | inr s => inr (themes, Some s)
          end
      end
  end.

(** The standard section of [display_results]. *)
Definition display_standard (standard : gmap string pyval)
  : display_error + (shown * option shown) :=
  match standard !! "analysis" with
  | None => inl (MissingKey "analysis")
  | Some standard_analysis =>
      match show_value 500 standard_analysis with
      | inl err => inl err
      | inr analysis =>
          match standard !! "reply_summary" with
          | Some reply_summary =>
              if py_truthy reply_summary
              then match show_value 300 reply_summary with
                   | inl err => inl err
                   | inr reply => inr (analysis, Some reply)
                   end
              else inr (analysis, None)
          | None => inr (analysis, None)
          end
      end
  end.

(** [display_results], on results whose entries are dictionaries. *)
Definition display_results (results : gmap string (gmap string pyval))
    (username : string) (show_langchain : bool) : display_error + display :=
  match
    match results !! "langchain" with
    | Some langchain_data =>
        if show_langchain && negb (bool_decide (is_Some (langchain_data !! "error")))
        then display_langchain langchain_data
        else inr (∅, None)
    | None => inr (∅, None)
    end
  with
  | inl err => inl err
  | inr (themes, recommendations) =>
      match results !! "standard" with
      | None =>
          inr {| shown_theme_analyses := themes; shown_recommendations := recommendations;
                 shown_standard := None; shown_reply := None |}
      | Some standard =>
          match display_standard standard with
          | inl err => inl err
          | inr (analysis, reply) =>
              inr {| shown_theme_analyses := themes;
                     shown_recommendations := recommendations;
                     shown_standard := Some analysis; shown_reply := reply |}
          end
      end
  end.

(** The dictionaries among the entries of a result. *)
Definition lane_dicts (results : gmap string pyval) : gmap string (gmap string pyval) :=
  omap (fun v => match v with VDict d => Some d | _ => None end) results.

(** The parsed command line. *)
Record cli_args : Type := {
  arg_username : string;
  arg_tweets : Z;
  arg_no_langchain : bool;
  arg_save : bool;
  arg_visualize : bool
}.

(** How [main] ends: it returns, or it calls [sys.exit(1)]. *)
Inductive exit_status : Type := ExitSuccess | ExitFailure.

(** [main], after the arguments are parsed. *)
Definition main (e : env) (fuel : nat) (args : cli_args) (w : world)
  : outcome world exit_status :=
  let username := normalize_username (arg_username args) in
  if String.eqb username "" then Returned ExitFailure w
  else if negb (truthy (twitter_bearer_token e)) then Returned ExitFailure w
  else if negb (truthy (openai_api_key e)) then Returned ExitFailure w
  else
    match get_profile_analysis e fuel username (arg_tweets args)
            (negb (arg_no_langchain args)) w with
    | Pending w' => Pending w'
    | Returned None w' => Returned ExitFailure w'
    | Returned (Some results) w' =>
        if Nat.eqb (size results) 0 then Returned ExitFailure w'
        else Returned ExitSuccess w'
    end.

(** ** langchain_agent.py: the retrieval helpers *)

(** What the retrieval helpers call outside the module: the retriever of
    the vector store, the constructors behind the two template names, the
    constructor of the chain, and the chain's [run]. *)
Record chain_runtime : Type := {
  as_retriever : result unit;
  make_prompt : result unit;
  make_chain : result unit;
  chain_run : string -> result string
}.

Definition theme_questions : list string :=
  [ "What are the main themes and topics in this content?";
    "What content gets the highest engagement and why?";
    "What writing styles and formats are most effective?";
    "What are the common hook lines and opening strategies used?" ].

(** [LangChainContentAgent.analyze_content_themes] *)
Definition analyze_content_themes (e : env) (rt : chain_runtime) (username : string)
  : result (list (string * string)) :=
  let! retriever := as_retriever rt in
  let! _ := load_global e "PromptTemplate" in
  let! theme_prompt := make_prompt rt in
  let! _ := load_global e "RetrievalQA" in
  let! qa_chain := make_chain rt in
  Ok (map (fun question =>
             (question,
              match chain_run rt question with
              | Ok answer => answer
              | Raise ex => ("Analysis failed: " +:+ exn_str ex)%string
              end))
          theme_questions).

(** ["\n\n".join([f"**{q}**\n{a}" for q, a in analyses.items()])], the
    line feed written as [nl]. *)
Fixpoint combine_analyses (nl : string) (analyses : list (string * string)) : string :=
  match analyses with
  | [] => EmptyString
  | [(q, a)] => ("**" +:+ q +:+ "**" +:+ nl +:+ a)%string
  | (q, a) :: rest =>
      ("**" +:+ q +:+ "**" +:+ nl +:+ a +:+ nl +:+ nl +:+ combine_analyses nl rest)%string
  end.

(** [LangChainContentAgent.generate_content_recommendations] *)
Definition generate_content_recommendations (e : env) (rt : chain_runtime)
    (analyses : list (string * string)) (username : string) : result string :=
  let! _ := load_global e "PromptTemplate" in
  let! recommendation_prompt := make_prompt rt in
  let! _ := load_global e "LLMChain" in
  let! recommendation_chain := make_chain rt in
  let combined_analysis := combine_analyses (String (ascii_of_nat 10) EmptyString) analyses in
  match chain_run rt combined_analysis with
  | Ok recommendations => Ok recommendations
  | Raise ex => Ok ("Error generating recommendations: " +:+ exn_str ex)%string
  end.

(** ** streamlit_app.py: the dashboard *)

Module Streamlit.

Record api_status : Type := {
  status_twitter : bool;
  status_openai : bool
}.

(** [check_api_keys]: each variable is tested with [is not None]. *)
Definition check_api_keys (e : env) : api_status :=
  {| status_twitter := bool_decide (is_Some (twitter_bearer_token e));
     status_openai := bool_decide (is_Some (openai_api_key e)) |}.

(** The choice of the analysis selector. *)
Inductive analysis_type : Type := StandardAnalysis | EnhancedAnalysis | Both.

(** What the result tabs write. *)
Record tabs : Type := {
  tab_standard : option pyval;
  tab_theme_analyses : gmap string pyval;
  tab_recommendations : option pyval
}.

(** What the page shows after a click: the key check stopped it, nothing
    was asked, no post was found, the handler reported a failure with
    [str(e)], or the results were shown. *)
Inductive view : Type :=
| Stopped
| Idle
| NoTweets
| Failed (message : string)
| Shown (results : gmap string (gmap string pyval)) (t : tabs).

(** [str(e)] of the exception raised on reading [.items()] off a value
    that is not a dictionary. *)
Definition no_items_message (v : pyval) : string :=
  match v with
  | VInt _ => "'int' object has no attribute 'items'"
  | _ => "'str' object has no attribute 'items'"
  end.

(** The enhanced part of a tab: the theme analyses and the
    recommendations, when present. *)
Definition enhanced_part (data : gmap string pyval)
  : string + (gmap string pyval * option pyval) :=
  match data !! "theme_analyses" with
  | Some (VDict items) => inr (items, data !! "recommendations")
  | Some v => inl (no_items_message v)
  | None => inr (∅, data !! "recommendations")
  end.

(** The standard part of a tab: [analysis_data['analysis']]. *)
Definition standard_part (data : gmap string pyval) : string + pyval :=
  match data !! "analysis" with
  | Some analysis => inr analysis
  | None => inl "'analysis'"
  end.

(** The result tabs: two tabs for more than one result, otherwise the
    first key of the results decides what is written. *)
Definition show_results (results : gmap string (gmap string pyval)) : string + tabs :=
  if (1 <? size results)%nat
  then
    match
      match results !! "standard" with
      | Some data =>
          match standard_part data with
          | inl message => inl message
          | inr analysis => inr (Some analysis)
          end
      | None => inr None
      end
    with
    | inl message => inl message
    | inr standard =>
        match results !! "enhanced" with
        | Some data =>
            match enhanced_part data with
            | inl message => inl message
            | inr (themes, recommendations) =>
                inr {| tab_standard := standard; tab_theme_analyses := themes;
                       tab_recommendations := recommendations |}
            end
        | None =>
            inr {| tab_standard := standard; tab_theme_analyses := ∅;
                   tab_recommendations := None |}
        end
    end
  else
    match map_to_list results with
    | [] => inl "list index out of range"
    | (analysis_key, analysis_data) :: _ =>
        if String.eqb analysis_key "enhanced"
        then match enhanced_part analysis_data with
             | inl message => inl message
             | inr (themes, recommendations) =>
                 inr {| tab_standard := None; tab_theme_analyses := themes;
                        tab_recommendations := recommendations |}
             end
        else match standard_part analysis_data with
             | inl message => inl message
             | inr analysis =>
                 inr {| tab_standard := Some analysis; tab_theme_analyses := ∅;
                        tab_recommendations := None |}
             end
    end.

Definition wants_enhanced (kind : analysis_type) : bool :=
  match kind with
  | EnhancedAnalysis | Both => true
  | StandardAnalysis => false
  end.

Definition wants_standard (kind : analysis_type) : bool :=
  match kind with
  | StandardAnalysis | Both => true
  | EnhancedAnalysis => false
  end.

(** [main]: the page from the key check to the result tabs.  The metrics
    and the chart, which come between the analysis and the tabs, are
    computed from the frame alone (the chart adds an [hour] column that
    nothing reads afterwards), and the export follows the tabs: none of
    them is part of the view. *)
Definition main (e : env) (fuel : nat) (username : string) (analyze_button : bool)
    (max_tweets : Z) (kind : analysis_type) (w : world) : outcome world view :=
  let api_status := check_api_keys e in
  if negb (status_twitter api_status) || negb (status_openai api_status)
  then Returned Stopped w
  else if String.eqb username "" then Returned Idle w
  else if negb analyze_button then Returned Idle w
  else
    match X_tweets_init e with
    | None => Returned (Failed "'X_tweets' object has no attribute 'last_request_time'") w
    | Some tweets_client =>
        match get_users_tweets e fuel username max_tweets tweets_client w with
        | Pending (_, w) => Pending w
        | Returned [] (_, w) => Returned NoTweets w
        | Returned tweets (_, w) =>
            match tweets_to_dataframe tweets with
            | Raise ex => Returned (Failed (exn_str ex)) w
            | Ok df =>
                let (tweets_df, w) := alloc_frame df w in
                match ContentAnalysisAgent_init e with
                | Raise ex => Returned (Failed (exn_str ex)) w
                | Ok content_agent =>
                    let content_categories :=
                      map categorize_tweet (map text (df_rows (frame_at tweets_df w))) in
                    let w := assign_content_category tweets_df content_categories w in
                    let results : gmap string (gmap string pyval) := ∅ in
                    let (results, w) :=
                      if wants_enhanced kind
                      then match LangChainContentAgent_init e with
                           | Ok langchain_agent =>
                               let (r, w) := analyze_content_with_langchain
                                               e langchain_agent tweets_df username w in
                               (<["enhanced" := r]> results, w)
                           | Raise _ => (results, w)
                           end
                      else (results, w) in
                    let (results, w) :=
                      if wants_standard kind
                      then let (r, w) := analyze_content_strategy
                                           e content_agent tweets_df username w in
                           (<["standard" := r]> results, w)
                      else (results, w) in
                    match show_results results with
                    | inl message => Returned (Failed message) w
                    | inr t => Returned (Shown results t) w
                    end
                end
            end
        end
    end.

End Streamlit.

(** ** Further sample inputs *)

(** A process in which the provider and the generation service fail on
    every call, each provider call taking one time-unit. *)
Definition failing_env (message : string) : env :=
  {| twitter_bearer_token := Some "token";
     openai_api_key := Some "sk-key";
     openai_client := fun _ _ => Ok tt;
     langchain_available := false;
     langchain_components := Ok tt;
     api_get_user := fun _ _ => ApiError message;
     api_get_users_tweets := fun _ _ _ => ApiError message;
     api_latency := fun _ => 1%nat;
     chat_completion := fun _ _ => Raise (OpenAIError message);
     strftime := fun _ => "2026-01-01 00:00:00" |}.

(** A process with both credentials and no LangChain packages whose
    provider knows no user of the name asked for. *)
Definition unknown_user_env : env :=
  {| twitter_bearer_token := Some "token";
     openai_api_key := Some "sk-key";
     openai_client := fun _ _ => Ok tt;
     langchain_available := false;
     langchain_components := Ok tt;
     api_get_user := fun _ _ => ApiData None;
     api_get_users_tweets := fun _ _ _ => ApiData (Some scenario_tweets);
     api_latency := fun _ => 1%nat;
     chat_completion := fun _ _ => Ok "insights";
     strftime := fun _ => "2026-01-01 00:00:00" |}.

(** A process whose bearer token is set but empty. *)
Definition empty_token_env : env :=
  {| twitter_bearer_token := Some "";
     openai_api_key := Some "sk-key";
     openai_client := fun _ _ => Ok tt;
     langchain_available := false;
     langchain_components := Ok tt;
     api_get_user := fun _ _ => ApiData (Some {| user_id := 7; user_username := "someone" |});
     api_get_users_tweets := fun _ _ _ => ApiData (Some scenario_tweets);
     api_latency := fun _ => 1%nat;
     chat_completion := fun _ _ => Ok "insights";
     strftime := fun _ => "2026-01-01 00:00:00" |}.

(** A frame holding a single post. *)
Definition single_post_frame : DataFrame :=
  match tweets_to_dataframe [sample_tweet 4 1 0 0 "hello"] with
  | Ok df => df
  | Raise _ => empty_frame
  end.

(** A process in which the OpenAI key is set but empty. *)
Definition empty_key_env : env := sample_env (Some "") false 0 scenario_tweets.

(** A process with both credentials and the LangChain packages. *)
Definition langchain_env : env := sample_env (Some "sk-key") true 0 scenario_tweets.

(** A process whose provider rejects every call, as it does once the
    quota of the account is used up. *)
Definition rejecting_env : env :=
  {| twitter_bearer_token := Some "token";
     openai_api_key := Some "sk-key";
     openai_client := fun _ _ => Ok tt;
     langchain_available := false;
     langchain_components := Ok tt;
     api_get_user := fun _ _ => ApiRateLimited;
     api_get_users_tweets := fun _ _ _ => ApiRateLimited;
     api_latency := fun _ => 1%nat;
     chat_completion := fun _ _ => Ok "insights";
     strftime := fun _ => "2026-01-01 00:00:00" |}.

(** * Properties *)

(** ** String primitives *)

Lemma startswith_spec (p s : string) :
  PyStr.startswith p s = true <-> exists post, s = (p +:+ post)%string.
Proof.
  revert s. induction p as [|a p IH]; intros s; simpl.
  - split; [intros _; exists s; reflexivity | reflexivity].
  - destruct s as [|b s].
    + split; [discriminate | intros [post H]; discriminate].
    + destruct (Ascii.eqb_spec a b) as [->|Hne].
      * rewrite IH. split; intros [post H]; exists post.
        -- now rewrite H.
        -- now injection H.
      * split; [discriminate | intros [post H]; injection H; congruence].
Qed.

Lemma contains_spec (p s : string) :
  PyStr.contains p s = true <-> substring_of p s.
Proof.
  unfold substring_of. split.
  - induction s as [|c s IH].
    + simpl. rewrite orb_false_r, startswith_spec.
      intros [post H]. exists EmptyString, post. exact H.
    + cbn [PyStr.contains]. rewrite orb_true_iff, startswith_spec.
      intros [[post H] | H].
      * exists EmptyString, post. exact H.
      * destruct (IH H) as (pre & post & ->).
        exists (String c pre), post. reflexivity.
  - intros (pre & post & ->). induction pre as [|c pre IH].
    + assert (H : PyStr.startswith p (p +:+ post) = true)
        by (apply startswith_spec; eauto).
      simpl. destruct (p +:+ post)%string; simpl; rewrite H; reflexivity.
    + change (String c pre +:+ p +:+ post)%string
        with (String c (pre +:+ p +:+ post)%string).
      cbn [PyStr.contains]. rewrite IH. apply orb_true_r.
Qed.

Lemma any_in_spec (patterns : list string) (s : string) :
  PyStr.any_in patterns s = true <-> group_matches patterns s.
Proof.
  unfold PyStr.any_in, group_matches. rewrite existsb_exists.
  split; intros (p & Hp & H); exists p; split; auto; now apply contains_spec.
Qed.

Lemma any_in_false (patterns : list string) (s : string) :
  PyStr.any_in patterns s = false <-> ~ group_matches patterns s.
Proof.
  rewrite <- any_in_spec. destruct (PyStr.any_in patterns s); split; congruence.
Qed.

(** ** The categorizer *)

Lemma categorize_tweet_with_first (lower : string -> string) (text : string) :
  categorize_tweet_with lower text = first_matching_group (lower text).
Proof.
  unfold categorize_tweet_with, first_matching_group, pattern_groups.
  cbn [find snd fst].
  repeat match goal with
         | |- context [PyStr.any_in ?ps ?s] => destruct (PyStr.any_in ps s); try reflexivity
         end.
Qed.

Lemma find_group_spec (s : string) (c : category) (groups : list (category * list string)) :
  match find (fun g => PyStr.any_in (snd g) s) groups with
  | Some g => fst g
  | None => General
  end = c <->
  (exists before patterns after,
      groups = before ++ (c, patterns) :: after
      /\ group_matches patterns s
      /\ Forall (fun g => ~ group_matches (snd g) s) before)
  \/ (c = General /\ Forall (fun g => ~ group_matches (snd g) s) groups).
Proof.
  induction groups as [|[l ps] groups IH].
  - simpl. split.
    + intros <-. right. split; [reflexivity | constructor].
    + intros [(before & patterns & after & H & _) | [-> _]]; [|reflexivity].
      destruct before; discriminate.
  - cbn [find snd]. destruct (PyStr.any_in ps s) eqn:Hm.
    + cbn [fst]. split.
      * intros <-. left. exists [], ps, groups. repeat split; [|constructor].
        now apply any_in_spec.
      * intros [(before & patterns & after & H & Hp & Hb) | [-> Hall]].
        -- destruct before as [|g before].
           ++ simpl in H. congruence.
           ++ simpl in H. injection H as <- H. apply Forall_cons in Hb as [Hb _].
              apply any_in_spec in Hm. contradiction.
        -- apply Forall_cons in Hall as [Hb _]. apply any_in_spec in Hm. contradiction.
    + apply any_in_false in Hm. rewrite IH. split.
      * intros [(before & patterns & after & -> & Hp & Hb) | [-> Hall]].
        -- left. exists ((l, ps) :: before), patterns, after.
           repeat split; auto.
        -- right. split; auto.
      * intros [(before & patterns & after & H & Hp & Hb) | [-> Hall]].
        -- destruct before as [|g before].
           ++ simpl in H. injection H as -> -> ->. contradiction.
           ++ simpl in H. injection H as <- ->. apply Forall_cons in Hb as [_ Hb].
              left. exists before, patterns, after. auto.
        -- right. apply Forall_cons in Hall as [_ Hall]. auto.
Qed.

(** C6.  For every lower-casing function and every text, the categorizer
    returns the label of the first group, in the order Educational,
    Personal, Promotional, Opinion/Commentary, News/Updates, one of whose
    patterns is a substring of the lower-cased text, and General exactly
    when no group matches; the result is a function of the text; and a
    text that matches an Educational pattern is Educational whatever else
    it matches. *)
Theorem categorize_tweet_first_match (lower : string -> string) (text : string) :
  (forall c : category,
      categorize_tweet_with lower text = c <->
      (exists before patterns after,
          pattern_groups = before ++ (c, patterns) :: after
          /\ group_matches patterns (lower text)
          /\ Forall (fun g => ~ group_matches (snd g) (lower text)) before)
      \/ (c = General
          /\ Forall (fun g => ~ group_matches (snd g) (lower text)) pattern_groups))
  /\ map fst pattern_groups
     = [Educational; Personal; Promotional; OpinionCommentary; NewsUpdates]
  /\ categorize_tweet_with lower text = first_matching_group (lower text)
  /\ categorize_tweet text = categorize_tweet_with PyStr.lower text
  /\ (forall text' : string,
         text' = text -> categorize_tweet_with lower text' = categorize_tweet_with lower text)
  /\ (group_matches educational_patterns (lower text) ->
      categorize_tweet_with lower text = Educational).
Proof.
  split; [|split; [|split; [|split; [|split]]]].
  - intros c. rewrite categorize_tweet_with_first. apply find_group_spec.
  - reflexivity.
  - apply categorize_tweet_with_first.
  - reflexivity.
  - intros text' ->. reflexivity.
  - intros H. apply any_in_spec in H.
    unfold categorize_tweet_with. cbv zeta. rewrite H. reflexivity.
Qed.

(** The text of the specification's scenario, and a text that matches both
    an Educational and a Personal pattern. *)
Lemma categorize_tweet_first_match_witness :
  categorize_tweet "How to grow on Twitter: 5 tips" = Educational
  /\ categorize_tweet "Today I learn" = Educational.
Proof.
  split.
  - apply (categorize_tweet_first_match PyStr.lower "How to grow on Twitter: 5 tips").
    exists "how to". split; [simpl; tauto|].
    exists EmptyString, " grow on twitter: 5 tips". reflexivity.
  - apply (categorize_tweet_first_match PyStr.lower "Today I learn").
    exists "learn". split; [simpl; tauto|].
    exists "today i ", EmptyString. reflexivity.
Defined.

(** ** The transformer *)

Lemma truediv_max (a l : Z) :
  PyNum.truediv a (Z.max l 1) = Ok (Qred (inject_Z a / inject_Z (Z.max l 1))).
Proof.
  unfold PyNum.truediv. destruct (Z.eqb_spec (Z.max l 1) 0) as [H|H]; [lia | reflexivity].
Qed.

Lemma row_of_tweet_ok (tweet : Tweet) :
  exists row,
    row_of_tweet tweet = Ok row
    /\ engagement row = total_engagement tweet
    /\ likes row = like_count (tweet_public_metrics tweet)
    /\ text row = tweet_text tweet
    /\ engagement_rate row
       = Qred (inject_Z (total_engagement tweet)
               / inject_Z (Z.max (like_count (tweet_public_metrics tweet)) 1)).
Proof.
  unfold row_of_tweet. cbv zeta. rewrite truediv_max. cbn [bind].
  eexists. split; [reflexivity|]. cbn. unfold total_engagement. auto.
Qed.

Lemma rows_of_tweets_ok (tweets : list Tweet) :
  exists rows,
    rows_of_tweets tweets = Ok rows
    /\ Forall2 (fun tweet row => row_of_tweet tweet = Ok row) tweets rows.
Proof.
  induction tweets as [|tweet tweets (rows & Hrows & Hall)].
  - exists []. split; [reflexivity | constructor].
  - destruct (row_of_tweet_ok tweet) as (row & Hrow & _).
    exists (row :: rows). cbn [rows_of_tweets]. rewrite Hrow, Hrows. cbn [bind].
    split; [reflexivity | constructor; assumption].
Qed.


(** ** Rounding to a float *)

Lemma round_half_even_close (q : Q) :
  (Qabs (inject_Z (PyNum.round_half_even q) - q) <= 1 # 2)%Q.
Proof.
  unfold PyNum.round_half_even. cbv zeta.
  pose proof (Qfloor_le q) as Hlo. pose proof (Qlt_floor q) as Hhi.
  rewrite inject_Z_plus in Hhi. change (inject_Z 1) with 1%Q in Hhi.
  apply Qabs_Qle_condition.
  destruct (q - inject_Z (Qfloor q) ?= 1 # 2)%Q eqn:Hc.
  - apply Qeq_alt in Hc. destruct (Z.even (Qfloor q)); cbv iota;
      rewrite ?inject_Z_plus; change (inject_Z 1) with 1%Q; split; lra.
  - apply Qlt_alt in Hc. cbv iota. split; lra.
  - apply Qgt_alt in Hc. cbv iota. rewrite inject_Z_plus. change (inject_Z 1) with 1%Q.
    split; lra.
Qed.

Lemma round_half_even_integer (q : Q) (n : Z) :
  (q == inject_Z n)%Q -> PyNum.round_half_even q = n.
Proof.
  intros H. unfold PyNum.round_half_even. cbv zeta.
  assert (Hf : Qfloor q = n) by (rewrite H; apply Qfloor_Z).
  rewrite Hf.
  assert (Hc : (q - inject_Z n ?= 1 # 2)%Q = Lt).
  { apply Qlt_alt. rewrite H. unfold Qminus. rewrite Qplus_opp_r. reflexivity. }
  now rewrite Hc.
Qed.

Lemma two_power_pos (k : Z) : (0 < Qpower 2 k)%Q.
Proof. apply Qpower_0_lt. reflexivity. Qed.

Lemma two_power_Z (k : Z) : 0 <= k -> (Qpower 2 k == inject_Z (2 ^ k))%Q.
Proof. intros H. now rewrite Zpower_Qpower. Qed.

Lemma two_power_succ (k : Z) : (Qpower 2 (k + 1) == 2 * Qpower 2 k)%Q.
Proof.
  rewrite Qpower_plus by discriminate. rewrite Qpower_1_r. ring.
Qed.

Lemma two_power_minus (a b : Z) : (Qpower 2 (a - b) == Qpower 2 a / Qpower 2 b)%Q.
Proof. apply Qpower_minus. discriminate. Qed.

Lemma div_mult_le (A B D N : Q) :
  (0 <= A -> 0 < B -> D <= B -> A <= N -> A / B * D <= N)%Q.
Proof.
  intros HA HB HD HN.
  assert (Hy : (A / B * B == A)%Q) by (field; lra).
  assert (Hy0 : (0 <= A / B)%Q) by (apply Qle_shift_div_l; lra).
  set (y := (A / B)%Q) in *. nra.
Qed.

Lemma lt_div_mult (A B D N : Q) :
  (0 <= A -> 0 < B -> B <= D -> N < A -> N < A / B * D)%Q.
Proof.
  intros HA HB HD HN.
  assert (Hy : (A / B * B == A)%Q) by (field; lra).
  assert (Hy0 : (0 <= A / B)%Q) by (apply Qle_shift_div_l; lra).
  set (y := (A / B)%Q) in *. nra.
Qed.

(** The bit lengths of numerator and denominator bracket a positive
    rational between two powers of two. *)
Lemma log2_bracket (q : Q) :
  (0 < q)%Q ->
  let k := Z.log2 (Qnum q) - Z.log2 (Z.pos (Qden q)) in
  (Qpower 2 (k - 1) <= q /\ q < Qpower 2 (k + 1))%Q.
Proof.
  intros Hq. destruct q as [n d]. cbn [Qnum Qden].
  assert (Hn : 0 < n) by (unfold Qlt in Hq; cbn in Hq; lia).
  pose proof (Z.log2_spec n Hn) as [Hn1 Hn2].
  pose proof (Z.log2_spec (Z.pos d) (Pos2Z.is_pos d)) as [Hd1 Hd2].
  pose proof (Z.log2_nonneg n) as Ha. pose proof (Z.log2_nonneg (Z.pos d)) as Hb.
  set (a := Z.log2 n) in *. set (b := Z.log2 (Z.pos d)) in *.
  replace (Z.succ a) with (a + 1) in Hn2 by lia.
  replace (Z.succ b) with (b + 1) in Hd2 by lia.
  assert (Hqd : (n # d == inject_Z n / inject_Z (Z.pos d))%Q) by apply Qmake_Qdiv.
  assert (Hdpos : (0 < inject_Z (Z.pos d))%Q)
    by (change 0%Q with (inject_Z 0); rewrite <- Zlt_Qlt; lia).
  cbv zeta. split.
  - replace (a - b - 1) with (a - (b + 1)) by lia.
    rewrite two_power_minus, !two_power_Z, Hqd by lia.
    apply Qle_shift_div_l; [exact Hdpos|].
    apply div_mult_le.
    + change 0%Q with (inject_Z 0). rewrite <- Zle_Qle. lia.
    + change 0%Q with (inject_Z 0). rewrite <- Zlt_Qlt. lia.
    + rewrite <- Zle_Qle. lia.
    + rewrite <- Zle_Qle. exact Hn1.
  - replace (a - b + 1) with ((a + 1) - b) by lia.
    rewrite two_power_minus, !two_power_Z, Hqd by lia.
    apply Qlt_shift_div_r; [exact Hdpos|].
    apply lt_div_mult.
    + change 0%Q with (inject_Z 0). rewrite <- Zle_Qle. lia.
    + change 0%Q with (inject_Z 0). rewrite <- Zlt_Qlt. lia.
    + rewrite <- Zle_Qle. exact Hd1.
    + rewrite <- Zlt_Qlt. exact Hn2.
Qed.

(** [ilog2] is the integer part of the binary logarithm. *)
Lemma ilog2_spec (q : Q) :
  (0 < q)%Q -> (Qpower 2 (PyNum.ilog2 q) <= q /\ q < Qpower 2 (PyNum.ilog2 q + 1))%Q.
Proof.
  intros Hq. pose proof (log2_bracket q Hq) as [Hlo Hhi]. cbv zeta in Hlo, Hhi.
  unfold PyNum.ilog2. cbv zeta.
  set (k := Z.log2 (Qnum q) - Z.log2 (Z.pos (Qden q))) in *.
  destruct (Qle_bool (Qpower 2 k) q) eqn:Hk.
  - apply Qle_bool_iff in Hk. split; [exact Hk | exact Hhi].
  - split; [exact Hlo|]. replace (k - 1 + 1) with k by lia.
    apply Qnot_le_lt. intros H. apply Qle_bool_iff in H. congruence.
Qed.

(** The rounding of a positive number that is neither too small nor too
    large: the nearest multiple of the unit in the last place, within
    half a unit. *)
Lemma rounded_magnitude (a : Q) :
  (Qpower 2 (-1022) <= a)%Q -> (a < Qpower 2 1023)%Q ->
  let x := Z.max (PyNum.ilog2 a - 52) (-1074) in
  let r := (inject_Z (PyNum.round_half_even (a / Qpower 2 x)) * Qpower 2 x)%Q in
  (Qabs (r - a) <= a / Qpower 2 53 /\ r < Qpower 2 1024)%Q.
Proof.
  intros Hlo Hhi.
  assert (Ha : (0 < a)%Q) by (pose proof (two_power_pos (-1022)); lra).
  destruct (ilog2_spec a Ha) as [He1 He2]. set (e := PyNum.ilog2 a) in *.
  assert (He : -1022 <= e).
  { assert (H : (Qpower 2 (-1022) < Qpower 2 (e + 1))%Q) by lra.
    apply Qpower_lt_compat_l_inv in H; [lia | reflexivity]. }
  clear Hlo He2. cbv zeta. rewrite Z.max_l by lia.
  pose proof (round_half_even_close (a / Qpower 2 (e - 52))) as Hm.
  apply Qabs_Qle_condition in Hm.
  set (m := inject_Z (PyNum.round_half_even (a / Qpower 2 (e - 52)))) in *.
  pose proof (two_power_pos (e - 52)) as HX.
  assert (HXE : (Qpower 2 (e - 52) * Qpower 2 53 == 2 * Qpower 2 e)%Q).
  { replace e with ((e - 52) + 52) at 2 by lia.
    rewrite (Qpower_plus 2 (e - 52) 52) by discriminate.
    change (Qpower 2 53) with (inject_Z (2 ^ 53)).
    change (Qpower 2 52) with (inject_Z (2 ^ 52)).
    change (inject_Z (2 ^ 53)) with (2 * inject_Z (2 ^ 52))%Q. ring. }
  assert (HT : (a / Qpower 2 (e - 52) * Qpower 2 (e - 52) == a)%Q) by (field; lra).
  assert (H53 : (Qpower 2 53 == 9007199254740992)%Q) by reflexivity.
  assert (H1024 : (Qpower 2 1024 == 2 * Qpower 2 1023)%Q).
  { change 1024 with (1023 + 1). apply two_power_succ. }
  set (X := Qpower 2 (e - 52)) in *. set (T := (a / X)%Q) in *.
  set (E := Qpower 2 e) in *. set (P := Qpower 2 53) in *.
  set (M := Qpower 2 1023) in *. set (M' := Qpower 2 1024) in *.
  clearbody m T X E P M M'.
  assert (Hclose : (- ((1 # 2) * X) <= m * X - a <= (1 # 2) * X)%Q).
  { assert (Hd : (m * X - a == (m - T) * X)%Q) by (rewrite <- HT at 1; ring).
    rewrite Hd. destruct Hm as [Hm1 Hm2].
    pose proof (Qmult_le_compat_r _ _ X Hm1 (Qlt_le_weak _ _ HX)) as H1.
    pose proof (Qmult_le_compat_r _ _ X Hm2 (Qlt_le_weak _ _ HX)) as H2.
    set (d := (m - T)%Q) in *. clearbody d. split; lra. }
  assert (Hulp : ((1 # 2) * X <= a / P)%Q).
  { apply Qle_shift_div_l; [lra|]. lra. }
  split.
  - apply Qabs_Qle_condition. split; lra.
  - assert (Hsmall : (a / P <= a)%Q) by (apply Qle_shift_div_r; nra).
    lra.
Qed.

(** Within the range of the normal floats the rounding never overflows
    and is off by at most the fraction [2^-53] of the number. *)
Lemma binary64_near (q : Q) :
  (Qpower 2 (-1022) <= Qabs q)%Q -> (Qabs q < Qpower 2 1023)%Q ->
  exists f, PyNum.binary64 q = Some f
            /\ (Qabs (f - q) <= Qabs q / Qpower 2 53)%Q.
Proof.
  intros Hlo Hhi.
  destruct (rounded_magnitude (Qabs q) Hlo Hhi) as [Hnear Hfin]. cbv zeta in Hnear, Hfin.
  unfold PyNum.binary64.
  assert (Hq : ~ (q == 0)%Q).
  { intros H. rewrite H in Hlo. pose proof (two_power_pos (-1022)).
    change (Qabs 0) with 0%Q in Hlo. lra. }
  destruct (Qeq_bool q 0) eqn:Hz; [apply Qeq_bool_iff in Hz; contradiction|].
  cbv zeta.
  set (r := (inject_Z _ * Qpower 2 _)%Q) in *.
  destruct (Qle_bool (Qpower 2 1024) r) eqn:Hov.
  { apply Qle_bool_iff in Hov. lra. }
  eexists. split; [reflexivity|]. rewrite Qred_correct.
  destruct (Qle_bool 0 q) eqn:Hs.
  - apply Qle_bool_iff in Hs. rewrite (Qabs_pos q Hs) in *. exact Hnear.
  - assert (Hneg : (q <= 0)%Q).
    { apply Qlt_le_weak, Qnot_le_lt. intros H. apply Qle_bool_iff in H. congruence. }
    rewrite (Qabs_neg q Hneg) in *.
    apply Qabs_Qle_condition in Hnear. apply Qabs_Qle_condition. split; lra.
Qed.

Lemma Qred_inject_Z (n : Z) : Qred (inject_Z n) = inject_Z n.
Proof.
  unfold Qred, inject_Z.
  pose proof (Z.ggcd_gcd n 1) as Hg. pose proof (Z.ggcd_correct_divisors n 1) as Hd.
  destruct (Z.ggcd n 1) as [g [aa bb]]. cbn [fst snd] in *.
  rewrite Z.gcd_1_r in Hg. subst g. destruct Hd as [Ha Hb].
  assert (aa = n) as -> by lia. assert (bb = 1) as -> by lia. reflexivity.
Qed.

(** An integer of at most 53 bits is a float. *)
Lemma binary64_exact (n : Z) :
  Z.abs n <= 2 ^ 53 -> PyNum.binary64 (inject_Z n) = Some (inject_Z n).
Proof.
  intros Hn. destruct (Z.eq_dec n 0) as [->|Hn0]; [reflexivity|].
  unfold PyNum.binary64.
  assert (Hz : Qeq_bool (inject_Z n) 0 = false).
  { destruct (Qeq_bool (inject_Z n) 0) eqn:H; [|reflexivity].
    apply Qeq_bool_iff in H. unfold Qeq in H. cbn in H. lia. }
  rewrite Hz. cbv zeta.
  change (Qabs (inject_Z n)) with (inject_Z (Z.abs n)).
  set (k := Z.abs n) in *.
  assert (Hk : 0 < k) by (subst k; lia).
  assert (Ha : (0 < inject_Z k)%Q) by (change 0%Q with (inject_Z 0); rewrite <- Zlt_Qlt; lia).
  destruct (ilog2_spec (inject_Z k) Ha) as [He1 _]. set (e := PyNum.ilog2 (inject_Z k)) in *.
  assert (He : e <= 53).
  { assert (H : (Qpower 2 e <= Qpower 2 53)%Q).
    { apply Qle_trans with (inject_Z k); [exact He1|].
      change (Qpower 2 53) with (inject_Z (2 ^ 53)). rewrite <- Zle_Qle. exact Hn. }
    apply Qpower_le_compat_l_inv in H; [exact H | reflexivity]. }
  set (x := Z.max (e - 52) (-1074)).
  assert (Hr : (inject_Z (PyNum.round_half_even (inject_Z k / Qpower 2 x)) * Qpower 2 x
                == inject_Z k)%Q).
  { destruct (Z.le_gt_cases x 0) as [Hx|Hx].
    - assert (HX : (Qpower 2 x == / inject_Z (2 ^ (- x)))%Q).
      { replace x with (- - x) at 1 by lia. rewrite Qpower_opp, two_power_Z by lia.
        reflexivity. }
      assert (Hp : (0 < inject_Z (2 ^ (- x)))%Q).
      { change 0%Q with (inject_Z 0). rewrite <- Zlt_Qlt. lia. }
      rewrite (round_half_even_integer _ (k * 2 ^ (- x))).
      + rewrite HX, inject_Z_mult. field. lra.
      + rewrite HX, inject_Z_mult. field. lra.
    - assert (Hx1 : x = 1) by lia. assert (He53 : e = 53) by lia.
      assert (Hk53 : k = 2 ^ 53).
      { rewrite He53 in He1. change (Qpower 2 53) with (inject_Z (2 ^ 53)) in He1.
        rewrite <- Zle_Qle in He1. lia. }
      rewrite Hx1, Hk53. reflexivity. }
  set (r := (inject_Z _ * Qpower 2 x)%Q) in *.
  destruct (Qle_bool (Qpower 2 1024) r) eqn:Hov.
  { apply Qle_bool_iff in Hov. rewrite Hr in Hov.
    assert (H : (Qpower 2 1024 <= Qpower 2 53)%Q).
    { apply Qle_trans with (inject_Z k); [exact Hov|].
      change (Qpower 2 53) with (inject_Z (2 ^ 53)). rewrite <- Zle_Qle. exact Hn. }
    apply Qpower_le_compat_l_inv in H; [lia | reflexivity]. }
  f_equal.
  assert (Hval : ((if Qle_bool 0 (inject_Z n) then r else - r) == inject_Z n)%Q).
  { destruct (Qle_bool 0 (inject_Z n)) eqn:Hs.
    - apply Qle_bool_iff in Hs. change 0%Q with (inject_Z 0) in Hs.
      rewrite <- Zle_Qle in Hs. rewrite Hr. subst k. now rewrite Z.abs_eq.
    - assert (Hneg : n < 0).
      { destruct (Z.lt_ge_cases n 0) as [H|H]; [exact H|]. exfalso.
        assert (H' : Qle_bool 0 (inject_Z n) = true).
        { apply Qle_bool_iff. change 0%Q with (inject_Z 0). now rewrite <- Zle_Qle. }
        congruence. }
      rewrite Hr. subst k. rewrite Z.abs_neq by lia. rewrite inject_Z_opp. ring. }
  rewrite (Qred_complete _ _ Hval). apply Qred_inject_Z.
Qed.

(** The rate of a row in absolute value, and whether it is zero. *)
Lemma rate_magnitude (e d : Z) :
  1 <= d ->
  (Qabs (Qred (inject_Z e / inject_Z d)) == inject_Z (Z.abs e) / inject_Z d)%Q.
Proof.
  intros Hd. rewrite Qred_correct.
  assert (Hd' : (0 < inject_Z d)%Q)
    by (change 0%Q with (inject_Z 0); rewrite <- Zlt_Qlt; lia).
  unfold Qdiv. rewrite Qabs_Qmult, Qabs_Qinv, (Qabs_pos (inject_Z d)) by lra.
  reflexivity.
Qed.

(** The float of a quotient of two ints in the range of the normal
    floats. *)
Lemma quotient_float (e d : Z) :
  Z.abs e < 2 ^ 1023 -> 1 <= d <= 2 ^ 1022 ->
  exists f,
    PyNum.binary64 (Qred (inject_Z e / inject_Z d)) = Some f
    /\ (Qabs (f - inject_Z e / inject_Z d)
        <= Qabs (inject_Z e / inject_Z d) / Qpower 2 53)%Q.
Proof.
  intros He Hd.
  assert (Hd' : (0 < inject_Z d)%Q)
    by (change 0%Q with (inject_Z 0); rewrite <- Zlt_Qlt; lia).
  destruct (Z.eq_dec e 0) as [->|He0].
  - assert (Hzero : Qred (inject_Z 0 / inject_Z d) = 0%Q).
    { transitivity (Qred 0); [|reflexivity]. apply Qred_complete. unfold Qdiv.
      apply Qmult_0_l. }
    rewrite Hzero. exists 0%Q. split; [reflexivity|].
    assert (Hq : (inject_Z 0 / inject_Z d == 0)%Q) by (unfold Qdiv; apply Qmult_0_l).
    rewrite Hq. vm_compute. discriminate.
  - destruct (binary64_near (Qred (inject_Z e / inject_Z d))) as (f & Hf & Hnear).
    + rewrite rate_magnitude by lia.
      assert (Hp : (Qpower 2 (-1022) == / inject_Z (2 ^ 1022))%Q)
        by (vm_compute; reflexivity).
      rewrite Hp. apply Qle_shift_div_l; [exact Hd'|].
      assert (H1 : (1 <= inject_Z (Z.abs e))%Q)
        by (change 1%Q with (inject_Z 1); rewrite <- Zle_Qle; lia).
      assert (H2 : (inject_Z d <= inject_Z (2 ^ 1022))%Q) by (rewrite <- Zle_Qle; lia).
      assert (H3 : (0 < inject_Z (2 ^ 1022))%Q)
        by (change 0%Q with (inject_Z 0); rewrite <- Zlt_Qlt; lia).
      apply Qle_trans with 1%Q; [|exact H1].
      apply Qle_trans with (/ inject_Z (2 ^ 1022) * inject_Z (2 ^ 1022))%Q.
      * apply Qmult_le_l; [apply Qinv_lt_0_compat; exact H3 | exact H2].
      * rewrite Qmult_comm, Qmult_inv_r; [apply Qle_refl|].
        intros Hz. rewrite Hz in H3. now apply Qlt_irrefl in H3.
    + rewrite rate_magnitude, two_power_Z by lia. apply Qlt_shift_div_r; [exact Hd'|].
      rewrite <- inject_Z_mult, <- Zlt_Qlt. nia.
    + exists f. split; [exact Hf|]. rewrite Qred_correct in Hnear. exact Hnear.
Qed.

(** C8, counterexample.  The claim as stated fails for a post without
    likes whose engagement is [2^53 + 1]: the quotient by 1 is rounded to
    the float [2^53], which is not the engagement.  And for a post with
    [2^1024] retweets the division has no float to return: it raises
    [OverflowError]. *)
Lemma engagement_rate_is_not_always_engagement :
  (exists row,
      row_of_tweet (sample_tweet 0 (2 ^ 53 + 1) 0 0 "hello") = Ok row
      /\ likes row = 0
      /\ engagement row = 2 ^ 53 + 1
      /\ engagement_rate_float row = Some (inject_Z (2 ^ 53))
      /\ ~ (inject_Z (2 ^ 53) == inject_Z (engagement row))%Q)
  /\ (exists row,
         row_of_tweet (sample_tweet 0 (2 ^ 1024) 0 0 "hello") = Ok row
         /\ engagement_rate_float row = None).
Proof.
  split.
  - eexists. split; [reflexivity|]. split; [reflexivity|]. split; [reflexivity|].
    split; [vm_compute; reflexivity|]. cbn [engagement]. rewrite inject_Z_injective.
    vm_compute. discriminate.
  - eexists. split; [reflexivity|]. vm_compute. reflexivity.
Qed.

(** C8, amended.  For every post whose engagement is below [2^1023] in
    absolute value and whose like count is below [2^1022], the row is
    built without an exception and its [engagement_rate] is the float
    nearest to the engagement divided by [max(like_count, 1)]: the
    division does not overflow, and the float differs from the quotient
    by at most the fraction [2^-53] of it.  With no likes and an
    engagement of at most [2^53] in absolute value the rate is the
    engagement itself.  Whatever the posts, the transformer never raises
    [ZeroDivisionError]. *)
Theorem engagement_rate_nearest_float (tweet : Tweet) :
  Z.abs (total_engagement tweet) < 2 ^ 1023 ->
  like_count (tweet_public_metrics tweet) < 2 ^ 1022 ->
  (exists row f,
      let quotient :=
        (inject_Z (engagement row)
         / inject_Z (Z.max (like_count (tweet_public_metrics tweet)) 1))%Q in
      row_of_tweet tweet = Ok row
      /\ engagement row = total_engagement tweet
      /\ engagement_rate_float row = Some f
      /\ (Qabs (f - quotient) <= Qabs quotient / Qpower 2 53)%Q
      /\ (like_count (tweet_public_metrics tweet) = 0 ->
          Z.abs (engagement row) <= 2 ^ 53 ->
          f = inject_Z (engagement row)))
  /\ (forall tweets msg, tweets_to_dataframe tweets <> Raise (ZeroDivisionError msg)).
Proof.
  intros He Hl. split.
  - destruct (row_of_tweet_ok tweet) as (row & Hrow & Heng & _ & _ & Hrate).
    set (e := total_engagement tweet) in *.
    set (d := Z.max (like_count (tweet_public_metrics tweet)) 1) in *.
    assert (Hd : 1 <= d <= 2 ^ 1022) by (subst d; lia).
    assert (Hd' : (0 < inject_Z d)%Q)
      by (change 0%Q with (inject_Z 0); rewrite <- Zlt_Qlt; lia).
    destruct (quotient_float e d) as (f & Hf & Hnear); [exact He | lia |].
    rewrite <- Hrate in Hf.
    exists row, f. cbv zeta. split; [exact Hrow|]. split; [exact Heng|].
    split; [exact Hf|]. split; [rewrite Heng; exact Hnear|].
    intros Hzero Hsmall. unfold engagement_rate_float in Hf. rewrite Hrate in Hf.
    assert (Hq : Qred (inject_Z e / inject_Z d) = inject_Z e).
    { transitivity (Qred (inject_Z e)); [|apply Qred_inject_Z]. apply Qred_complete.
      subst d. rewrite Hzero. change (Z.max 0 1) with 1. unfold Qdiv.
      change (/ inject_Z 1)%Q with 1%Q. apply Qmult_1_r. }
    rewrite Hq, binary64_exact in Hf by (rewrite <- Heng; exact Hsmall).
    rewrite Heng. congruence.
  - intros tweets msg. destruct (rows_of_tweets_ok tweets) as (rows & Hrows & _).
    unfold tweets_to_dataframe. rewrite Hrows. cbn [bind].
    destruct rows; discriminate.
Qed.

(** A post without likes: 2 retweets and 3 replies give the rate 5. *)
Lemma engagement_rate_nearest_float_witness :
  exists row,
    row_of_tweet (sample_tweet 0 2 3 0 "hello") = Ok row
    /\ engagement_rate_float row = Some 5%Q.
Proof.
  destruct (engagement_rate_nearest_float (sample_tweet 0 2 3 0 "hello"))
    as ((row & f & Hrow & He & Hf & _ & Hzero) & _).
  - vm_compute. reflexivity.
  - vm_compute. reflexivity.
  - exists row. split; [exact Hrow|]. rewrite Hf, Hzero.
    + rewrite He. reflexivity.
    + reflexivity.
    + rewrite He. vm_compute. discriminate.
Defined.


(** ** The summary of the standard lane *)

Lemma frame_at_assign (ref : nat) (values : list category) (w : world) :
  frame_at ref (assign_content_category ref values w)
  = set_content_category (frame_at ref w) values.
Proof.
  unfold frame_at at 1. unfold assign_content_category. cbn [frames].
  rewrite lookup_insert_eq. reflexivity.
Qed.

Lemma prepare_content_data_summary (ref : nat) (w : world) :
  fst (prepare_content_data ref w)
  = Summary.summarize
      (set_content_category (frame_at ref w)
         (map categorize_tweet (map text (df_rows (frame_at ref w))))).
Proof.
  unfold prepare_content_data. cbn [fst]. rewrite frame_at_assign. reflexivity.
Qed.

(** The only rational whose square is 1/4 and that is not negative. *)
Lemma half_is_the_root (r : Q) : (0 <= r -> r * r == 1 # 4 -> r == 1 # 2)%Q.
Proof.
  intros H0 Hsq.
  assert (H : ((r - (1 # 2)) * (r + (1 # 2)) == 0)%Q) by (ring_simplify; rewrite Hsq; reflexivity).
  apply Qmult_integral in H as [H|H]; lra.
Qed.

(** C4, counterexample.  The claim as the specification states it fails
    on the scenario's frame: the ratio of the standard deviation to the
    mean is not within a hundredth of 0.408, and it is not printed as
    0.41. *)
Lemma consistency_ratio_is_not_0408 :
  Summary.engagement_column scenario_frame = [5; 10; 15]
  /\ ~ (exists (s : PyNum.surd) (r : Q),
          Summary.consistency_ratio scenario_frame = Some s
          /\ PyNum.surd_is s r
          /\ ((408 # 1000) - (1 # 100) <= r <= (408 # 1000) + (1 # 100))%Q)
  /\ Summary.engagement_consistency (fst (prepare_content_data 0
        (snd (alloc_frame scenario_frame initial_world)))) <> "0.41".
Proof.
  split; [reflexivity|]. split.
  - intros (s & r & Hs & [H0 Hsq] & Hlo & Hhi).
    vm_compute in Hs. injection Hs as <-. cbn [PyNum.coeff PyNum.radicand] in H0, Hsq.
    assert (Hr : (r == 1 # 2)%Q) by (apply half_is_the_root; [lra | rewrite Hsq; reflexivity]).
    rewrite Hr in Hhi. vm_compute in Hhi. apply Hhi. reflexivity.
  - vm_compute. discriminate.
Qed.

(** C4, amended.  For every frame whose engagement column is 5, 10, 15 the
    standard lane's summary reports the mean 10, the median 10 and the
    maximum 15; the standard deviation is the sample one (divisor n - 1),
    which is 5, so the consistency ratio is 0.5; the four figures are
    printed as 10.0, 10.0, 15 and 0.50. *)
Theorem summary_of_5_10_15 (ref : nat) (w : world) :
  Summary.engagement_column (frame_at ref w) = [5; 10; 15] ->
  let summary := fst (prepare_content_data ref w) in
  let column := Summary.engagement_column (frame_at ref (snd (prepare_content_data ref w))) in
  column = [5; 10; 15]
  /\ PyNum.mean column = Some 10%Q
  /\ PyNum.median column = Some 10%Q
  /\ PyNum.max column = Some 15
  /\ PyNum.var column = Some 25%Q
  /\ (exists s, PyNum.std column = Some s /\ PyNum.surd_is s 5)
  /\ (exists s, Summary.consistency_ratio (frame_at ref (snd (prepare_content_data ref w))) = Some s
                /\ PyNum.surd_is s (1 # 2))
  /\ Summary.average_engagement summary = "10.0"
  /\ Summary.median_engagement summary = "10.0"
  /\ Summary.best_performing_tweet summary = "15"
  /\ Summary.engagement_consistency summary = "0.50".
Proof.
  intros Hcol summary column.
  assert (Hcol' : column = [5; 10; 15]).
  { subst column. unfold prepare_content_data. cbn [snd].
    rewrite frame_at_assign. exact Hcol. }
  assert (Hsum : forall df, Summary.engagement_column df = [5; 10; 15] ->
                   Summary.average_engagement (Summary.summarize df) = "10.0"
                   /\ Summary.median_engagement (Summary.summarize df) = "10.0"
                   /\ Summary.best_performing_tweet (Summary.summarize df) = "15"
                   /\ Summary.engagement_consistency (Summary.summarize df) = "0.50").
  { intros df H. unfold Summary.summarize, Summary.consistency_ratio.
    cbn [Summary.average_engagement Summary.median_engagement
         Summary.best_performing_tweet Summary.engagement_consistency].
    rewrite H. repeat split; vm_compute; reflexivity. }
  split; [exact Hcol'|]. rewrite Hcol'.
  split; [reflexivity|]. split; [reflexivity|]. split; [reflexivity|].
  split; [reflexivity|]. split.
  { eexists. split; [reflexivity|]. split; vm_compute; [discriminate | reflexivity]. }
  split.
  { unfold Summary.consistency_ratio. fold column. rewrite Hcol'.
    eexists. split; [reflexivity|]. split; vm_compute; [discriminate | reflexivity]. }
  subst summary. rewrite prepare_content_data_summary. apply Hsum. exact Hcol.
Qed.

Lemma summary_of_5_10_15_witness :
  Summary.engagement_consistency
    (fst (prepare_content_data 0 (snd (alloc_frame scenario_frame initial_world)))) = "0.50".
Proof.
  apply (summary_of_5_10_15 0 (snd (alloc_frame scenario_frame initial_world))).
  reflexivity.
Defined.

(** The printed consistency ratio is the nearest multiple of [10^-d]: for
    a surd [c * sqrt x] with [c] and [x] not negative, the integer [k]
    chosen by [surd_round_scaled] satisfies
    [k - 1/2 <= c * sqrt x * 10^d < k + 1/2], stated on the squares. *)
Lemma surd_round_scaled_nearest (d : nat) (s : PyNum.surd) :
  (0 <= PyNum.coeff s)%Q -> (0 <= PyNum.radicand s)%Q ->
  let k := PyNum.surd_round_scaled d s in
  let c := (PyNum.coeff s * inject_Z (10 ^ Z.of_nat d))%Q in
  0 <= k
  /\ (k = 0
      \/ (inject_Z (2 * k - 1) * inject_Z (2 * k - 1) <= 4 * c * c * PyNum.radicand s)%Q)
  /\ (4 * c * c * PyNum.radicand s < inject_Z (2 * k + 1) * inject_Z (2 * k + 1))%Q.
Proof.
  intros Hc Hx k c. subst k. unfold PyNum.surd_round_scaled. fold c.
  assert (Hb : Qle_bool 0 (PyNum.coeff s) = true) by (now apply Qle_bool_iff).
  rewrite Hb. set (x := (4 * c * c * PyNum.radicand s)%Q).
  assert (H0 : (0 <= x)%Q).
  { subst x. generalize dependent (PyNum.radicand s). intros r Hr. nra. }
  pose proof (Qfloor_le x) as Hlo. pose proof (Qlt_floor x) as Hhi.
  set (f := Qfloor x) in *.
  assert (Hf : 0 <= f).
  { assert (H : (inject_Z 0 < inject_Z (f + 1))%Q) by (eapply Qle_lt_trans; eassumption).
    rewrite <- Zlt_Qlt in H. lia. }
  pose proof (Z.sqrt_spec f Hf) as [Hs1 Hs2]. pose proof (Z.sqrt_nonneg f) as Hn.
  set (n := Z.sqrt f) in *. set (k := (n + 1) / 2).
  assert (Hk : 2 * k <= n + 1 < 2 * k + 2) by (subst k; Z.div_mod_to_equations; lia).
  split; [lia|]. split.
  - destruct (Z.eq_dec k 0) as [Hz|Hz]; [left; exact Hz | right].
    eapply Qle_trans; [|exact Hlo].
    rewrite <- inject_Z_mult, <- Zle_Qle. nia.
  - eapply Qlt_le_trans; [exact Hhi|].
    rewrite <- inject_Z_mult, <- Zle_Qle. nia.
Qed.

(** The order in which [groupby] lists the categories is the order of
    their labels as strings. *)
Lemma sorted_categories_by_label :
  map category_label Summary.sorted_categories
  = ["Educational"; "General"; "News/Updates"; "Opinion/Commentary"; "Personal";
     "Promotional"]
  /\ forallb (fun ab => String.ltb (fst ab) (snd ab))
       (combine (map category_label Summary.sorted_categories)
                (tail (map category_label Summary.sorted_categories))) = true.
Proof. split; reflexivity. Qed.

(** ** The client leaves only its own events *)

Lemma client_steps_refl (w : world) : client_steps w w.
Proof.
  unfold client_steps. split; [exists []; split; reflexivity|].
  repeat split; lia.
Qed.

Lemma client_steps_trans (w1 w2 w3 : world) :
  client_steps w1 w2 -> client_steps w2 w3 -> client_steps w1 w3.
Proof.
  intros ((p & Hp & Hc) & Ht & Hn & Hch & Hf & Hnf)
         ((q & Hq & Hd) & Ht' & Hn' & Hch' & Hf' & Hnf').
  split.
  - exists (q ++ p). rewrite Hq, Hp, app_assoc. split; [reflexivity|].
    rewrite forallb_app, Hc, Hd. reflexivity.
  - repeat split; try lia; congruence.
Qed.

Lemma client_steps_event (w w' : world) (ev : event) :
  log w' = ev :: log w -> client_event ev = true ->
  now w <= now w' -> (provider_calls w <= provider_calls w')%nat ->
  chat_calls w' = chat_calls w -> frames w' = frames w -> next_frame w' = next_frame w ->
  client_steps w w'.
Proof.
  intros Hl He Ht Hn Hc Hf Hnf. split; [|auto].
  exists [ev]. split; [exact Hl | simpl; now rewrite He].
Qed.

Lemma client_steps_sleep (d : Z) (w : world) : 0 <= d -> client_steps w (sleep d w).
Proof.
  intros Hd. apply (client_steps_event _ _ (EvSleep d)); simpl; auto; lia.
Qed.

Lemma client_steps_provider_call (e : env) (r : request) (w : world) :
  client_steps w (provider_call e r w).
Proof.
  apply (client_steps_event _ _ (EvCall r (now w))); simpl; auto; lia.
Qed.

Lemma client_steps_gate (self : X_tweets) (w : world) :
  client_steps w (snd (_rate_limited_request self w)).
Proof.
  unfold _rate_limited_request. cbn [snd].
  destruct (Z.ltb_spec (now w - last_request_time self) (min_delay self)).
  - eapply client_steps_trans;
      [apply (client_steps_sleep (min_delay self - (now w - last_request_time self))); lia|].
    apply (client_steps_event _ _ (EvGate (now (sleep (min_delay self - (now w - last_request_time self)) w))));
      simpl; auto; lia.
  - apply (client_steps_event _ _ (EvGate (now w))); simpl; auto; lia.
Qed.

Local Ltac client_chain :=
  repeat first
    [ apply client_steps_refl
    | eapply client_steps_trans; [|apply client_steps_sleep; lia]
    | eapply client_steps_trans; [|apply client_steps_provider_call] ].

Lemma client_steps_get_user_info (e : env) (fuel : nat) (username : string)
    (self : X_tweets) (w : world) :
  client_steps w (snd (state_of (get_user_info e fuel username self w))).
Proof.
  revert self w. induction fuel as [|fuel IH]; intros self w; cbn [get_user_info].
  - apply client_steps_refl.
  - pose proof (client_steps_gate self w) as Hg.
    destruct (_rate_limited_request self w) as [self1 w1]. cbn [snd] in Hg.
    unfold client_get_user.
    destruct (api_get_user e (provider_calls w1) username).
    + cbn [state_of snd]. eapply client_steps_trans; [exact Hg|]. client_chain.
    + eapply client_steps_trans; [|apply IH].
      eapply client_steps_trans; [exact Hg|]. client_chain.
    + cbn [state_of snd]. eapply client_steps_trans; [exact Hg|]. client_chain.
Qed.

Lemma client_steps_get_users_tweets (e : env) (fuel : nat) (username : string)
    (max_tweets : Z) (self : X_tweets) (w : world) :
  client_steps w (snd (state_of (get_users_tweets e fuel username max_tweets self w))).
Proof.
  revert self w. induction fuel as [|fuel IH]; intros self w; cbn [get_users_tweets].
  - apply client_steps_refl.
  - pose proof (client_steps_gate self w) as Hg.
    destruct (_rate_limited_request self w) as [self1 w1]. cbn [snd] in Hg.
    unfold client_get_user.
    destruct (api_get_user e (provider_calls w1) username) as [[u|]| |msg].
    + unfold client_get_users_tweets.
      destruct (api_get_users_tweets e _ (user_id u) max_tweets) as [[[|t ts]|]| |msg].
      all: try (cbn [state_of snd]; eapply client_steps_trans; [exact Hg|];
                solve [client_chain]).
      eapply client_steps_trans; [|apply IH].
      eapply client_steps_trans; [exact Hg|]. client_chain.
    + cbn [state_of snd]. eapply client_steps_trans; [exact Hg|]. client_chain.
    + eapply client_steps_trans; [|apply IH].
      eapply client_steps_trans; [exact Hg|]. client_chain.
    + cbn [state_of snd]. eapply client_steps_trans; [exact Hg|]. client_chain.
Qed.

Lemma lanes_entered_app (p l : list event) :
  lanes_entered (p ++ l) = lanes_entered p ++ lanes_entered l.
Proof.
  induction p as [|[] p IH]; simpl; auto. now rewrite IH.
Qed.

Lemma chats_logged_app (p l : list event) :
  chats_logged (p ++ l) = (chats_logged p + chats_logged l)%nat.
Proof.
  induction p as [|[] p IH]; simpl; auto.
Qed.

Lemma column_assignments_app (p l : list event) :
  column_assignments (p ++ l) = column_assignments p ++ column_assignments l.
Proof.
  induction p as [|[] p IH]; simpl; auto. now rewrite IH.
Qed.

Lemma client_events_silent (p : list event) :
  forallb client_event p = true ->
  lanes_entered p = [] /\ chats_logged p = O /\ column_assignments p = [].
Proof.
  induction p as [|[] p IH]; simpl; intros H; try discriminate; auto.
Qed.

(** ** The orchestrator *)

(** C9.  When the fetch returns an empty list of posts, the run returns
    the null result in the very state the fetch left: since the start of
    the run no lane was entered, no generation call was made and no frame
    was created. *)
Theorem no_posts_no_analysis (e : env) (fuel : nat) (username : string)
    (max_tweets : Z) (use_langchain : bool) (w : world)
    (client : X_tweets) (s : X_tweets * world) :
  X_tweets_init e = Some client ->
  get_users_tweets e fuel username max_tweets client w = Returned [] s ->
  get_profile_analysis e fuel username max_tweets use_langchain w = Returned None (snd s)
  /\ lanes_entered (log (snd s)) = lanes_entered (log w)
  /\ chats_logged (log (snd s)) = chats_logged (log w)
  /\ chat_calls (snd s) = chat_calls w
  /\ frames (snd s) = frames w.
Proof.
  intros Hinit Hfetch.
  pose proof (client_steps_get_users_tweets e fuel username max_tweets client w) as Hsteps.
  unfold get_profile_analysis. rewrite Hinit, Hfetch in *. cbn [state_of] in Hsteps.
  destruct s as [client' w1]. cbn [snd] in *.
  destruct Hsteps as ((p & Hp & Hc) & _ & _ & Hch & Hf & _).
  destruct (client_events_silent p Hc) as (Hl & Hg & _).
  split; [reflexivity|].
  rewrite Hp, lanes_entered_app, chats_logged_app, Hl, Hg. auto.
Qed.

Lemma no_posts_no_analysis_witness :
  get_profile_analysis (sample_env (Some "sk-key") false 0 []) 1 "someone" 10 true initial_world
  = Returned None
      (snd (state_of (get_users_tweets (sample_env (Some "sk-key") false 0 []) 1
                        "someone" 10 fresh_client initial_world))).
Proof.
  apply (no_posts_no_analysis (sample_env (Some "sk-key") false 0 []) 1 "someone" 10 true
           initial_world fresh_client).
  - reflexivity.
  - reflexivity.
Defined.

(** ** The two lanes *)

Lemma _call_openai_world (e : env) (p : prompt) (w : world) :
  exists r, snd (_call_openai e p w) = chat_call r w.
Proof.
  unfold _call_openai. eexists.
  destruct (chat_completion e (chat_calls w) _); reflexivity.
Qed.

Lemma gen_ai_analysis_world (e : env) (p : prompt) (w : world) :
  exists r, snd (gen_ai_analysis e p w) = chat_call r w.
Proof.
  unfold gen_ai_analysis. eexists.
  destruct (chat_completion e (chat_calls w) _); reflexivity.
Qed.

(** The standard lane: its dictionary carries the analysis text and no
    error key; it assigns the category column once more and makes one
    generation call. *)
Lemma analyze_content_strategy_spec (e : env) (self : ContentAnalysisAgent)
    (tweets_df : nat) (username : string) (w : world) :
  let out := analyze_content_strategy e self tweets_df username w in
  let cats := map categorize_tweet (map text (df_rows (frame_at tweets_df w))) in
  (exists analysis, fst out !! "analysis" = Some (VStr analysis))
  /\ fst out !! "error" = None
  /\ (exists r, log (snd out)
                = EvChat r :: EvSetColumn tweets_df "content_category" cats
                  :: EvLane StandardLane :: log w)
  /\ frames (snd out) = <[tweets_df := set_content_category (frame_at tweets_df w) cats]> (frames w).
Proof.
  unfold analyze_content_strategy, prepare_content_data. cbv zeta.
  match goal with
  | |- context [gen_ai_analysis e ?p ?w0] =>
      destruct (gen_ai_analysis_world e p w0) as [r Hr];
      destruct (gen_ai_analysis e p w0) as [ai w1]
  end.
  cbn [fst snd] in *. subst w1. split; [|split; [|split]].
  - exists ai. reflexivity.
  - reflexivity.
  - exists r. reflexivity.
  - reflexivity.
Qed.

Lemma _enhanced_openai_analysis_spec (e : env) (self : LangChainContentAgent)
    (tweets_df : nat) (username : string) (w : world) :
  exists d r1 r2 r3,
    _enhanced_openai_analysis e self tweets_df username w
    = (Ok d, chat_call r3 (chat_call r2 (chat_call r1 w)))
    /\ d !! "error" = None
    /\ (exists analyses, d !! "theme_analyses" = Some (VDict analyses))
    /\ (exists text, d !! "recommendations" = Some (VStr text)).
Proof.
  unfold _enhanced_openai_analysis.
  match goal with
  | |- context [_call_openai e ?p w] =>
      destruct (_call_openai_world e p w) as [r1 H1];
      destruct (_call_openai e p w) as [themes w1]
  end.
  cbn [snd] in H1. subst w1.
  match goal with
  | |- context [_call_openai e ?p ?w0] =>
      destruct (_call_openai_world e p w0) as [r2 H2];
      destruct (_call_openai e p w0) as [engagement w2]
  end.
  cbn [snd] in H2. subst w2.
  match goal with
  | |- context [_call_openai e ?p ?w0] =>
      destruct (_call_openai_world e p w0) as [r3 H3];
      destruct (_call_openai e p w0) as [recommendations w3]
  end.
  cbn [snd] in H3. subst w3.
  eexists _, r1, r2, r3. split; [reflexivity|]. split; [reflexivity|].
  split; eexists; reflexivity.
Qed.

(** The enhanced lane never raises: it returns either the dictionary of
    [_enhanced_openai_analysis] or the error marker; it assigns no column
    and leaves the frames alone. *)
Lemma analyze_content_with_langchain_spec (e : env) (self : LangChainContentAgent)
    (tweets_df : nat) (username : string) (w : world) :
  let out := analyze_content_with_langchain e self tweets_df username w in
  (if langchain_enabled self
   then exists message, fst out !! "error" = Some (VStr message)
                        /\ fst out !! "theme_analyses" = None
                        /\ fst out !! "recommendations" = None
   else fst out !! "error" = None
        /\ (exists analyses, fst out !! "theme_analyses" = Some (VDict analyses))
        /\ (exists text, fst out !! "recommendations" = Some (VStr text)))
  /\ (exists p, log (snd out) = p ++ EvLane EnhancedLane :: log w
                /\ column_assignments p = [])
  /\ frames (snd out) = frames w.
Proof.
  unfold analyze_content_with_langchain. cbv zeta.
  destruct (langchain_enabled self).
  - cbn [lookup_method lane_methods String.eqb fst snd]. split; [|split].
    + eexists. repeat split; reflexivity.
    + exists []. split; reflexivity.
    + reflexivity.
  - cbn [lookup_method lane_methods fst snd]. rewrite String.eqb_refl.
    destruct (_enhanced_openai_analysis_spec e self tweets_df username
                (push (EvLane EnhancedLane) w))
      as (d & r1 & r2 & r3 & -> & He & Ht & Hr).
    cbn [fst snd]. split; [auto|]. split; [|reflexivity].
    exists [EvChat r3; EvChat r2; EvChat r1]. split; reflexivity.
Qed.

(** A run completes as soon as the client is constructed, the fetch
    returns at least one post and the content agent is constructed. *)
Lemma run_completes (e : env) (fuel : nat) (username : string) (max_tweets : Z)
    (use_langchain : bool) (w : world) (client : X_tweets) (agent : ContentAnalysisAgent)
    (t : Tweet) (ts : list Tweet) (s : X_tweets * world) :
  X_tweets_init e = Some client ->
  get_users_tweets e fuel username max_tweets client w = Returned (t :: ts) s ->
  ContentAnalysisAgent_init e = Ok agent ->
  exists results w',
    get_profile_analysis e fuel username max_tweets use_langchain w
    = Returned (Some results) w'.
Proof.
  intros Hclient Hfetch Hagent. unfold get_profile_analysis.
  rewrite Hclient, Hfetch. destruct s as [client' w1].
  destruct (rows_of_tweets_ok (t :: ts)) as (rows & Hrows & Hall).
  unfold tweets_to_dataframe. rewrite Hrows. cbn [bind].
  destruct rows as [|row rows]; [inversion Hall|].
  cbn [alloc_frame]. rewrite Hagent.
  match goal with
  | |- context [if use_langchain then ?a else ?b] =>
      destruct (if use_langchain then a else b) as [partial w4]
  end.
  destruct (analyze_content_strategy e agent (next_frame w1) username w4) as [standard w5].
  eauto.
Qed.

(** C3.  An enhanced agent whose [langchain_enabled] flag is set returns
    the error marker for every frame, user name and world: the method
    [_langchain_analysis] it selects is not defined on the class, the
    [AttributeError] is caught by the method's own handler, and no
    generation call is made.  The names [PromptTemplate] and [RetrievalQA]
    that the retrieval helpers read are not bound in the module either. *)
Theorem langchain_enabled_returns_error_marker (e : env) (self : LangChainContentAgent)
    (tweets_df : nat) (username : string) (w : world) :
  langchain_enabled self = true ->
  let missing :=
    AttributeError "'LangChainContentAgent' object has no attribute '_langchain_analysis'" in
  let w1 := push (EvLane EnhancedLane) w in
  analyze_content_with_langchain e self tweets_df username w
  = (error_marker e self username missing w1, w1)
  /\ fst (analyze_content_with_langchain e self tweets_df username w) !! "error"
     = Some (VStr "'LangChainContentAgent' object has no attribute '_langchain_analysis'")
  /\ lookup_method "_langchain_analysis" lane_methods = Raise missing
  /\ chat_calls (snd (analyze_content_with_langchain e self tweets_df username w))
     = chat_calls w
  /\ load_global e "PromptTemplate" = Raise (NameError "name 'PromptTemplate' is not defined")
  /\ load_global e "RetrievalQA" = Raise (NameError "name 'RetrievalQA' is not defined").
Proof.
  intros Henabled missing w1.
  assert (Hrun : analyze_content_with_langchain e self tweets_df username w
                 = (error_marker e self username missing w1, w1)).
  { unfold analyze_content_with_langchain. cbv zeta. rewrite Henabled. reflexivity. }
  rewrite Hrun. cbn [fst snd].
  split; [reflexivity|]. split; [reflexivity|]. split; [reflexivity|].
  split; [reflexivity|].
  unfold load_global, module_globals.
  destruct (langchain_available e); split; reflexivity.
Qed.

Lemma langchain_enabled_returns_error_marker_witness :
  exists agent,
    LangChainContentAgent_init (sample_env (Some "sk-key") true 0 scenario_tweets) = Ok agent
    /\ langchain_enabled agent = true
    /\ fst (analyze_content_with_langchain
              (sample_env (Some "sk-key") true 0 scenario_tweets) agent 0 "someone"
              initial_world) !! "error"
       = Some (VStr "'LangChainContentAgent' object has no attribute '_langchain_analysis'").
Proof.
  eexists. split; [reflexivity|]. split; [reflexivity|].
  apply (langchain_enabled_returns_error_marker
           (sample_env (Some "sk-key") true 0 scenario_tweets)
           {| lc_name := "Enhanced Content Analysis Agent"; langchain_enabled := true |}
           0 "someone" initial_world).
  reflexivity.
Defined.

(** C1, counterexample.  The claim as the specification states it fails
    when the enhanced agent cannot be constructed: with an empty
    [OPENAI_API_KEY] the run completes with the enhanced lane requested,
    and its result has the standard entry but no enhanced key. *)
Lemma enhanced_key_omitted_when_agent_fails :
  match get_profile_analysis (sample_env (Some "") false 0 scenario_tweets) 1
          "someone" 10 true initial_world with
  | Returned (Some results) _ =>
      results !! "langchain" = None /\ is_Some (results !! "standard")
  | _ => False
  end.
Proof.
  vm_compute. split; [reflexivity | eexists; reflexivity].
Qed.

(** C1, amended.  The result of every completed run holds the standard
    entry, a dictionary with the analysis text and no error key.  When the
    enhanced lane is requested and the enhanced agent is constructed, the
    result also holds the enhanced key, and its dictionary is either the
    error marker (an error message, no analyses) or a successful result
    (analyses and recommendations, no error key).  When the enhanced lane
    is not requested, or the agent's constructor raises, the enhanced key
    is absent. *)
Theorem results_hold_standard_and_enhanced (e : env) (fuel : nat) (username : string)
    (max_tweets : Z) (use_langchain : bool) (w : world)
    (results : gmap string pyval) (w' : world) :
  get_profile_analysis e fuel username max_tweets use_langchain w
  = Returned (Some results) w' ->
  (exists standard analysis,
      results !! "standard" = Some (VDict standard)
      /\ standard !! "analysis" = Some (VStr analysis)
      /\ standard !! "error" = None)
  /\ match use_langchain, LangChainContentAgent_init e with
     | true, Ok agent =>
         exists enhanced,
           results !! "langchain" = Some (VDict enhanced)
           /\ (((exists message, enhanced !! "error" = Some (VStr message))
                /\ enhanced !! "theme_analyses" = None
                /\ enhanced !! "recommendations" = None)
               \/ (enhanced !! "error" = None
                   /\ (exists analyses, enhanced !! "theme_analyses" = Some (VDict analyses))
                   /\ (exists text, enhanced !! "recommendations" = Some (VStr text))))
     | _, _ => results !! "langchain" = None
     end.
Proof.
  unfold get_profile_analysis.
  destruct (X_tweets_init e) as [client|]; [|discriminate].
  destruct (get_users_tweets e fuel username max_tweets client w)
    as [[|t ts] [client' w1] | [client' w1]]; try discriminate.
  destruct (tweets_to_dataframe (t :: ts)) as [df|]; [|discriminate].
  cbn [alloc_frame].
  destruct (ContentAnalysisAgent_init e) as [content_agent|]; [|discriminate].
  set (w3 := assign_content_category _ _ _).
  assert (Hstd : forall (partial : gmap string pyval) w4,
             let out := analyze_content_strategy e content_agent (next_frame w1) username w4 in
             exists standard analysis,
               <["standard" := VDict (fst out)]> partial !! "standard" = Some (VDict standard)
               /\ standard !! "analysis" = Some (VStr analysis)
               /\ standard !! "error" = None).
  { intros partial w4 out.
    destruct (analyze_content_strategy_spec e content_agent (next_frame w1) username w4)
      as ((analysis & Ha) & Herr & _).
    exists (fst out), analysis. rewrite lookup_insert_eq. auto. }
  destruct use_langchain.
  - destruct (LangChainContentAgent_init e) as [agent|].
    + pose proof (analyze_content_with_langchain_spec e agent (next_frame w1) username w3)
        as (Hshape & _).
      destruct (analyze_content_with_langchain e agent (next_frame w1) username w3)
        as [enhanced w4].
      cbn [fst] in Hshape. specialize (Hstd (<["langchain" := VDict enhanced]> ∅) w4).
      destruct (analyze_content_strategy e content_agent (next_frame w1) username w4)
        as [standard w5].
      intros [= <- <-]. split; [exact Hstd|].
      exists enhanced. rewrite lookup_insert_ne by discriminate. rewrite lookup_insert_eq.
      split; [reflexivity|].
      destruct (langchain_enabled agent).
      * left. destruct Hshape as (message & Hm & Ht & Hr). eauto.
      * right. exact Hshape.
    + specialize (Hstd ∅ w3).
      destruct (analyze_content_strategy e content_agent (next_frame w1) username w3)
        as [standard w5].
      intros [= <- <-]. split; [exact Hstd|].
      rewrite lookup_insert_ne by discriminate. apply lookup_empty.
  - specialize (Hstd ∅ w3).
    destruct (analyze_content_strategy e content_agent (next_frame w1) username w3)
      as [standard w5].
    intros [= <- <-]. split; [exact Hstd|].
    rewrite lookup_insert_ne by discriminate. apply lookup_empty.
Qed.

(** The scenario's run completes and both keys are present. *)
Lemma results_hold_standard_and_enhanced_witness :
  scenario_run = Returned (Some (results_of scenario_run)) (state_of scenario_run)
  /\ is_Some (results_of scenario_run !! "standard")
  /\ is_Some (results_of scenario_run !! "langchain").
Proof.
  assert (Hrun : scenario_run
                 = Returned (Some (results_of scenario_run)) (state_of scenario_run))
    by (vm_compute; reflexivity).
  split; [exact Hrun|].
  destruct (results_hold_standard_and_enhanced scenario_env 1 "someone" 10 true
              initial_world (results_of scenario_run) (state_of scenario_run) Hrun)
    as ((standard & analysis & Hs & _) & Hl).
  change (LangChainContentAgent_init scenario_env)
    with (Ok {| lc_name := "Enhanced Content Analysis Agent"; langchain_enabled := false |})
    in Hl.
  cbv iota in Hl. destruct Hl as (enhanced & Hl & _).
  split; eexists; eassumption.
Defined.

(** C5, counterexample.  The claim as the specification states it fails
    on the scenario's run: the category column of the run's frame is
    assigned twice, once by the orchestrator and once more by the standard
    lane. *)
Lemma category_column_assigned_more_than_once :
  column_assignments (log (state_of scenario_run))
  = [ (0%nat, "content_category", [Educational; Personal; General]);
      (0%nat, "content_category", [Educational; Personal; General]) ]
  /\ length (column_assignments (log (state_of scenario_run))) <> 1%nat.
Proof.
  split; [vm_compute; reflexivity | vm_compute; discriminate].
Qed.

Lemma frame_at_alloc (df : DataFrame) (w : world) :
  frame_at (fst (alloc_frame df w)) (snd (alloc_frame df w)) = df.
Proof.
  unfold frame_at, alloc_frame. cbn [fst snd frames]. rewrite lookup_insert_eq. reflexivity.
Qed.

Lemma frame_at_frames (ref : nat) (w w' : world) :
  frames w' = frames w -> frame_at ref w' = frame_at ref w.
Proof. unfold frame_at. intros ->. reflexivity. Qed.

(** C5, amended.  Over a completed run the category column of the run's
    frame is assigned exactly twice: by the orchestrator right after the
    fetch, before any lane, and once more inside the standard lane.  Both
    assignments write the categorizer's label of each row's text, so the
    second leaves every row's category as it was; the enhanced lane
    assigns nothing. *)
Theorem category_column_assigned_twice (e : env) (fuel : nat) (username : string)
    (max_tweets : Z) (use_langchain : bool) (w : world)
    (results : gmap string pyval) (w' : world) :
  get_profile_analysis e fuel username max_tweets use_langchain w
  = Returned (Some results) w' ->
  exists (rows : list FeatureRow) (fetch enhanced : list event) (r : chat_request),
    let tweets_df := next_frame w in
    let cats := map categorize_tweet (map text rows) in
    log w' = EvChat r :: EvSetColumn tweets_df "content_category" cats
             :: EvLane StandardLane
             :: enhanced ++ EvSetColumn tweets_df "content_category" cats
             :: fetch ++ log w
    /\ forallb client_event fetch = true
    /\ column_assignments enhanced = []
    /\ column_assignments (firstn (length (log w') - length (log w)) (log w'))
       = [ (tweets_df, "content_category", cats); (tweets_df, "content_category", cats) ]
    /\ frame_at tweets_df w' = {| df_rows := rows; df_content_category := Some cats |}
    /\ length cats = length rows.
Proof.
  unfold get_profile_analysis.
  destruct (X_tweets_init e) as [client|]; [|discriminate].
  pose proof (client_steps_get_users_tweets e fuel username max_tweets client w) as Hfetch.
  destruct (get_users_tweets e fuel username max_tweets client w)
    as [[|t ts] [client' w1] | [client' w1]]; try discriminate.
  cbn [state_of snd] in Hfetch.
  destruct Hfetch as ((fetch & Hlog & Hclient) & _ & _ & _ & Hframes & Hnext).
  destruct (tweets_to_dataframe (t :: ts)) as [df|] eqn:Hdf; [|discriminate].
  pose proof (frame_at_alloc df w1) as Halloc. cbn [alloc_frame fst snd] in Halloc.
  cbn [alloc_frame].
  destruct (ContentAnalysisAgent_init e) as [content_agent|]; [|discriminate].
  rewrite Halloc.
  set (cats := map categorize_tweet (map text (df_rows df))).
  set (w2 := {| now := now w1; provider_calls := provider_calls w1;
                chat_calls := chat_calls w1;
                frames := <[next_frame w1 := df]> (frames w1);
                next_frame := S (next_frame w1); log := log w1 |}) in *.
  set (w3 := assign_content_category (next_frame w1) cats w2).
  assert (H3 : frame_at (next_frame w1) w3 = set_content_category df cats).
  { subst w3. rewrite frame_at_assign, Halloc. reflexivity. }
  assert (Hlog3 : log w3 = EvSetColumn (next_frame w1) "content_category" cats :: log w1)
    by reflexivity.
  assert (Hfinish : forall (partial : gmap string pyval) (w4 : world) (enhanced : list event),
             frames w4 = frames w3 ->
             log w4 = enhanced ++ log w3 ->
             column_assignments enhanced = [] ->
             (let (standard, w5) :=
                analyze_content_strategy e content_agent (next_frame w1) username w4 in
              Returned (Some (<["standard" := VDict standard]> partial)) w5)
             = Returned (Some results) w' ->
             exists (rows : list FeatureRow) (fetch enhanced : list event) (r : chat_request),
               let tweets_df := next_frame w in
               let cats := map categorize_tweet (map text rows) in
               log w' = EvChat r :: EvSetColumn tweets_df "content_category" cats
                        :: EvLane StandardLane
                        :: enhanced ++ EvSetColumn tweets_df "content_category" cats
                        :: fetch ++ log w
               /\ forallb client_event fetch = true
               /\ column_assignments enhanced = []
               /\ column_assignments (firstn (length (log w') - length (log w)) (log w'))
                  = [ (tweets_df, "content_category", cats);
                      (tweets_df, "content_category", cats) ]
               /\ frame_at tweets_df w'
                  = {| df_rows := rows; df_content_category := Some cats |}
               /\ length cats = length rows).
  { intros partial w4 enhanced Hf4 Hl4 Hquiet.
    pose proof (analyze_content_strategy_spec e content_agent (next_frame w1) username w4)
      as (_ & _ & (r & Hl5) & Hf5).
    destruct (analyze_content_strategy e content_agent (next_frame w1) username w4)
      as [standard w5].
    cbn [snd] in Hl5, Hf5. intros [= _ <-].
    rewrite (frame_at_frames _ _ _ Hf4), H3 in Hl5, Hf5. cbn [set_content_category df_rows] in Hl5, Hf5.
    fold cats in Hl5, Hf5.
    exists (df_rows df), fetch, enhanced, r. cbv zeta. fold cats. rewrite <- Hnext.
    assert (Hfull : log w5
                    = (EvChat r :: EvSetColumn (next_frame w1) "content_category" cats
                       :: EvLane StandardLane
                       :: enhanced ++ EvSetColumn (next_frame w1) "content_category" cats
                       :: fetch) ++ log w).
    { rewrite Hl5, Hl4, Hlog3, Hlog. cbn [app]. rewrite <- !app_assoc. reflexivity. }
    split; [rewrite Hfull; cbn [app]; rewrite <- !app_assoc; reflexivity|].
    split; [exact Hclient|]. split; [exact Hquiet|]. split; [|split].
    - rewrite Hfull. rewrite length_app, Nat.add_sub, firstn_app, Nat.sub_diag.
      rewrite firstn_all, firstn_O, app_nil_r.
      cbn [column_assignments]. rewrite column_assignments_app. cbn [column_assignments].
      rewrite Hquiet. destruct (client_events_silent fetch Hclient) as (_ & _ & ->).
      reflexivity.
    - unfold frame_at. rewrite Hf5, lookup_insert_eq. reflexivity.
    - subst cats. rewrite !length_map. reflexivity. }
  destruct use_langchain.
  - destruct (LangChainContentAgent_init e) as [agent|].
    + pose proof (analyze_content_with_langchain_spec e agent (next_frame w1) username w3)
        as (_ & (p & Hp & Hquiet) & Hf4).
      destruct (analyze_content_with_langchain e agent (next_frame w1) username w3)
        as [enhanced w4].
      cbn [snd] in Hp, Hf4.
      apply (Hfinish _ w4 (p ++ [EvLane EnhancedLane])); [exact Hf4 | |].
      * rewrite Hp, <- app_assoc. reflexivity.
      * rewrite column_assignments_app, Hquiet. reflexivity.
    + apply (Hfinish _ w3 []); reflexivity.
  - apply (Hfinish _ w3 []); reflexivity.
Qed.

Lemma category_column_assigned_twice_witness :
  exists rows,
    frame_at 0 (state_of scenario_run)
    = {| df_rows := rows;
         df_content_category := Some (map categorize_tweet (map text rows)) |}.
Proof.
  assert (Hrun : scenario_run
                 = Returned (Some (results_of scenario_run)) (state_of scenario_run))
    by (vm_compute; reflexivity).
  destruct (category_column_assigned_twice scenario_env 1 "someone" 10 true
              initial_world (results_of scenario_run) (state_of scenario_run) Hrun)
    as (rows & fetch & enhanced & r & _ & _ & _ & _ & Hframe & _).
  exists rows. exact Hframe.
Defined.

(** ** The rate-limited client *)

(** C2, counterexample.  The claim as the specification states it fails
    inside one fetch: the user lookup is issued at time 100 and the
    timeline request at time 103, three time-units later. *)
Lemma calls_of_one_fetch_three_apart :
  call_times (log (snd (state_of
     (get_users_tweets scenario_env 1 "someone" 10 fresh_client initial_world))))
  = [103; 100]
  /\ ~ spaced 5 (call_times (log (snd (state_of
          (get_users_tweets scenario_env 1 "someone" 10 fresh_client initial_world))))).
Proof.
  split; [reflexivity|].
  change (call_times _) with [103; 100]. simpl. lia.
Qed.

Lemma gate_provider_calls (self : X_tweets) (w : world) :
  provider_calls (snd (_rate_limited_request self w)) = provider_calls w.
Proof.
  unfold _rate_limited_request. cbn [snd].
  destruct (_ <? _); reflexivity.
Qed.

Lemma gate_now (self : X_tweets) (w : world) :
  let s := _rate_limited_request self w in
  now w <= now (snd s)
  /\ last_request_time self + min_delay self <= now (snd s)
  /\ last_request_time (fst s) = now (snd s)
  /\ min_delay (fst s) = min_delay self.
Proof.
  unfold _rate_limited_request. cbn [fst snd].
  destruct (Z.ltb_spec (now w - last_request_time self) (min_delay self));
    cbn [now push sleep]; repeat split; lia.
Qed.

(** The gate followed by a provider call keeps the invariant. *)
Lemma invariant_gated_call (e : env) (r : request) (self : X_tweets) (w : world) :
  client_invariant self w ->
  client_invariant (fst (_rate_limited_request self w))
                   (provider_call e r (snd (_rate_limited_request self w))).
Proof.
  intros (Hd & Hlast & Hsp & Hans & Hun).
  pose proof (gate_now self w) as (_ & Hnow & Hstamp & Hdelay). cbv zeta in *.
  unfold client_invariant, _rate_limited_request in *. cbn [fst snd] in *.
  destruct (Z.ltb_spec (now w - last_request_time self) (min_delay self)) as [Hlt|Hge];
    cbn [now push sleep log provider_call min_delay last_request_time
         gate_times call_times head spaced gates_answered ungated_spaced] in *.
  - repeat split; auto.
    + intros t [= <-]. reflexivity.
    + destruct (gate_times (log w)) as [|g gs] eqn:Hg; [exact I|].
      specialize (Hlast g eq_refl). lia.
  - repeat split; auto.
    + intros t [= <-]. reflexivity.
    + destruct (gate_times (log w)) as [|g gs] eqn:Hg; [exact I|].
      specialize (Hlast g eq_refl). lia.
Qed.

Lemma invariant_sleep (d : Z) (self : X_tweets) (w : world) :
  client_invariant self w -> client_invariant self (sleep d w).
Proof.
  unfold client_invariant.
  cbn [sleep log gate_times gates_answered ungated_spaced]. tauto.
Qed.

(** The second call of a fetch, three time-units after the first. *)
Lemma invariant_second_call (e : env) (r r' : request) (self : X_tweets) (w : world) :
  client_invariant self (provider_call e r' w) ->
  client_invariant self (provider_call e r (sleep 3 (provider_call e r' w))).
Proof.
  unfold client_invariant.
  cbn [provider_call sleep log now gate_times call_times gates_answered ungated_spaced].
  intros (Hd & Hlast & Hsp & Hans & Hun).
  split; [exact Hd|]. split; [exact Hlast|]. split; [exact Hsp|]. split; [exact Hans|].
  split; [lia | exact Hun].
Qed.

Lemma invariant_get_user_info (e : env) (fuel : nat) (username : string)
    (self : X_tweets) (w : world) :
  client_invariant self w ->
  client_invariant (fst (state_of (get_user_info e fuel username self w)))
                   (snd (state_of (get_user_info e fuel username self w))).
Proof.
  revert self w. induction fuel as [|fuel IH]; intros self w Hinv; cbn [get_user_info].
  - exact Hinv.
  - pose proof (invariant_gated_call e (GetUser username) self w Hinv) as Hcall.
    destruct (_rate_limited_request self w) as [self1 w1]. cbn [fst snd] in Hcall.
    unfold client_get_user.
    destruct (api_get_user e (provider_calls w1) username); cbn [state_of fst snd].
    + exact Hcall.
    + apply IH, invariant_sleep, Hcall.
    + exact Hcall.
Qed.

Lemma invariant_get_users_tweets (e : env) (fuel : nat) (username : string)
    (max_tweets : Z) (self : X_tweets) (w : world) :
  client_invariant self w ->
  client_invariant (fst (state_of (get_users_tweets e fuel username max_tweets self w)))
                   (snd (state_of (get_users_tweets e fuel username max_tweets self w))).
Proof.
  revert self w. induction fuel as [|fuel IH]; intros self w Hinv; cbn [get_users_tweets].
  - exact Hinv.
  - pose proof (invariant_gated_call e (GetUser username) self w Hinv) as Hcall.
    destruct (_rate_limited_request self w) as [self1 w1]. cbn [fst snd] in Hcall.
    unfold client_get_user.
    destruct (api_get_user e (provider_calls w1) username) as [[u|]| |msg];
      cbn [state_of fst snd].
    + unfold client_get_users_tweets.
      pose proof (invariant_second_call e (GetUsersTweets (user_id u) max_tweets)
                    (GetUser username) self1 w1 Hcall) as Hsecond.
      destruct (api_get_users_tweets e _ (user_id u) max_tweets) as [[[|t ts]|]| |msg];
        cbn [state_of fst snd]; try exact Hsecond.
      apply IH, invariant_sleep, Hsecond.
    + apply invariant_sleep, Hcall.
    + apply IH, invariant_sleep, Hcall.
    + exact Hcall.
Qed.

Lemma invariant_invoke_all (e : env) (fuel : nat) (calls : list invocation)
    (self : X_tweets) (w : world) :
  client_invariant self w ->
  client_invariant (fst (invoke_all e fuel calls self w))
                   (snd (invoke_all e fuel calls self w)).
Proof.
  revert self w. induction calls as [|i calls IH]; intros self w Hinv; cbn [invoke_all].
  - exact Hinv.
  - destruct i as [username | username max_tweets]; cbn [invoke].
    + pose proof (invariant_get_user_info e fuel username self w Hinv) as H.
      destruct (get_user_info e fuel username self w) as [a [self' w'] | [self' w']];
        cbn [state_of fst snd] in H; [apply IH, H | exact H].
    + pose proof (invariant_get_users_tweets e fuel username max_tweets self w Hinv) as H.
      destruct (get_users_tweets e fuel username max_tweets self w)
        as [a [self' w'] | [self' w']];
        cbn [state_of fst snd] in H; [apply IH, H | exact H].
Qed.

(** C2, amended.  On a fresh instance, whatever methods are invoked in
    sequence and however far they get: the time stamps taken by the gate,
    one before the first provider call of every invocation and of every
    retry, are at least 5 time-units apart; the call the gate guards is
    issued at the gate's time stamp; and a provider call that is not
    guarded by the gate, the second call of a fetch, is issued at least 3
    time-units after the call before it. *)
Theorem gated_calls_five_apart (e : env) (fuel : nat) (calls : list invocation) (w : world) :
  log w = [] ->
  let l := log (snd (invoke_all e fuel calls fresh_client w)) in
  spaced 5 (gate_times l) /\ gates_answered l /\ ungated_spaced 3 l.
Proof.
  intros Hlog l.
  assert (Hinit : client_invariant fresh_client w).
  { unfold client_invariant. rewrite Hlog. repeat split; cbn; auto. discriminate. }
  destruct (invariant_invoke_all e fuel calls fresh_client w Hinit) as (_ & _ & H1 & H2 & H3).
  auto.
Qed.

(** A lookup followed by two fetches: the gate stamps 100, 105 and 110. *)
Lemma gated_calls_five_apart_witness :
  gate_times (log (snd (invoke_all scenario_env 1
     [CallGetUserInfo "someone"; CallGetUsersTweets "someone" 10;
      CallGetUsersTweets "someone" 10] fresh_client initial_world)))
  = [110; 105; 100]
  /\ spaced 5 [110; 105; 100].
Proof.
  split; [reflexivity|].
  apply (gated_calls_five_apart scenario_env 1
           [CallGetUserInfo "someone"; CallGetUsersTweets "someone" 10;
            CallGetUsersTweets "someone" 10] initial_world).
  reflexivity.
Defined.

(** ** Cooldown and retry *)

Lemma get_user_info_rejected (e : env) (fuel : nat) (username : string)
    (self : X_tweets) (w : world) :
  api_get_user e (provider_calls w) username = ApiRateLimited ->
  get_user_info e (S fuel) username self w
  = get_user_info e fuel username (fst (_rate_limited_request self w))
      (sleep 900 (provider_call e (GetUser username) (snd (_rate_limited_request self w)))).
Proof.
  intros H. cbn [get_user_info]. pose proof (gate_provider_calls self w) as Hn.
  destruct (_rate_limited_request self w) as [self1 w1]. cbn [fst snd] in *.
  unfold client_get_user. rewrite Hn, H. reflexivity.
Qed.

Lemma get_users_tweets_rejected (e : env) (fuel : nat) (username : string)
    (max_tweets : Z) (self : X_tweets) (w : world) :
  api_get_user e (provider_calls w) username = ApiRateLimited ->
  get_users_tweets e (S fuel) username max_tweets self w
  = get_users_tweets e fuel username max_tweets (fst (_rate_limited_request self w))
      (sleep 900 (provider_call e (GetUser username) (snd (_rate_limited_request self w)))).
Proof.
  intros H. cbn [get_users_tweets]. pose proof (gate_provider_calls self w) as Hn.
  destruct (_rate_limited_request self w) as [self1 w1]. cbn [fst snd] in *.
  unfold client_get_user. rewrite Hn, H. reflexivity.
Qed.

Lemma get_users_tweets_rejected_second (e : env) (fuel : nat) (username : string)
    (max_tweets : Z) (self : X_tweets) (w : world) (u : User) :
  api_get_user e (provider_calls w) username = ApiData (Some u) ->
  api_get_users_tweets e (S (provider_calls w)) (user_id u) max_tweets = ApiRateLimited ->
  get_users_tweets e (S fuel) username max_tweets self w
  = get_users_tweets e fuel username max_tweets (fst (_rate_limited_request self w))
      (sleep 900
         (provider_call e (GetUsersTweets (user_id u) max_tweets)
            (sleep 3
               (provider_call e (GetUser username) (snd (_rate_limited_request self w)))))).
Proof.
  intros H1 H2. cbn [get_users_tweets]. pose proof (gate_provider_calls self w) as Hn.
  destruct (_rate_limited_request self w) as [self1 w1]. cbn [fst snd] in *.
  unfold client_get_user, client_get_users_tweets. rewrite Hn, H1.
  cbn [provider_calls sleep provider_call]. rewrite Hn, H2. reflexivity.
Qed.

Lemma count_sleeps_app (d : Z) (p l : list event) :
  count_sleeps d (p ++ l) = (count_sleeps d p + count_sleeps d l)%nat.
Proof.
  induction p as [|[] p IH]; simpl; auto. destruct (_ =? _); simpl; auto.
Qed.

(** The state left behind by one rejected attempt. *)
Lemma rejected_attempt (e : env) (r : request) (self : X_tweets) (w : world) :
  let w' := sleep 900 (provider_call e r (snd (_rate_limited_request self w))) in
  provider_calls w' = S (provider_calls w)
  /\ now w + 900 <= now w'
  /\ (S (count_sleeps 900 (log w)) <= count_sleeps 900 (log w'))%nat.
Proof.
  pose proof (gate_provider_calls self w) as Hn.
  pose proof (gate_now self w) as (Hnow & _). cbv zeta in *.
  unfold _rate_limited_request in *. cbn [snd] in *.
  destruct (Z.ltb_spec (now w - last_request_time self) (min_delay self));
    cbn [sleep provider_call push now provider_calls log count_sleeps] in *.
  - change (900 =? 900) with true. cbv iota.
    split; [lia|]. split; [lia|].
    destruct (_ =? 900); lia.
  - change (900 =? 900) with true. cbv iota. split; [lia|]. split; lia.
Qed.

Lemma returned_attempt (e : env) (r : request) (self : X_tweets) (w : world) :
  let w' := provider_call e r (snd (_rate_limited_request self w)) in
  provider_calls w' = S (provider_calls w)
  /\ now w <= now w'
  /\ (count_sleeps 900 (log w) <= count_sleeps 900 (log w'))%nat.
Proof.
  pose proof (gate_provider_calls self w) as Hn.
  pose proof (gate_now self w) as (Hnow & _). cbv zeta in *.
  unfold _rate_limited_request in *. cbn [snd] in *.
  destruct (Z.ltb_spec (now w - last_request_time self) (min_delay self));
    cbn [sleep provider_call push now provider_calls log count_sleeps] in *.
  - split; [lia|]. split; [lia|]. destruct (_ =? 900); lia.
  - split; [lia|]. split; lia.
Qed.

Lemma get_user_info_retries (e : env) (username : string) (k : nat) :
  forall (data : option User) (self : X_tweets) (w : world) (fuel : nat),
    (forall i, (i < k)%nat ->
               api_get_user e (provider_calls w + i) username = ApiRateLimited) ->
    api_get_user e (provider_calls w + k) username = ApiData data ->
    (k < fuel)%nat ->
    exists s,
      get_user_info e fuel username self w = Returned data s
      /\ provider_calls (snd s) = (provider_calls w + S k)%nat
      /\ now w + 900 * Z.of_nat k <= now (snd s)
      /\ (count_sleeps 900 (log w) + k <= count_sleeps 900 (log (snd s)))%nat.
Proof.
  induction k as [|k IH]; intros data self w fuel Hrej Hans Hfuel;
    (destruct fuel as [|fuel]; [lia|]).
  - rewrite Nat.add_0_r in Hans. cbn [get_user_info].
    pose proof (returned_attempt e (GetUser username) self w) as (Hn & Ht & Hc).
    pose proof (gate_provider_calls self w) as Hg.
    destruct (_rate_limited_request self w) as [self1 w1]. cbn [snd] in *.
    unfold client_get_user. rewrite Hg, Hans.
    eexists. split; [reflexivity|]. cbn [snd]. repeat split; lia.
  - rewrite get_user_info_rejected
      by (rewrite <- (Nat.add_0_r (provider_calls w)); apply Hrej; lia).
    pose proof (rejected_attempt e (GetUser username) self w) as (Hn & Ht & Hc).
    cbv zeta in Hn, Ht, Hc.
    set (w' := sleep 900 _) in *.
    destruct (IH data (fst (_rate_limited_request self w)) w' fuel) as (s & Hs & Hn' & Ht' & Hc').
    + intros i Hi. rewrite Hn. replace (S (provider_calls w) + i)%nat
        with (provider_calls w + S i)%nat by lia. apply Hrej. lia.
    + rewrite Hn. replace (S (provider_calls w) + k)%nat
        with (provider_calls w + S k)%nat by lia. exact Hans.
    + lia.
    + exists s. split; [exact Hs|]. repeat split; lia.
Qed.

Lemma get_users_tweets_retries (e : env) (username : string) (max_tweets : Z) (k : nat) :
  forall (u : User) (t : Tweet) (ts : list Tweet) (self : X_tweets) (w : world) (fuel : nat),
    (forall i, (i < k)%nat ->
               api_get_user e (provider_calls w + i) username = ApiRateLimited) ->
    api_get_user e (provider_calls w + k) username = ApiData (Some u) ->
    api_get_users_tweets e (provider_calls w + S k) (user_id u) max_tweets
    = ApiData (Some (t :: ts)) ->
    (k < fuel)%nat ->
    exists s,
      get_users_tweets e fuel username max_tweets self w = Returned (t :: ts) s
      /\ provider_calls (snd s) = (provider_calls w + S (S k))%nat
      /\ now w + 900 * Z.of_nat k <= now (snd s).
Proof.
  induction k as [|k IH]; intros u t ts self w fuel Hrej Huser Hans Hfuel;
    (destruct fuel as [|fuel]; [lia|]).
  - rewrite Nat.add_0_r in Huser. cbn [get_users_tweets].
    pose proof (returned_attempt e (GetUser username) self w) as (Hn & Ht & Hc).
    pose proof (gate_provider_calls self w) as Hg.
    destruct (_rate_limited_request self w) as [self1 w1]. cbn [snd] in *.
    unfold client_get_user, client_get_users_tweets. rewrite Hg, Huser.
    cbn [provider_calls sleep provider_call]. rewrite Hg.
    replace (S (provider_calls w)) with (provider_calls w + 1)%nat by lia. rewrite Hans.
    eexists. split; [reflexivity|]. cbn [snd provider_calls now provider_call sleep] in *.
    split; lia.
  - rewrite get_users_tweets_rejected
      by (rewrite <- (Nat.add_0_r (provider_calls w)); apply Hrej; lia).
    pose proof (rejected_attempt e (GetUser username) self w) as (Hn & Ht & Hc).
    cbv zeta in Hn, Ht, Hc.
    set (w' := sleep 900 _) in *.
    destruct (IH u t ts (fst (_rate_limited_request self w)) w' fuel) as (s & Hs & Hn' & Ht').
    + intros i Hi. rewrite Hn. replace (S (provider_calls w) + i)%nat
        with (provider_calls w + S i)%nat by lia. apply Hrej. lia.
    + rewrite Hn. replace (S (provider_calls w) + k)%nat
        with (provider_calls w + S k)%nat by lia. exact Huser.
    + rewrite Hn. replace (S (provider_calls w) + S k)%nat
        with (provider_calls w + S (S k))%nat by lia. exact Hans.
    + lia.
    + exists s. split; [exact Hs|]. split; lia.
Qed.

Lemma get_user_info_never_returns (e : env) (username : string) (fuel : nat) :
  forall (self : X_tweets) (w : world),
    (forall n, api_get_user e n username = ApiRateLimited) ->
    exists s,
      get_user_info e fuel username self w = Pending s
      /\ provider_calls (snd s) = (provider_calls w + fuel)%nat
      /\ now w + 900 * Z.of_nat fuel <= now (snd s)
      /\ (count_sleeps 900 (log w) + fuel <= count_sleeps 900 (log (snd s)))%nat.
Proof.
  induction fuel as [|fuel IH]; intros self w Hrej.
  - exists (self, w). cbn. repeat split; lia.
  - rewrite get_user_info_rejected by apply Hrej.
    pose proof (rejected_attempt e (GetUser username) self w) as (Hn & Ht & Hc).
    cbv zeta in Hn, Ht, Hc. set (w' := sleep 900 _) in *.
    destruct (IH (fst (_rate_limited_request self w)) w' Hrej) as (s & Hs & Hn' & Ht' & Hc').
    exists s. split; [exact Hs|]. repeat split; lia.
Qed.

Lemma get_users_tweets_never_returns (e : env) (username : string) (max_tweets : Z)
    (fuel : nat) :
  forall (self : X_tweets) (w : world),
    (forall n, api_get_user e n username = ApiRateLimited) ->
    exists s,
      get_users_tweets e fuel username max_tweets self w = Pending s
      /\ provider_calls (snd s) = (provider_calls w + fuel)%nat
      /\ now w + 900 * Z.of_nat fuel <= now (snd s)
      /\ (count_sleeps 900 (log w) + fuel <= count_sleeps 900 (log (snd s)))%nat.
Proof.
  induction fuel as [|fuel IH]; intros self w Hrej.
  - exists (self, w). cbn. repeat split; lia.
  - rewrite get_users_tweets_rejected by apply Hrej.
    pose proof (rejected_attempt e (GetUser username) self w) as (Hn & Ht & Hc).
    cbv zeta in Hn, Ht, Hc. set (w' := sleep 900 _) in *.
    destruct (IH (fst (_rate_limited_request self w)) w' Hrej) as (s & Hs & Hn' & Ht' & Hc').
    exists s. split; [exact Hs|]. repeat split; lia.
Qed.

(** Below the recursion limit the bounded methods return what the
    fuel-driven ones return. *)
Lemma get_user_info_bounded_returned (e : env) (username : string) (fuel : nat) :
  forall (depth : nat) (self : X_tweets) (w : world) (data : option User)
         (s : X_tweets * world),
    get_user_info e fuel username self w = Returned data s ->
    (fuel <= depth)%nat ->
    get_user_info_bounded e depth username self w = (data, s).
Proof.
  induction fuel as [|fuel IH]; intros depth self w data s Hrun Hle; [discriminate|].
  destruct depth as [|depth]; [lia|].
  cbn [get_user_info get_user_info_bounded] in *.
  destruct (_rate_limited_request self w) as [self1 w1].
  destruct (client_get_user e username w1) as [[data'| |msg] w2].
  - now injection Hrun as <- <-.
  - apply IH; [exact Hrun | lia].
  - now injection Hrun as <- <-.
Qed.

Lemma get_users_tweets_bounded_returned (e : env) (username : string) (max_tweets : Z)
    (fuel : nat) :
  forall (depth : nat) (self : X_tweets) (w : world) (tweets : list Tweet)
         (s : X_tweets * world),
    get_users_tweets e fuel username max_tweets self w = Returned tweets s ->
    (fuel <= depth)%nat ->
    get_users_tweets_bounded e depth username max_tweets self w = (tweets, s).
Proof.
  induction fuel as [|fuel IH]; intros depth self w tweets s Hrun Hle; [discriminate|].
  destruct depth as [|depth]; [lia|].
  cbn [get_users_tweets get_users_tweets_bounded] in *.
  destruct (_rate_limited_request self w) as [self1 w1].
  destruct (client_get_user e username w1) as [[[u|]| |msg] w2];
    try (now injection Hrun as <- <-).
  - destruct (client_get_users_tweets e (user_id u) max_tweets (sleep 3 w2))
      as [[[[|t ts]|]| |msg] w3]; try (now injection Hrun as <- <-).
    apply IH; [exact Hrun | lia].
  - apply IH; [exact Hrun | lia].
Qed.

(** At the recursion limit the activation that cannot call the client
    passes the gate and gives the null result. *)
Lemma get_user_info_bounded_pending (e : env) (username : string) (depth : nat) :
  forall (self : X_tweets) (w : world) (s : X_tweets * world),
    get_user_info e depth username self w = Pending s ->
    get_user_info_bounded e depth username self w
    = (None, _rate_limited_request (fst s) (snd s)).
Proof.
  induction depth as [|depth IH]; intros self w s Hrun.
  - injection Hrun as <-. cbn [get_user_info_bounded fst snd].
    now destruct (_rate_limited_request self w).
  - cbn [get_user_info get_user_info_bounded] in *.
    destruct (_rate_limited_request self w) as [self1 w1].
    destruct (client_get_user e username w1) as [[data'| |msg] w2];
      try discriminate.
    now apply IH.
Qed.

Lemma get_users_tweets_bounded_pending (e : env) (username : string) (max_tweets : Z)
    (depth : nat) :
  forall (self : X_tweets) (w : world) (s : X_tweets * world),
    get_users_tweets e depth username max_tweets self w = Pending s ->
    get_users_tweets_bounded e depth username max_tweets self w
    = ([], _rate_limited_request (fst s) (snd s)).
Proof.
  induction depth as [|depth IH]; intros self w s Hrun.
  - injection Hrun as <-. cbn [get_users_tweets_bounded fst snd].
    now destruct (_rate_limited_request self w).
  - cbn [get_users_tweets get_users_tweets_bounded] in *.
    destruct (_rate_limited_request self w) as [self1 w1].
    destruct (client_get_user e username w1) as [[[u|]| |msg] w2];
      try discriminate.
    + destruct (client_get_users_tweets e (user_id u) max_tweets (sleep 3 w2))
        as [[[[|t ts]|]| |msg] w3]; try discriminate.
      now apply IH.
    + now apply IH.
Qed.

(** C7.  A rejected provider call is followed by a cooldown of 900
    time-units and by the same method call with the same arguments, and
    below the recursion limit the caller receives the answer that follows
    [k] rejections, after [k + 1] calls and at least [900 * k]
    time-units.  The cycles are not unbounded: each retry is a nested
    call, and under a provider that rejects every call a method with room
    for [depth] activations gives up after exactly [depth] rejected calls
    and at least [depth] cooldowns, returning no user and the empty list
    of posts. *)
Theorem retry_gives_up_at_recursion_limit (e : env) (username : string)
    (max_tweets : Z) (depth : nat) (self : X_tweets) (w : world) :
  (forall k data,
      (k < depth)%nat ->
      (forall i, (i < k)%nat ->
                 api_get_user e (provider_calls w + i) username = ApiRateLimited) ->
      api_get_user e (provider_calls w + k) username = ApiData data ->
      exists s,
        get_user_info_bounded e depth username self w = (data, s)
        /\ provider_calls (snd s) = (provider_calls w + S k)%nat
        /\ now w + 900 * Z.of_nat k <= now (snd s)
        /\ (count_sleeps 900 (log w) + k <= count_sleeps 900 (log (snd s)))%nat)
  /\ (forall k u t ts,
         (k < depth)%nat ->
         (forall i, (i < k)%nat ->
                    api_get_user e (provider_calls w + i) username = ApiRateLimited) ->
         api_get_user e (provider_calls w + k) username = ApiData (Some u) ->
         api_get_users_tweets e (provider_calls w + S k) (user_id u) max_tweets
         = ApiData (Some (t :: ts)) ->
         exists s,
           get_users_tweets_bounded e depth username max_tweets self w = (t :: ts, s)
           /\ provider_calls (snd s) = (provider_calls w + S (S k))%nat
           /\ now w + 900 * Z.of_nat k <= now (snd s))
  /\ ((forall n, api_get_user e n username = ApiRateLimited) ->
      (exists s,
          get_user_info_bounded e depth username self w = (None, s)
          /\ provider_calls (snd s) = (provider_calls w + depth)%nat
          /\ now w + 900 * Z.of_nat depth <= now (snd s)
          /\ (count_sleeps 900 (log w) + depth <= count_sleeps 900 (log (snd s)))%nat)
      /\ (exists s,
             get_users_tweets_bounded e depth username max_tweets self w = ([], s)
             /\ provider_calls (snd s) = (provider_calls w + depth)%nat
             /\ now w + 900 * Z.of_nat depth <= now (snd s)
             /\ (count_sleeps 900 (log w) + depth
                 <= count_sleeps 900 (log (snd s)))%nat)).
Proof.
  split; [|split].
  - intros k data Hk Hrej Hans.
    destruct (get_user_info_retries e username k data self w (S k) Hrej Hans)
      as (s & Hs & Hrest); [lia|].
    exists s. split; [|exact Hrest].
    apply (get_user_info_bounded_returned e username (S k)); [exact Hs | lia].
  - intros k u t ts Hk Hrej Huser Hans.
    destruct (get_users_tweets_retries e username max_tweets k u t ts self w (S k)
                Hrej Huser Hans) as (s & Hs & Hrest); [lia|].
    exists s. split; [|exact Hrest].
    apply (get_users_tweets_bounded_returned e username max_tweets (S k));
      [exact Hs | lia].
  - intros Hrej.
    assert (Hgate : forall s : X_tweets * world,
               provider_calls (snd (_rate_limited_request (fst s) (snd s)))
               = provider_calls (snd s)
               /\ now (snd s) <= now (snd (_rate_limited_request (fst s) (snd s)))
               /\ (count_sleeps 900 (log (snd s))
                   <= count_sleeps 900
                        (log (snd (_rate_limited_request (fst s) (snd s)))))%nat).
    { intros [self' w']. cbn [fst snd].
      pose proof (gate_provider_calls self' w') as Hn.
      pose proof (gate_now self' w') as (Hnow & _).
      split; [exact Hn|]. split; [exact Hnow|].
      unfold _rate_limited_request. cbn [snd].
      destruct (now w' - last_request_time self' <? min_delay self');
        cbn [sleep push log count_sleeps]; [|lia].
      destruct (_ =? 900); lia. }
    split.
    + destruct (get_user_info_never_returns e username depth self w Hrej)
        as (s & Hs & Hn & Ht & Hc).
      destruct (Hgate s) as (Hn' & Ht' & Hc').
      eexists. split; [apply get_user_info_bounded_pending; exact Hs|].
      repeat split; lia.
    + destruct (get_users_tweets_never_returns e username max_tweets depth self w Hrej)
        as (s & Hs & Hn & Ht & Hc).
      destruct (Hgate s) as (Hn' & Ht' & Hc').
      eexists. split; [apply get_users_tweets_bounded_pending; exact Hs|].
      repeat split; lia.
Qed.

(** Room for three activations and a provider that rejects every call:
    after three rejected calls the fetch returns the empty list. *)
Lemma retry_gives_up_at_recursion_limit_witness :
  exists s,
    get_users_tweets_bounded rejecting_env 3 "someone" 10 fresh_client initial_world
    = ([], s)
    /\ provider_calls (snd s) = 3%nat.
Proof.
  destruct (retry_gives_up_at_recursion_limit rejecting_env "someone" 10 3 fresh_client
              initial_world) as (_ & _ & H).
  destruct (H (fun n => eq_refl)) as (_ & s & Hs & Hn & _ & _).
  exists s. split; [exact Hs | exact Hn].
Defined.

(** * Further properties *)

(** ** The transformer, field by field *)

Lemma append_nil (b : string) : (EmptyString +:+ b)%string = b.
Proof. reflexivity. Qed.

Lemma append_cons (x : ascii) (a b : string) :
  (String x a +:+ b)%string = String x (a +:+ b).
Proof. reflexivity. Qed.

Lemma append_assoc (a b c : string) : ((a +:+ b) +:+ c = a +:+ (b +:+ c))%string.
Proof.
  induction a as [|x a IH]; rewrite ?append_nil, ?append_cons; [reflexivity | now rewrite IH].
Qed.

Lemma append_length (a b : string) :
  String.length (a +:+ b) = (String.length a + String.length b)%nat.
Proof.
  induction a as [|x a IH]; rewrite ?append_nil, ?append_cons; simpl;
    [reflexivity | now rewrite IH].
Qed.

Lemma substring_of_trans (a b c : string) :
  substring_of a b -> substring_of b c -> substring_of a c.
Proof.
  intros (p1 & q1 & ->) (p2 & q2 & ->).
  exists (p2 +:+ p1)%string, (q1 +:+ q2)%string.
  now rewrite !append_assoc.
Qed.




Lemma take_append (a b : string) (k : nat) :
  PyStr.take (String.length a + k) (a +:+ b) = (a +:+ PyStr.take k b)%string.
Proof.
  induction a as [|x a IH]; rewrite ?append_nil, ?append_cons; simpl;
    [reflexivity | now rewrite IH].
Qed.


Lemma take_length (n : nat) (s : string) : (String.length (PyStr.take n s) <= n)%nat.
Proof.
  revert s. induction n as [|n IH]; intros [|c s]; simpl; try lia.
  specialize (IH s). lia.
Qed.





Lemma float_at_most (f q E D P : Q) :
  (0 <= q -> q * D == E -> 2 <= D -> 1 <= P ->
   Qabs (f - q) <= Qabs q / P -> f <= E)%Q.
Proof.
  intros Hq HE HD HP Hnear. rewrite (Qabs_pos q Hq) in Hnear.
  apply Qabs_Qle_condition in Hnear as [_ Hup].
  assert (Ht : (q / P * P == q)%Q) by (field; lra).
  assert (Ht0 : (0 <= q / P)%Q) by (apply Qle_shift_div_l; lra).
  set (t := (q / P)%Q) in *. clearbody t. nra.
Qed.

Lemma float_above_one (f q E L P : Q) :
  (q * L == E -> L + 1 <= E -> 1 <= L -> L + 2 <= P ->
   Qabs (f - q) <= Qabs q / P -> 1 < f)%Q.
Proof.
  intros HE HEL HL HP Hnear.
  assert (Hq : (0 <= q)%Q).
  { apply Qnot_lt_le. intros Hneg.
    assert (H : (q * L <= 0)%Q) by nra. lra. }
  rewrite (Qabs_pos q Hq) in Hnear.
  apply Qabs_Qle_condition in Hnear as [Hlow _].
  assert (Ht : (q / P * P == q)%Q) by (field; lra).
  set (t := (q / P)%Q) in *. clearbody t.
  apply Qnot_le_lt. intros Hf.
  assert (Hu : (q - t <= 1)%Q) by lra.
  assert (H1 : ((q - t) * (P * L) <= 1 * (P * L))%Q)
    by (apply Qmult_le_compat_r; nra).
  assert (H2 : ((q - t) * (P * L) == E * P - E)%Q).
  { transitivity (q * L * P - t * P * L)%Q; [ring|]. rewrite Ht, HE. ring. }
  assert (H3 : ((L + 1) * (P - 1) <= E * (P - 1))%Q)
    by (apply Qmult_le_compat_r; lra).
  nra.
Qed.

(** X5.  For a post whose four counts are not negative and whose
    engagement is below [2^53], the engagement rate the frame holds never
    exceeds the engagement; with at least one like the rate is exactly 1
    if and only if the post has no retweet, reply or quote. *)
Theorem engagement_rate_at_most_engagement (tweet : Tweet) :
  0 <= like_count (tweet_public_metrics tweet) ->
  0 <= retweet_count (tweet_public_metrics tweet) ->
  0 <= reply_count (tweet_public_metrics tweet) ->
  0 <= quote_count (tweet_public_metrics tweet) ->
  total_engagement tweet < 2 ^ 53 ->
  exists row f,
    row_of_tweet tweet = Ok row
    /\ engagement_rate_float row = Some f
    /\ (f <= inject_Z (engagement row))%Q
    /\ (1 <= like_count (tweet_public_metrics tweet) ->
        ((f == 1)%Q <->
         retweet_count (tweet_public_metrics tweet) = 0
         /\ reply_count (tweet_public_metrics tweet) = 0
         /\ quote_count (tweet_public_metrics tweet) = 0)).
Proof.
  intros Hl Hr Hp Hq Hb.
  destruct (row_of_tweet_ok tweet) as (row & Hrow & He & _ & _ & Hrate).
  set (m := tweet_public_metrics tweet) in *.
  assert (Htot : total_engagement tweet
                 = like_count m + retweet_count m + reply_count m + quote_count m)
    by reflexivity.
  set (e := total_engagement tweet) in *. set (d := Z.max (like_count m) 1) in *.
  destruct (quotient_float e d) as (f & Hf & Hnear); [lia | lia |].
  rewrite <- Hrate in Hf. exists row, f. split; [exact Hrow|]. split; [exact Hf|].
  assert (Hd : (0 < inject_Z d)%Q)
    by (change 0%Q with (inject_Z 0); rewrite <- Zlt_Qlt; lia).
  assert (HqD : (inject_Z e / inject_Z d * inject_Z d == inject_Z e)%Q) by (field; lra).
  assert (Hq0 : (0 <= inject_Z e / inject_Z d)%Q).
  { apply Qle_shift_div_l; [exact Hd|]. rewrite Qmult_0_l.
    change 0%Q with (inject_Z 0). rewrite <- Zle_Qle. lia. }
  assert (HP : (Qpower 2 53 == 9007199254740992)%Q) by reflexivity.
  assert (Hexact : forall n, 0 <= n <= 2 ^ 53 ->
             (inject_Z e / inject_Z d == inject_Z n)%Q -> f = inject_Z n).
  { intros n Hn Heq. unfold engagement_rate_float in Hf. rewrite Hrate in Hf.
    rewrite (Qred_complete _ _ Heq), Qred_inject_Z, binary64_exact in Hf by lia.
    congruence. }
  rewrite He. split.
  - destruct (Z.le_gt_cases d 1) as [Hd1|Hd1].
    + assert (d = 1) as Hone by lia.
      rewrite (Hexact e); [apply Qle_refl | lia |].
      rewrite Hone. unfold Qdiv. change (/ inject_Z 1)%Q with 1%Q. apply Qmult_1_r.
    + apply (float_at_most f _ _ (inject_Z d) (Qpower 2 53) Hq0 HqD); [| lra | exact Hnear].
      change 2%Q with (inject_Z 2). rewrite <- Zle_Qle. lia.
  - intros H1. assert (d = like_count m) as Hdl by lia. split.
    + intros Hone. destruct (Z.eq_dec e (like_count m)) as [Heq|Hne]; [lia|].
      exfalso.
      assert (Hgt : (1 < f)%Q).
      { apply (float_above_one f _ (inject_Z e) (inject_Z d) (Qpower 2 53) HqD);
          [| | | exact Hnear].
        - change 1%Q with (inject_Z 1). rewrite <- (inject_Z_plus d 1), <- Zle_Qle. lia.
        - change 1%Q with (inject_Z 1). rewrite <- Zle_Qle. lia.
        - rewrite HP. change 9007199254740992%Q with (inject_Z (2 ^ 53)).
          change 2%Q with (inject_Z 2).
          rewrite <- (inject_Z_plus d 2), <- Zle_Qle. lia. }
      rewrite Hone in Hgt. now apply Qlt_irrefl in Hgt.
    + intros (H2 & H3 & H4). rewrite (Hexact 1); [reflexivity | lia |].
      replace e with d by lia. change (inject_Z 1) with 1%Q. field. lra.
Qed.

Lemma engagement_rate_at_most_engagement_witness :
  exists row f,
    row_of_tweet (sample_tweet 4 0 0 0 "hello") = Ok row
    /\ engagement_rate_float row = Some f
    /\ (f == 1)%Q.
Proof.
  destruct (engagement_rate_at_most_engagement (sample_tweet 4 0 0 0 "hello"))
    as (row & f & Hrow & Hf & _ & Hone); [simpl; lia .. | vm_compute; reflexivity |].
  exists row, f. split; [exact Hrow|]. split; [exact Hf|].
  apply Hone; [simpl; lia | auto].
Defined.

(** ** The client, call by call *)

Lemma gate_result (self : X_tweets) (w : world) :
  let s := _rate_limited_request self w in
  let due := last_request_time self + min_delay self in
  now (snd s) = Z.max (now w) due
  /\ last_request_time (fst s) = now (snd s)
  /\ min_delay (fst s) = min_delay self
  /\ log (snd s)
     = if now w <? due then EvGate due :: EvSleep (due - now w) :: log w
       else EvGate (now w) :: log w.
Proof.
  cbv zeta. unfold _rate_limited_request. cbn [fst snd].
  destruct (Z.ltb_spec (now w - last_request_time self) (min_delay self)) as [Hlt|Hge];
    destruct (Z.ltb_spec (now w) (last_request_time self + min_delay self)) as [Hlt'|Hge'];
    try lia; cbn [now log push sleep last_request_time min_delay].
  - split; [lia|]. split; [reflexivity|]. split; [reflexivity|].
    replace (now w + (min_delay self - (now w - last_request_time self)))
      with (last_request_time self + min_delay self) by lia.
    replace (min_delay self - (now w - last_request_time self))
      with (last_request_time self + min_delay self - now w) by lia.
    reflexivity.
  - split; [lia|]. repeat split.
Qed.

(** X6.  The gate lets the caller through at the later of the present
    time and the instance's last time stamp plus the minimum delay, and
    makes that time the new last time stamp.  It does not sleep when the
    delay has already passed, and otherwise sleeps for exactly the
    remainder; it issues no provider call.  Passing the gate twice in a
    row, with a delay that is not negative, puts the two time stamps
    exactly the delay apart. *)
Theorem gate_waits_for_the_remainder (self : X_tweets) (w : world) :
  let s := _rate_limited_request self w in
  let due := last_request_time self + min_delay self in
  now (snd s) = Z.max (now w) due
  /\ last_request_time (fst s) = now (snd s)
  /\ min_delay (fst s) = min_delay self
  /\ provider_calls (snd s) = provider_calls w
  /\ (due <= now w -> log (snd s) = EvGate (now w) :: log w)
  /\ (now w < due -> log (snd s) = EvGate due :: EvSleep (due - now w) :: log w)
  /\ (0 <= min_delay self ->
      now (snd (_rate_limited_request (fst s) (snd s))) = now (snd s) + min_delay self).
Proof.
  cbv zeta. pose proof (gate_result self w) as (Hnow & Hlast & Hdelay & Hlog).
  pose proof (gate_provider_calls self w) as Hcalls.
  pose proof (gate_result (fst (_rate_limited_request self w))
                (snd (_rate_limited_request self w))) as (Hnow2 & _).
  cbv zeta in *. rewrite Hlast, Hdelay in Hnow2.
  split; [exact Hnow|]. split; [exact Hlast|]. split; [exact Hdelay|].
  split; [exact Hcalls|]. split; [|split].
  - intros Hdue. rewrite Hlog.
    destruct (Z.ltb_spec (now w) (last_request_time self + min_delay self)); [lia|reflexivity].
  - intros Hdue. rewrite Hlog.
    destruct (Z.ltb_spec (now w) (last_request_time self + min_delay self)); [reflexivity|lia].
  - intros Hd. rewrite Hnow2. lia.
Qed.

(** A client that last passed the gate at 98 and comes back at 100. *)
Lemma gate_waits_for_the_remainder_witness :
  log (snd (_rate_limited_request {| last_request_time := 98; min_delay := 5 |}
              initial_world))
  = [EvGate 103; EvSleep 3].
Proof.
  apply (gate_waits_for_the_remainder {| last_request_time := 98; min_delay := 5 |}
           initial_world).
  simpl. lia.
Defined.

(** X7.  A provider failure other than a rate-limit rejection is not
    retried: [get_user_info] returns no user and [get_users_tweets] the
    empty list right after the failing call, whether the user lookup or
    the timeline request failed, with no cooldown and no further call. *)
Theorem provider_error_is_not_retried (e : env) (fuel : nat) (username : string)
    (max_tweets : Z) (self : X_tweets) (w : world) :
  let gate := _rate_limited_request self w in
  let lookup := provider_call e (GetUser username) (snd gate) in
  (forall msg,
      api_get_user e (provider_calls w) username = ApiError msg ->
      get_user_info e (S fuel) username self w = Returned None (fst gate, lookup)
      /\ get_users_tweets e (S fuel) username max_tweets self w
         = Returned [] (fst gate, lookup))
  /\ (forall u msg,
         api_get_user e (provider_calls w) username = ApiData (Some u) ->
         api_get_users_tweets e (S (provider_calls w)) (user_id u) max_tweets
         = ApiError msg ->
         get_users_tweets e (S fuel) username max_tweets self w
         = Returned [] (fst gate,
                        provider_call e (GetUsersTweets (user_id u) max_tweets)
                          (sleep 3 lookup))).
Proof.
  cbv zeta. pose proof (gate_provider_calls self w) as Hn. split.
  - intros msg H. cbn [get_user_info get_users_tweets].
    destruct (_rate_limited_request self w) as [self1 w1]. cbn [fst snd] in *.
    unfold client_get_user. rewrite Hn, H. split; reflexivity.
  - intros u msg H1 H2. cbn [get_users_tweets].
    destruct (_rate_limited_request self w) as [self1 w1]. cbn [fst snd] in *.
    unfold client_get_user, client_get_users_tweets. rewrite Hn, H1.
    cbn [provider_calls sleep provider_call]. rewrite Hn, H2. reflexivity.
Qed.

Lemma provider_error_is_not_retried_witness :
  get_user_info (failing_env "503 Service Unavailable") 5 "someone" fresh_client initial_world
  = Returned None
      ({| last_request_time := 100; min_delay := 5 |},
       {| now := 101; provider_calls := 1; chat_calls := 0; frames := ∅; next_frame := 0;
          log := [EvCall (GetUser "someone") 100; EvGate 100] |}).
Proof.
  pose proof (provider_error_is_not_retried (failing_env "503 Service Unavailable") 4
                "someone" 10 fresh_client initial_world) as [H _].
  destruct (H "503 Service Unavailable" eq_refl) as [H1 _]. exact H1.
Defined.

(** X8.  When the provider knows no user of the name, [get_users_tweets]
    returns the empty list after the user lookup and the pause of 3
    time-units: the timeline is never requested and nothing is retried. *)
Theorem unknown_user_gives_no_posts (e : env) (fuel : nat) (username : string)
    (max_tweets : Z) (self : X_tweets) (w : world) :
  api_get_user e (provider_calls w) username = ApiData None ->
  let gate := _rate_limited_request self w in
  get_users_tweets e (S fuel) username max_tweets self w
  = Returned [] (fst gate, sleep 3 (provider_call e (GetUser username) (snd gate)))
  /\ provider_calls (snd (state_of (get_users_tweets e (S fuel) username max_tweets self w)))
     = S (provider_calls w)
  /\ get_user_info e (S fuel) username self w
     = Returned None (fst gate, provider_call e (GetUser username) (snd gate)).
Proof.
  intros H. cbv zeta. pose proof (gate_provider_calls self w) as Hn.
  cbn [get_users_tweets get_user_info].
  destruct (_rate_limited_request self w) as [self1 w1]. cbn [fst snd] in *.
  unfold client_get_user. rewrite Hn, H. cbn [state_of snd provider_calls sleep provider_call].
  rewrite Hn. repeat split.
Qed.

Lemma unknown_user_gives_no_posts_witness :
  call_times (log (snd (state_of
     (get_users_tweets unknown_user_env 3 "nobody" 10 fresh_client initial_world))))
  = [100].
Proof.
  assert (H := unknown_user_gives_no_posts unknown_user_env 2 "nobody" 10 fresh_client
                 initial_world eq_refl).
  cbv zeta in H. destruct H as (-> & _). reflexivity.
Defined.

(** X9.  Whatever the provider does and however often it rejects, the
    list [get_users_tweets] returns is either empty or exactly the list
    the provider gave in answer to its last call, the timeline request
    for the user found by the call before: posts are never added, dropped
    or reordered, whatever [max_tweets] is. *)
Theorem fetched_posts_are_the_provider_s (e : env) (fuel : nat) (username : string)
    (max_tweets : Z) (self : X_tweets) (w : world) :
  match get_users_tweets e fuel username max_tweets self w with
  | Returned posts s =>
      posts = []
      \/ (posts <> []
          /\ exists (n : nat) (u : User),
              (provider_calls w <= n)%nat
              /\ S (S n) = provider_calls (snd s)
              /\ api_get_user e n username = ApiData (Some u)
              /\ api_get_users_tweets e (S n) (user_id u) max_tweets
                 = ApiData (Some posts))
  | Pending _ => True
  end.
Proof.
  revert self w. induction fuel as [|fuel IH]; intros self w; cbn [get_users_tweets];
    [exact I|].
  pose proof (gate_provider_calls self w) as Hn.
  destruct (_rate_limited_request self w) as [self1 w1]. cbn [snd] in Hn.
  unfold client_get_user.
  destruct (api_get_user e (provider_calls w1) username) as [[u|]| |msg] eqn:Hu.
  - unfold client_get_users_tweets. cbn [provider_calls sleep provider_call].
    destruct (api_get_users_tweets e (S (provider_calls w1)) (user_id u) max_tweets)
      as [[[|t ts]|]| |msg] eqn:Ht; try (left; reflexivity).
    + right. split; [discriminate|]. exists (provider_calls w1), u.
      cbn [snd provider_calls provider_call sleep]. rewrite <- Hn at 1. auto.
    + match goal with
      | |- match get_users_tweets e fuel username max_tweets ?s0 ?w0 with _ => _ end =>
          specialize (IH s0 w0);
          destruct (get_users_tweets e fuel username max_tweets s0 w0) as [posts s|s];
          [|exact I]
      end.
      destruct IH as [IH|(Hne & n & u' & Hle & Hrest)]; [left; exact IH | right].
      split; [exact Hne|]. exists n, u'. split; [|exact Hrest].
      cbn [provider_calls sleep provider_call] in Hle. lia.
  - left. reflexivity.
  - match goal with
    | |- match get_users_tweets e fuel username max_tweets ?s0 ?w0 with _ => _ end =>
        specialize (IH s0 w0);
        destruct (get_users_tweets e fuel username max_tweets s0 w0) as [posts s|s];
        [|exact I]
    end.
    destruct IH as [IH|(Hne & n & u' & Hle & Hrest)]; [left; exact IH | right].
    split; [exact Hne|]. exists n, u'. split; [|exact Hrest].
    cbn [provider_calls sleep provider_call] in Hle. lia.
  - left. reflexivity.
Qed.


(** X10.  Without a bearer token, missing or empty, the run returns the
    null result at once: the world is left as it was, so no provider call
    and no generation call is made and no frame is created. *)
Theorem no_token_no_run (e : env) (fuel : nat) (username : string) (max_tweets : Z)
    (use_langchain : bool) (w : world) :
  truthy (twitter_bearer_token e) = false ->
  X_tweets_init e = None
  /\ get_profile_analysis e fuel username max_tweets use_langchain w = Returned None w.
Proof.
  intros H. unfold get_profile_analysis, X_tweets_init. rewrite H. split; reflexivity.
Qed.

Lemma no_token_no_run_witness :
  get_profile_analysis empty_token_env 3 "someone" 10 true initial_world
  = Returned None initial_world.
Proof.
  apply (no_token_no_run empty_token_env 3 "someone" 10 true initial_world).
  reflexivity.
Defined.

(** ** The categorizer under changes of the text *)

Lemma lower_char_idempotent (c : ascii) :
  PyStr.lower_char (PyStr.lower_char c) = PyStr.lower_char c.
Proof. destruct c as [[] [] [] [] [] [] [] []]; reflexivity. Qed.

Lemma lower_idempotent (s : string) : PyStr.lower (PyStr.lower s) = PyStr.lower s.
Proof.
  induction s as [|c s IH]; [reflexivity|].
  cbn [PyStr.lower]. now rewrite lower_char_idempotent, IH.
Qed.

Lemma lower_append (a b : string) :
  PyStr.lower (a +:+ b) = (PyStr.lower a +:+ PyStr.lower b)%string.
Proof.
  induction a as [|c a IH]; [reflexivity|].
  rewrite append_cons. cbn [PyStr.lower]. now rewrite append_cons, IH.
Qed.

Lemma any_in_extended (patterns : list string) (pre s post : string) :
  PyStr.any_in patterns s = true ->
  PyStr.any_in patterns (pre +:+ s +:+ post) = true.
Proof.
  rewrite !any_in_spec. intros (p & Hp & Hsub). exists p. split; [exact Hp|].
  apply (substring_of_trans _ _ _ Hsub). exists pre, post. reflexivity.
Qed.

(** X11.  Putting a text into a longer one never moves it down the
    precedence: the category of [pre + text + post] comes, in the order
    in which the groups are tested, no later than the category of
    [text].  In particular an Educational text stays Educational, and
    only a General text can become anything. *)
Theorem categorize_tweet_context (pre text post : string) :
  (category_rank (categorize_tweet (pre +:+ text +:+ post))
   <= category_rank (categorize_tweet text))%nat
  /\ (categorize_tweet text = Educational ->
      categorize_tweet (pre +:+ text +:+ post) = Educational).
Proof.
  assert (Hrank : (category_rank (categorize_tweet (pre +:+ text +:+ post))
                   <= category_rank (categorize_tweet text))%nat).
  { unfold categorize_tweet, categorize_tweet_with. cbv zeta.
    rewrite !lower_append.
    pose proof (fun ps => any_in_extended ps (PyStr.lower pre) (PyStr.lower text)
                            (PyStr.lower post)) as Hext.
    repeat match goal with
           | |- context [PyStr.any_in ?ps (PyStr.lower text)] =>
               let H := fresh "H" in
               destruct (PyStr.any_in ps (PyStr.lower text)) eqn:H;
               [rewrite (Hext ps H)|]
           end;
      repeat match goal with
             | |- context [if PyStr.any_in ?ps ?s then _ else _] =>
                 destruct (PyStr.any_in ps s)
             end;
      cbn [category_rank]; lia. }
  split; [exact Hrank|].
  intros H. rewrite H in Hrank. cbn [category_rank] in Hrank.
  destruct (categorize_tweet (pre +:+ text +:+ post)); cbn [category_rank] in Hrank;
    [reflexivity | lia ..].
Qed.

Lemma categorize_tweet_context_witness :
  categorize_tweet ("my " +:+ "guide" +:+ " is on sale") = Educational.
Proof.
  apply (categorize_tweet_context "my " "guide" " is on sale").
  reflexivity.
Defined.

(** X12.  The categorizer ignores the case of the ASCII letters: two
    texts with the same lower-cased form get the same category, and
    lower-casing a text beforehand changes nothing. *)
Theorem categorize_tweet_ignores_case (text text' : string) :
  categorize_tweet (PyStr.lower text) = categorize_tweet text
  /\ (PyStr.lower text = PyStr.lower text' ->
      categorize_tweet text = categorize_tweet text').
Proof.
  split.
  - unfold categorize_tweet, categorize_tweet_with. cbv zeta.
    now rewrite lower_idempotent.
  - intros H. unfold categorize_tweet, categorize_tweet_with. cbv zeta. now rewrite H.
Qed.

Lemma categorize_tweet_ignores_case_witness :
  categorize_tweet "BREAKING: Big News" = categorize_tweet "breaking: big NEWS".
Proof.
  apply (categorize_tweet_ignores_case "BREAKING: Big News" "breaking: big NEWS").
  reflexivity.
Defined.

(** ** The standard lane *)

(** X13.  On a feature table the standard lane makes exactly one
    generation call, the last event it logs: model [gpt-4o-mini],
    temperature 0.7, at most 1500 tokens, the prompt built from the user
    name and the summary of the frame.  A failure of that call is not a
    failure of the lane: its [analysis] field is the answer of the
    service, or, when the call raises, the text
    [Error getting AI analysis: ] followed by the exception's message. *)
Theorem standard_lane_one_generation_call (e : env) (self : ContentAnalysisAgent)
    (tweets_df : nat) (username : string) (w : world) :
  let out := analyze_content_strategy e self tweets_df username w in
  let summary := fst (prepare_content_data tweets_df w) in
  let request :=
    {| chat_model := "gpt-4o-mini";
       chat_system := "You are an expert Twitter content strategist with deep understanding of viral content patterns and audience psychology.";
       chat_user := AnalysisPrompt username summary;
       chat_temperature := 7 # 10;
       chat_max_tokens := 1500 |} in
  chat_calls (snd out) = S (chat_calls w)
  /\ chats_logged (log (snd out)) = S (chats_logged (log w))
  /\ head (log (snd out)) = Some (EvChat request)
  /\ fst out !! "analysis"
     = Some (VStr match chat_completion e (chat_calls w) request with
                  | Ok content => content
                  | Raise ex => ("Error getting AI analysis: " +:+ exn_str ex)%string
                  end)
  /\ fst out !! "data_summary" = Some (VSummary summary)
  /\ fst out !! "username" = Some (VStr username)
  /\ fst out !! "agent" = Some (VStr (ca_name self)).
Proof.
  cbv zeta. unfold analyze_content_strategy, prepare_content_data, create_analysis_prompt,
    gen_ai_analysis. cbv zeta.
  rewrite !frame_at_assign.
  change (frame_at tweets_df (push (EvLane StandardLane) w)) with (frame_at tweets_df w).
  cbn [chat_calls assign_content_category push fst snd].
  destruct (chat_completion e (chat_calls w) _); cbn [fst snd chat_call chat_calls log head chats_logged];
    repeat split.
Qed.

(** X14.  Preparing the content data a second time changes nothing: the
    second summary is the first, and the frames of the world are the same
    after the second preparation as after the first, the category column
    being assigned the same labels again. *)
Theorem prepare_content_data_idempotent (df : nat) (w : world) :
  let first := prepare_content_data df w in
  let second := prepare_content_data df (snd first) in
  fst second = fst first
  /\ frames (snd second) = frames (snd first)
  /\ df_rows (frame_at df (snd first)) = df_rows (frame_at df w)
  /\ df_content_category (frame_at df (snd second))
     = Some (map categorize_tweet (map text (df_rows (frame_at df w)))).
Proof.
  cbv zeta. unfold prepare_content_data. cbn [fst snd]. rewrite !frame_at_assign.
  cbn [set_content_category df_rows df_content_category].
  split; [reflexivity|]. split; [|split; reflexivity].
  unfold assign_content_category at 1. cbn [frames].
  rewrite frame_at_assign. cbn [set_content_category df_rows].
  unfold assign_content_category. cbn [frames]. apply insert_insert_eq.
Qed.

(** ** The figures of the summary *)

Lemma max_some (x : Z) (xs : list Z) : exists m, PyNum.max (x :: xs) = Some m.
Proof. cbn [PyNum.max]. destruct (PyNum.max xs); eauto. Qed.

Lemma max_spec (xs : list Z) (m : Z) :
  PyNum.max xs = Some m -> In m xs /\ Forall (fun x => x <= m) xs.
Proof.
  revert m. induction xs as [|x xs IH]; intros m H; [discriminate|].
  cbn [PyNum.max] in H. destruct (PyNum.max xs) as [m'|] eqn:Hm.
  - injection H as <-. destruct (IH m' eq_refl) as [Hin Hall]. split.
    + destruct (Z.max_spec x m') as [[_ ->]|[_ ->]]; [right; exact Hin | left; reflexivity].
    + constructor; [lia|]. eapply Forall_impl; [exact Hall|]. intros y Hy. simpl in Hy. lia.
  - injection H as <-. destruct xs as [|y ys].
    + split; [left; reflexivity | repeat constructor; lia].
    + destruct (max_some y ys) as [m' Hm']. congruence.
Qed.

Lemma stats_of_rows_count (rows : list FeatureRow) :
  match Summary.stats_of_rows rows with
  | Some s =>
      rows <> []
      /\ Summary.engagement_count s = Z.of_nat (length rows)
      /\ PyNum.max (map engagement rows) = Some (Summary.engagement_max s)
  | None => rows = []
  end.
Proof.
  destruct rows as [|r rows]; [reflexivity|].
  unfold Summary.stats_of_rows. cbn [map PyNum.mean].
  destruct (max_some (engagement r) (map engagement rows)) as [m Hm]. rewrite Hm.
  cbn [Summary.engagement_count Summary.engagement_max]. split; [discriminate|].
  split; [|reflexivity]. unfold PyNum.count. cbn [length]. now rewrite length_map.
Qed.

Lemma sum_app (xs ys : list Z) : PyNum.sum (xs ++ ys) = PyNum.sum xs + PyNum.sum ys.
Proof. induction xs as [|x xs IH]; cbn [app PyNum.sum]; lia. Qed.

Lemma rows_of_category_partition (l : list (category * FeatureRow)) :
  (length (List.filter (fun cr => bool_decide (fst cr = Educational)) l)
   + length (List.filter (fun cr => bool_decide (fst cr = General)) l)
   + length (List.filter (fun cr => bool_decide (fst cr = NewsUpdates)) l)
   + length (List.filter (fun cr => bool_decide (fst cr = OpinionCommentary)) l)
   + length (List.filter (fun cr => bool_decide (fst cr = Personal)) l)
   + length (List.filter (fun cr => bool_decide (fst cr = Promotional)) l))%nat
  = length l.
Proof.
  induction l as [|[c r] l IH]; [reflexivity|].
  destruct c; cbn [List.filter fst bool_decide decide_rel category_eq_dec length];
    simpl; lia.
Qed.

Lemma group_count (df : DataFrame) (c : category) :
  PyNum.sum (map (fun cs => Summary.engagement_count (snd cs))
               match Summary.stats_of_rows (Summary.rows_of_category c df) with
               | Some s => [(c, s)]
               | None => []
               end)
  = Z.of_nat (length (List.filter (fun cr => bool_decide (fst cr = c))
                        (Summary.labelled_rows df))).
Proof.
  pose proof (stats_of_rows_count (Summary.rows_of_category c df)) as H.
  destruct (Summary.stats_of_rows (Summary.rows_of_category c df)) as [s|].
  - destruct H as (_ & H & _). cbn [map snd PyNum.sum]. rewrite H.
    unfold Summary.rows_of_category. rewrite length_map. lia.
  - unfold Summary.rows_of_category in H. apply (f_equal (@length _)) in H.
    rewrite length_map in H. cbn [map PyNum.sum length] in *. lia.
Qed.

(** X15.  The category performance of the summary partitions the frame:
    its categories are listed at most once each, in the order of their
    labels, every listed category has at least one post, and the numbers
    of posts of the categories add up to the number of posts analysed. *)
Theorem category_counts_add_up (df : nat) (w : world) :
  let summary := fst (prepare_content_data df w) in
  PyNum.sum (map (fun cs => Summary.engagement_count (snd cs))
               (Summary.category_performance summary))
  = Summary.total_tweets summary
  /\ Forall (fun cs => 1 <= Summary.engagement_count (snd cs))
            (Summary.category_performance summary)
  /\ sublist (map fst (Summary.category_performance summary)) Summary.sorted_categories.
Proof.
  cbv zeta. rewrite prepare_content_data_summary.
  set (rows := df_rows (frame_at df w)).
  set (frame := set_content_category (frame_at df w) (map categorize_tweet (map text rows))).
  cbn [Summary.summarize Summary.category_performance Summary.total_tweets].
  assert (Hlab : length (Summary.labelled_rows frame) = length rows).
  { unfold Summary.labelled_rows, frame. cbn [set_content_category df_content_category df_rows].
    fold rows. rewrite length_combine, !length_map. lia. }
  split; [|split].
  - unfold Summary.group_performance, Summary.sorted_categories. cbn [flat_map].
    rewrite !map_app, !sum_app, !group_count. cbn [map PyNum.sum].
    unfold frame at 7. cbn [set_content_category df_rows]. fold rows.
    rewrite <- Hlab, <- (rows_of_category_partition (Summary.labelled_rows frame)). lia.
  - unfold Summary.group_performance. apply List.Forall_forall. intros [c s] Hin.
    apply in_flat_map in Hin as (c' & _ & Hin).
    pose proof (stats_of_rows_count (Summary.rows_of_category c' frame)) as H.
    destruct (Summary.stats_of_rows (Summary.rows_of_category c' frame)) as [s'|];
      [|destruct Hin].
    destruct Hin as [[= <- <-]|[]]. destruct H as (Hne & H & _). cbn [snd]. rewrite H.
    destruct (Summary.rows_of_category c' frame); [congruence | cbn [length]; lia].
  - unfold Summary.group_performance, Summary.sorted_categories. cbn [flat_map].
    repeat match goal with
           | |- context [Summary.stats_of_rows ?r] => destruct (Summary.stats_of_rows r)
           end;
      cbn [app map fst]; repeat first [apply sublist_nil | apply sublist_skip_cons_sublist
                                       | constructor ].
Qed.

Lemma first_max_spec (rows : list FeatureRow) (r : FeatureRow) :
  Summary.first_max rows = Some r ->
  In r rows /\ PyNum.max (map engagement rows) = Some (engagement r).
Proof.
  revert r. induction rows as [|x rows IH]; intros r H; [discriminate|].
  cbn [Summary.first_max] in H. cbn [map PyNum.max].
  destruct (Summary.first_max rows) as [r'|] eqn:Hf.
  - destruct (IH r' eq_refl) as [Hin Hmax]. rewrite Hmax.
    destruct (Z.leb_spec (engagement r') (engagement x)); injection H as <-.
    + split; [left; reflexivity | f_equal; lia].
    + split; [right; exact Hin | f_equal; lia].
  - injection H as <-. destruct rows as [|y rows].
    + split; [left; reflexivity | reflexivity].
    + cbn [Summary.first_max] in Hf. destruct (Summary.first_max rows); [|discriminate].
      destruct (_ <=? _); discriminate.
Qed.

Lemma first_max_none (rows : list FeatureRow) :
  Summary.first_max rows = None -> rows = [].
Proof.
  destruct rows as [|x rows]; [reflexivity|]. cbn [Summary.first_max].
  destruct (Summary.first_max rows); [|discriminate]. destruct (_ <=? _); discriminate.
Qed.

Lemma in_labelled_rows (f : FeatureRow -> category) (rows : list FeatureRow)
    (c : category) (r : FeatureRow) :
  In (c, r) (combine (map f rows) rows) <-> In r rows /\ c = f r.
Proof.
  induction rows as [|x rows IH]; cbn [map combine In]; [tauto|].
  rewrite IH. split.
  - intros [[= <- <-]|[Hin ->]]; auto.
  - intros [[->|Hin] ->]; auto.
Qed.

Lemma in_rows_of_category (df : DataFrame) (c : category) (r : FeatureRow) :
  In r (Summary.rows_of_category c df) <-> In (c, r) (Summary.labelled_rows df).
Proof.
  unfold Summary.rows_of_category. rewrite in_map_iff. split.
  - intros ([c' r'] & <- & Hin). apply filter_In in Hin as [Hin Hc].
    cbn [fst snd] in *. apply bool_decide_eq_true in Hc. now subst.
  - intros Hin. exists (c, r). split; [reflexivity|]. apply filter_In.
    split; [exact Hin|]. cbn [fst]. now apply bool_decide_eq_true.
Qed.

Lemma unique_spec (seen cats : list category) (c : category) :
  In c (Summary.unique seen cats) <-> In c cats /\ ~ In c seen.
Proof.
  revert seen. induction cats as [|x cats IH]; intros seen; cbn [Summary.unique In];
    [tauto|].
  destruct (bool_decide (x ∈ seen)) eqn:Hx.
  - apply bool_decide_eq_true, list_elem_of_In in Hx. rewrite IH. split; [tauto|].
    intros [[->|Hin] Hn]; tauto.
  - apply bool_decide_eq_false in Hx. rewrite list_elem_of_In in Hx.
    cbn [In]. rewrite IH. cbn [In]. split.
    + intros [->|[Hin Hn]]; [tauto|]. split; [tauto|]. intros Hs. apply Hn. now right.
    + intros [[->|Hin] Hn]; [now left|].
      destruct (decide (x = c)) as [->|Hne]; [now left|]. right. split; [exact Hin|].
      intros [Heq|Hs]; [congruence | contradiction].
Qed.

Lemma unique_nodup (seen cats : list category) : List.NoDup (Summary.unique seen cats).
Proof.
  revert seen. induction cats as [|x cats IH]; intros seen; cbn [Summary.unique];
    [constructor|].
  destruct (bool_decide (x ∈ seen)); [apply IH|].
  constructor; [|apply IH]. rewrite unique_spec. cbn [In]. tauto.
Qed.

Lemma top_tweets_keys (df : DataFrame) (cs : list category) :
  List.NoDup cs ->
  List.NoDup (map fst (flat_map
     (fun c => match Summary.first_max (Summary.rows_of_category c df) with
               | Some r => [(c, {| Summary.top_text := (PyStr.take 100 (text r) +:+ "...")%string;
                                   Summary.top_engagement := engagement r |})]
               | None => []
               end) cs))
  /\ forall c, In c (map fst (flat_map
     (fun c => match Summary.first_max (Summary.rows_of_category c df) with
               | Some r => [(c, {| Summary.top_text := (PyStr.take 100 (text r) +:+ "...")%string;
                                   Summary.top_engagement := engagement r |})]
               | None => []
               end) cs)) -> In c cs.
Proof.
  induction cs as [|x cs IH]; intros Hnd; cbn [flat_map map].
  - split; [constructor | tauto].
  - apply List.NoDup_cons_iff in Hnd as [Hx Hnd]. destruct (IH Hnd) as [IH1 IH2].
    destruct (Summary.first_max (Summary.rows_of_category x df)); cbn [app map fst].
    + split.
      * constructor; [|exact IH1]. intros Hin. apply Hx, IH2, Hin.
      * intros c [->|Hin]; [now left | right; now apply IH2].
    + split; [exact IH1|]. intros c Hin. right. now apply IH2.
Qed.

(** X16.  The two tables of the summary agree.  Every entry of the top
    posts names a category of the category performance, and its
    engagement is that category's largest; it comes from a post of that
    category, whose first 100 characters it shows with three dots
    appended, whether or not anything was cut.  Every category of the
    performance has its top post, and no category has two. *)
Theorem top_tweets_match_performance (df : nat) (w : world) :
  let summary := fst (prepare_content_data df w) in
  let rows := df_rows (frame_at df w) in
  (forall c top,
      In (c, top) (Summary.top_tweets_by_category summary) ->
      exists stats r,
        In (c, stats) (Summary.category_performance summary)
        /\ Summary.engagement_max stats = Summary.top_engagement top
        /\ In r rows
        /\ categorize_tweet (text r) = c
        /\ Summary.top_engagement top = engagement r
        /\ Summary.top_text top = (PyStr.take 100 (text r) +:+ "...")%string)
  /\ (forall c stats,
         In (c, stats) (Summary.category_performance summary) ->
         exists top, In (c, top) (Summary.top_tweets_by_category summary))
  /\ List.NoDup (map fst (Summary.top_tweets_by_category summary)).
Proof.
  cbv zeta. rewrite prepare_content_data_summary.
  set (rows := df_rows (frame_at df w)).
  set (cats := map categorize_tweet (map text rows)).
  set (frame := set_content_category (frame_at df w) cats).
  cbn [Summary.summarize Summary.category_performance Summary.top_tweets_by_category].
  assert (Hlab : forall c r, In r (Summary.rows_of_category c frame)
                             <-> In r rows /\ c = categorize_tweet (text r)).
  { intros c r. rewrite in_rows_of_category. unfold Summary.labelled_rows, frame.
    cbn [set_content_category df_content_category df_rows]. fold rows. subst cats.
    rewrite map_map. apply in_labelled_rows. }
  assert (Hall : forall c : category, In c Summary.sorted_categories)
    by (intros []; cbn; tauto).
  split; [|split].
  - intros c top Hin. unfold Summary.top_tweets in Hin.
    apply in_flat_map in Hin as (c' & _ & Hin).
    destruct (Summary.first_max (Summary.rows_of_category c' frame)) as [r|] eqn:Hf;
      [|destruct Hin].
    destruct Hin as [[= <- <-]|[]].
    destruct (first_max_spec _ _ Hf) as [Hr Hmax]. apply Hlab in Hr as [Hr Hc].
    pose proof (stats_of_rows_count (Summary.rows_of_category c' frame)) as Hs.
    destruct (Summary.stats_of_rows (Summary.rows_of_category c' frame)) as [s|] eqn:Hst.
    + destruct Hs as (_ & _ & Hm). exists s, r. split.
      * unfold Summary.group_performance. apply in_flat_map. exists c'.
        split; [apply Hall|]. rewrite Hst. now left.
      * cbn [Summary.top_engagement Summary.top_text]. repeat split; auto. congruence.
    + rewrite Hs in Hf. discriminate.
  - intros c stats Hin. unfold Summary.group_performance in Hin.
    apply in_flat_map in Hin as (c' & _ & Hin).
    pose proof (stats_of_rows_count (Summary.rows_of_category c' frame)) as Hs.
    destruct (Summary.stats_of_rows (Summary.rows_of_category c' frame)) as [s|];
      [|destruct Hin].
    destruct Hin as [[= <- <-]|[]]. destruct Hs as (Hne & _).
    destruct (Summary.first_max (Summary.rows_of_category c' frame)) as [r|] eqn:Hf;
      [|apply first_max_none in Hf; contradiction].
    destruct (first_max_spec _ _ Hf) as [Hr _]. apply Hlab in Hr as [Hr Hc].
    eexists. unfold Summary.top_tweets. apply in_flat_map. exists c'. split.
    + unfold frame. cbn [set_content_category df_content_category default].
      apply unique_spec. split; [|tauto]. subst cats. rewrite map_map, Hc.
      apply in_map_iff. exists r. auto.
    + rewrite Hf. now left.
  - unfold Summary.top_tweets. apply top_tweets_keys, unique_nodup.
Qed.

(** In the scenario's frame the Educational post with 5 interactions is
    the top post of its category. *)
Lemma top_tweets_match_performance_witness :
  exists stats,
    In (Educational, stats)
       (Summary.category_performance
          (fst (prepare_content_data 0 (snd (alloc_frame scenario_frame initial_world)))))
    /\ Summary.engagement_max stats = 5.
Proof.
  destruct (top_tweets_match_performance 0 (snd (alloc_frame scenario_frame initial_world)))
    as (H & _).
  destruct (H Educational
              {| Summary.top_text := "How to grow on Twitter: 5 tips...";
                 Summary.top_engagement := 5 |})
    as (stats & r & Hin & Hmax & _).
  - vm_compute. left. reflexivity.
  - exists stats. split; [exact Hin | exact Hmax].
Defined.

Lemma sum_bounds (xs : list Z) (lo hi : Z) :
  Forall (fun x => lo <= x) xs -> Forall (fun x => x <= hi) xs ->
  lo * Z.of_nat (length xs) <= PyNum.sum xs <= hi * Z.of_nat (length xs).
Proof.
  induction xs as [|x xs IH]; intros Hlo Hhi; cbn [PyNum.sum length]; [lia|].
  apply Forall_cons in Hlo as [Hl Hlo]. apply Forall_cons in Hhi as [Hh Hhi].
  specialize (IH Hlo Hhi). lia.
Qed.

Lemma insert_sorted_in (x y : Z) (xs : list Z) :
  In y (PyNum.insert_sorted x xs) <-> y = x \/ In y xs.
Proof.
  induction xs as [|z xs IH]; cbn [PyNum.insert_sorted In]; [intuition|].
  destruct (x <=? z); cbn [In]; [intuition|]. rewrite IH. intuition.
Qed.

Lemma insert_sorted_length (x : Z) (xs : list Z) :
  length (PyNum.insert_sorted x xs) = S (length xs).
Proof.
  induction xs as [|z xs IH]; cbn [PyNum.insert_sorted length]; [reflexivity|].
  destruct (x <=? z); cbn [length]; [reflexivity | now rewrite IH].
Qed.

Lemma sort_in (y : Z) (xs : list Z) : In y (PyNum.sort xs) <-> In y xs.
Proof.
  induction xs as [|x xs IH]; cbn [PyNum.sort In]; [tauto|].
  rewrite insert_sorted_in, IH. intuition.
Qed.

Lemma sort_length (xs : list Z) : length (PyNum.sort xs) = length xs.
Proof.
  induction xs as [|x xs IH]; cbn [PyNum.sort length]; [reflexivity|].
  now rewrite insert_sorted_length, IH.
Qed.

Lemma mean_bounds (xs : list Z) (lo hi : Z) (a : Q) :
  PyNum.mean xs = Some a ->
  Forall (fun x => lo <= x) xs -> Forall (fun x => x <= hi) xs ->
  (inject_Z lo <= a <= inject_Z hi)%Q.
Proof.
  intros Hm Hlo Hhi. pose proof (sum_bounds xs lo hi Hlo Hhi) as Hs.
  destruct xs as [|x xs]; [discriminate|]. cbn [PyNum.mean] in Hm. injection Hm as <-.
  rewrite Qred_correct. unfold PyNum.count.
  set (n := Z.of_nat (length (x :: xs))) in *.
  assert (Hn : (0 < inject_Z n)%Q).
  { change 0%Q with (inject_Z 0). rewrite <- Zlt_Qlt. subst n. cbn [length]. lia. }
  split.
  - apply Qle_shift_div_l; [exact Hn|]. rewrite <- inject_Z_mult, <- Zle_Qle.
    cbn [PyNum.sum] in Hs. lia.
  - apply Qle_shift_div_r; [exact Hn|]. rewrite <- inject_Z_mult, <- Zle_Qle.
    cbn [PyNum.sum] in Hs. lia.
Qed.

Lemma median_bounds (xs : list Z) (lo hi : Z) (d : Q) :
  PyNum.median xs = Some d ->
  Forall (fun x => lo <= x) xs -> Forall (fun x => x <= hi) xs ->
  (inject_Z lo <= d <= inject_Z hi)%Q.
Proof.
  intros Hm Hlo Hhi. unfold PyNum.median in Hm. cbv zeta in Hm.
  pose proof (sort_length xs) as Hlen.
  assert (Hnth : forall i, (i < length (PyNum.sort xs))%nat ->
                           lo <= nth i (PyNum.sort xs) 0 <= hi).
  { intros i Hi. pose proof (nth_In (PyNum.sort xs) 0 Hi) as Hin.
    apply (proj1 (sort_in _ _)) in Hin.
    split; [apply (proj1 (List.Forall_forall _ _) Hlo)
           | apply (proj1 (List.Forall_forall _ _) Hhi)]; exact Hin. }
  destruct (PyNum.sort xs) as [|y ys] eqn:Hsort; [discriminate|].
  assert (Hhalf : (length (y :: ys) / 2 < length (y :: ys))%nat)
    by (apply Nat.div_lt; cbn [length]; lia).
  remember (length (y :: ys) / 2)%nat as h eqn:Hh. clear Hh.
  cbn [length] in Hm.
  pose proof (Hnth (h - 1)%nat ltac:(lia)) as Ha. pose proof (Hnth h Hhalf) as Hb.
  set (a := nth (h - 1) (y :: ys) 0) in *. set (b := nth h (y :: ys) 0) in *.
  assert (H1 : (inject_Z lo <= inject_Z a)%Q) by (rewrite <- Zle_Qle; lia).
  assert (H2 : (inject_Z lo <= inject_Z b)%Q) by (rewrite <- Zle_Qle; lia).
  assert (H3 : (inject_Z a <= inject_Z hi)%Q) by (rewrite <- Zle_Qle; lia).
  assert (H4 : (inject_Z b <= inject_Z hi)%Q) by (rewrite <- Zle_Qle; lia).
  destruct (Nat.even (S (length ys))); injection Hm as <-.
  - rewrite Qred_correct. revert H1 H2 H3 H4.
    generalize (inject_Z lo) (inject_Z a) (inject_Z b) (inject_Z hi).
    intros q1 q2 q3 q4 H1 H2 H3 H4. split.
    + apply Qle_shift_div_l; [reflexivity | lra].
    + apply Qle_shift_div_r; [reflexivity | lra].
  - split; assumption.
Qed.

Lemma has_lower_bound (xs : list Z) : exists lo, Forall (fun x => lo <= x) xs.
Proof.
  induction xs as [|x xs [lo IH]]; [exists 0; constructor|].
  exists (Z.min x lo). constructor; [lia|].
  eapply Forall_impl; [exact IH|]. intros y Hy. simpl in Hy. lia.
Qed.

(** X17.  The overall figures of a frame with at least one post: the best
    engagement is the engagement of one of the posts and no post exceeds
    it; the average and the median engagement do not exceed the best and
    are not below any lower bound of the column.  For a frame without a
    post the three figures are all not a number. *)
Theorem overall_metrics_within_bounds (df : DataFrame) :
  let column := Summary.engagement_column df in
  match PyNum.max column, PyNum.mean column, PyNum.median column with
  | Some best, Some average, Some middle =>
      In best column
      /\ Forall (fun x => x <= best) column
      /\ (average <= inject_Z best)%Q
      /\ (middle <= inject_Z best)%Q
      /\ (forall lo, Forall (fun x => lo <= x) column ->
                     (inject_Z lo <= average)%Q /\ (inject_Z lo <= middle)%Q)
  | None, None, None => df_rows df = []
  | _, _, _ => False
  end.
Proof.
  cbv zeta. unfold Summary.engagement_column.
  destruct (df_rows df) as [|r rows]; [reflexivity|].
  set (xs := map engagement (r :: rows)).
  assert (Hne : exists x xs', xs = x :: xs') by (subst xs; cbn [map]; eauto).
  destruct Hne as (x & xs' & Hxs).
  destruct (PyNum.max xs) as [best|] eqn:Hmax;
    [|rewrite Hxs in Hmax; destruct (max_some x xs'); congruence].
  destruct (max_spec xs best Hmax) as [Hin Hall].
  destruct (PyNum.mean xs) as [average|] eqn:Hmean; [|rewrite Hxs in Hmean; discriminate].
  destruct (PyNum.median xs) as [middle|] eqn:Hmed.
  - destruct (has_lower_bound xs) as [lo0 Hlo0].
    split; [exact Hin|]. split; [exact Hall|].
    split; [apply (mean_bounds xs lo0 best average Hmean Hlo0 Hall)|].
    split; [apply (median_bounds xs lo0 best middle Hmed Hlo0 Hall)|].
    intros lo Hlo. split.
    + apply (mean_bounds xs lo best average Hmean Hlo Hall).
    + apply (median_bounds xs lo best middle Hmed Hlo Hall).
  - unfold PyNum.median in Hmed. cbv zeta in Hmed. rewrite sort_length, Hxs in Hmed.
    cbn [length] in Hmed. destruct (Nat.even (S (length xs'))); discriminate.
Qed.

(** X18.  The consistency figure is printed as [nan] for a frame with
    fewer than two posts, whose standard deviation is not defined, and
    for a frame whose posts all have the engagement zero, where both the
    deviation and the mean are zero: engagements that are not negative
    and add up to zero. *)
Theorem consistency_not_a_number (df : nat) (w : world) :
  let column := Summary.engagement_column (frame_at df w) in
  let summary := fst (prepare_content_data df w) in
  ((length column <= 1)%nat -> Summary.engagement_consistency summary = "nan")
  /\ (Forall (fun x => 0 <= x) column -> PyNum.sum column = 0 ->
      Forall (fun x => x = 0) column
      /\ Summary.engagement_consistency summary = "nan").
Proof.
  cbv zeta. rewrite prepare_content_data_summary.
  cbn [Summary.summarize Summary.engagement_consistency].
  unfold Summary.consistency_ratio, Summary.engagement_column.
  cbn [set_content_category df_rows].
  set (xs := map engagement (df_rows (frame_at df w))). split.
  - intros Hlen. unfold PyNum.std, PyNum.var.
    destruct (PyNum.mean xs); [|reflexivity].
    destruct (Nat.leb_spec (length xs) 1); [reflexivity | lia].
  - intros Hpos Hsum. split.
    { clear -Hpos Hsum. induction Hpos as [|x xs Hx Hpos IH]; [constructor|].
      cbn [PyNum.sum] in Hsum.
      assert (Hs : 0 <= PyNum.sum xs).
      { clear -Hpos. induction Hpos as [|y ys Hy Hpos IH]; cbn [PyNum.sum]; lia. }
      constructor; [lia | apply IH; lia]. }
    destruct xs as [|x xs'] eqn:Hxs; [reflexivity|].
    assert (Hmean : exists m, PyNum.mean (x :: xs') = Some m /\ Qeq_bool m 0 = true).
    { eexists. split; [reflexivity|]. apply Qeq_bool_iff. rewrite Qred_correct, Hsum.
      unfold Qdiv. apply Qmult_0_l. }
    destruct Hmean as (m & -> & Hzero). unfold PyNum.surd_div.
    destruct (PyNum.std (x :: xs')); [rewrite Hzero|]; reflexivity.
Qed.

Lemma consistency_not_a_number_witness :
  Summary.engagement_consistency
    (fst (prepare_content_data 0 (snd (alloc_frame single_post_frame initial_world))))
  = "nan".
Proof.
  destruct (consistency_not_a_number 0 (snd (alloc_frame single_post_frame initial_world)))
    as [H _].
  apply H. vm_compute. constructor.
Defined.

(** ** The enhanced lane *)

Lemma take_length_min (n : nat) (s : string) :
  String.length (PyStr.take n s) = Nat.min n (String.length s).
Proof.
  revert s. induction n as [|n IH]; intros [|c s]; simpl; try reflexivity.
  now rewrite IH.
Qed.

(** X19.  Without LangChain the enhanced lane makes exactly three
    generation calls, in the order themes, engagement, strategy, each to
    [gpt-4o-mini] at temperature 0.7 with at most 1000 tokens.  What it
    sends is capped: the texts of the first 10 posts, the records of the
    first 5 posts, and, in the third call, the first 500 characters of
    each of the two answers it returns as its theme analyses.  It assigns
    no column and leaves the frames as they are. *)
Theorem enhanced_lane_three_capped_calls (e : env) (self : LangChainContentAgent)
    (tweets_df : nat) (username : string) (w : world) :
  langchain_enabled self = false ->
  let out := analyze_content_with_langchain e self tweets_df username w in
  let rows := df_rows (frame_at tweets_df w) in
  let request := fun p =>
    {| chat_model := "gpt-4o-mini";
       chat_system := "You are an expert social media strategist and content analyst.";
       chat_user := p;
       chat_temperature := 7 # 10;
       chat_max_tokens := 1000 |} in
  exists (texts : list string) (records : list (string * Z * Z * Z * Z))
         (themes_answer engagement_answer themes_sent engagement_sent : string),
    log (snd out)
    = EvChat (request (StrategyPrompt username themes_sent engagement_sent))
      :: EvChat (request (EngagementPrompt username records))
      :: EvChat (request (ThemePrompt username texts))
      :: EvLane EnhancedLane :: log w
    /\ texts = firstn 10 (map text rows)
    /\ records = firstn 5 (map (fun r => (text r, engagement r, likes r, retweets r,
                                          replies r)) rows)
    /\ fst out !! "theme_analyses"
       = Some (VDict (<["engagement" := VStr engagement_answer]>
                        (<["themes" := VStr themes_answer]> ∅)))
    /\ themes_sent = PyStr.take 500 themes_answer
    /\ engagement_sent = PyStr.take 500 engagement_answer
    /\ (length texts <= 10)%nat
    /\ (length records <= 5)%nat
    /\ (String.length themes_sent <= 500)%nat
    /\ (String.length engagement_sent <= 500)%nat
    /\ chat_calls (snd out) = S (S (S (chat_calls w)))
    /\ frames (snd out) = frames w
    /\ fst out !! "document_count" = Some (VInt (Z.of_nat (length rows)))
    /\ fst out !! "analysis_type" = Some (VStr "Enhanced OpenAI").
Proof.
  intros Hflag. cbv zeta. unfold analyze_content_with_langchain. cbv zeta. rewrite Hflag.
  cbn [lookup_method lane_methods]. rewrite String.eqb_refl.
  unfold _enhanced_openai_analysis, _call_openai.
  change (frame_at tweets_df (push (EvLane EnhancedLane) w)) with (frame_at tweets_df w).
  cbn [chat_calls push].
  repeat match goal with
         | |- context [chat_completion e ?n ?r] =>
             destruct (chat_completion e n r);
             cbn [fst snd chat_call chat_calls log push frames]
         end;
    (eexists _, _, _, _, _, _; split; [reflexivity|]; split; [reflexivity|];
     split; [reflexivity|]; split; [reflexivity|]; split; [reflexivity|];
     split; [reflexivity|]; split; [apply firstn_le_length|];
     split; [apply firstn_le_length|];
     split; [apply take_length|]; split; [apply take_length|];
     repeat split).
Qed.

Lemma enhanced_lane_three_capped_calls_witness :
  chat_calls (snd (analyze_content_with_langchain scenario_env
                     {| lc_name := "Enhanced Content Analysis Agent";
                        langchain_enabled := false |}
                     0 "someone" (snd (alloc_frame scenario_frame initial_world))))
  = 3%nat.
Proof.
  destruct (enhanced_lane_three_capped_calls scenario_env
              {| lc_name := "Enhanced Content Analysis Agent"; langchain_enabled := false |}
              0 "someone" (snd (alloc_frame scenario_frame initial_world)) eq_refl)
    as (texts & records & themes & engagement & themes_sent & engagement_sent
        & _ & _ & _ & _ & _ & _ & _ & _ & _ & _ & H & _).
  exact H.
Defined.

(** X20.  Without LangChain a failing generation service does not make
    the enhanced lane fail: when every generation call raises, the lane
    still returns a result without an [error] key, whose two analyses and
    whose recommendations are the text [Analysis error: ] followed by the
    exception's message. *)
Theorem enhanced_lane_hides_generation_failures (e : env) (self : LangChainContentAgent)
    (tweets_df : nat) (username : string) (w : world) (ex : exn) :
  langchain_enabled self = false ->
  (forall n r, chat_completion e n r = Raise ex) ->
  let out := analyze_content_with_langchain e self tweets_df username w in
  let failure := VStr ("Analysis error: " +:+ exn_str ex)%string in
  fst out !! "error" = None
  /\ fst out !! "recommendations" = Some failure
  /\ fst out !! "theme_analyses"
     = Some (VDict (<["engagement" := failure]> (<["themes" := failure]> ∅)))
  /\ chat_calls (snd out) = S (S (S (chat_calls w))).
Proof.
  intros Hflag Hfail. cbv zeta. unfold analyze_content_with_langchain. cbv zeta.
  rewrite Hflag. cbn [lookup_method lane_methods]. rewrite String.eqb_refl.
  unfold _enhanced_openai_analysis, _call_openai. rewrite !Hfail.
  cbn [fst snd chat_call chat_calls push]. repeat split.
Qed.

Lemma enhanced_lane_hides_generation_failures_witness :
  fst (analyze_content_with_langchain (failing_env "401 Unauthorized")
         {| lc_name := "Enhanced Content Analysis Agent"; langchain_enabled := false |}
         0 "someone" (snd (alloc_frame scenario_frame initial_world))) !! "error"
  = None.
Proof.
  apply (enhanced_lane_hides_generation_failures (failing_env "401 Unauthorized")
           {| lc_name := "Enhanced Content Analysis Agent"; langchain_enabled := false |}
           0 "someone" (snd (alloc_frame scenario_frame initial_world))
           (OpenAIError "401 Unauthorized")).
  - reflexivity.
  - intros n r. reflexivity.
Defined.

Lemma langchain_enabled_returns_error_marker_aux (e : env) (self : LangChainContentAgent)
    (tweets_df : nat) (username : string) (w : world) :
  langchain_enabled self = true ->
  analyze_content_with_langchain e self tweets_df username w
  = (error_marker e self username
       (AttributeError "'LangChainContentAgent' object has no attribute '_langchain_analysis'")
       (push (EvLane EnhancedLane) w),
     push (EvLane EnhancedLane) w).
Proof.
  intros H. unfold analyze_content_with_langchain. cbv zeta. rewrite H. reflexivity.
Qed.

(** X21.  The constructor of the enhanced agent raises only for a missing
    or empty OpenAI key ([ValueError]) or when the OpenAI client cannot
    be constructed: a failure of the LangChain components is absorbed by
    clearing the agent's flag.  The flag of a constructed agent is set
    exactly when the LangChain packages import and their components
    construct, and exactly then the enhanced lane returns the error
    marker, without a generation call. *)
Theorem enhanced_agent_by_capability (e : env) (tweets_df : nat) (username : string)
    (w : world) :
  let capable :=
    langchain_available e
    && match langchain_components e with Ok _ => true | Raise _ => false end in
  match LangChainContentAgent_init e with
  | Ok agent =>
      let out := analyze_content_with_langchain e agent tweets_df username w in
      truthy (openai_api_key e) = true
      /\ lc_name agent = "Enhanced Content Analysis Agent"
      /\ langchain_enabled agent = capable
      /\ (is_Some (fst out !! "error") <-> capable = true)
      /\ (chat_calls (snd out) = chat_calls w <-> capable = true)
  | Raise ex =>
      (truthy (openai_api_key e) = false
       /\ ex = ValueError
                 "OpenAI API key not found. Please set OPENAI_API_KEY in your .env file")
      \/ (truthy (openai_api_key e) = true
          /\ openai_client e (openai_api_key e) None = Raise ex)
  end.
Proof.
  cbv zeta. unfold LangChainContentAgent_init.
  destruct (truthy (openai_api_key e)) eqn:Hkey; cbn [negb]; [|left; auto].
  destruct (openai_client e (openai_api_key e) None) as [[]|ex] eqn:Hclient;
    cbn [bind]; [|right; auto].
  set (capable := langchain_available e
                  && match langchain_components e with Ok _ => true | Raise _ => false end).
  assert (Hflag : (if langchain_available e
                   then match langchain_components e with Ok _ => true | Raise _ => false end
                   else langchain_available e) = capable).
  { subst capable. destruct (langchain_available e); reflexivity. }
  rewrite Hflag. cbn [lc_name langchain_enabled].
  split; [reflexivity|]. split; [reflexivity|]. split; [reflexivity|].
  destruct capable.
  - pose proof (langchain_enabled_returns_error_marker_aux e
                  {| lc_name := "Enhanced Content Analysis Agent";
                     langchain_enabled := true |} tweets_df username w eq_refl) as Hrun.
    rewrite Hrun. cbn [fst snd push chat_calls]. split; split; eauto.
  - destruct (_enhanced_openai_analysis_spec e
                {| lc_name := "Enhanced Content Analysis Agent";
                   langchain_enabled := false |} tweets_df username
                (push (EvLane EnhancedLane) w)) as (d & r1 & r2 & r3 & Hrun & Herr & _).
    unfold analyze_content_with_langchain. cbv zeta. cbn [langchain_enabled].
    cbn [lookup_method lane_methods]. rewrite String.eqb_refl, Hrun.
    cbn [fst snd chat_call chat_calls push]. rewrite Herr. split; split.
    + intros [v Hv]. discriminate.
    + discriminate.
    + lia.
    + discriminate.
Qed.

(** X22.  The two retrieval helpers cannot succeed.  Whatever the vector
    store and the chain would do, [generate_content_recommendations]
    raises [NameError] for [PromptTemplate], the first name it reads, and
    [analyze_content_themes] raises too: the exception of the store's
    retriever, or else the same [NameError]. *)
Theorem retrieval_helpers_always_raise (e : env) (rt : chain_runtime) (username : string)
    (analyses : list (string * string)) :
  generate_content_recommendations e rt analyses username
  = Raise (NameError "name 'PromptTemplate' is not defined")
  /\ analyze_content_themes e rt username
     = match as_retriever rt with
       | Ok _ => Raise (NameError "name 'PromptTemplate' is not defined")
       | Raise ex => Raise ex
       end.
Proof.
  assert (H : load_global e "PromptTemplate"
              = Raise (NameError "name 'PromptTemplate' is not defined")).
  { unfold load_global, module_globals. destruct (langchain_available e); reflexivity. }
  unfold generate_content_recommendations, analyze_content_themes. rewrite H.
  split; [reflexivity|]. destruct (as_retriever rt); reflexivity.
Qed.

(** ** The presenter *)

(** X23.  The cut applied to every displayed text: the result has at most
    [limit + 3] characters and begins with the first [limit] characters
    of the text; a text of at most [limit] characters is shown unchanged;
    a longer one is shown as its first [limit] characters followed by
    three dots, so takes exactly [limit + 3] characters. *)
Theorem truncate_bounds (limit : nat) (s : string) :
  (String.length (truncate limit s) <= limit + 3)%nat
  /\ PyStr.take limit (truncate limit s) = PyStr.take limit s
  /\ ((String.length s <= limit)%nat -> truncate limit s = s)
  /\ ((limit < String.length s)%nat ->
      truncate limit s = (PyStr.take limit s +:+ "...")%string
      /\ String.length (truncate limit s) = (limit + 3)%nat).
Proof.
  unfold truncate. destruct (Nat.ltb_spec limit (String.length s)) as [Hlt|Hge].
  - assert (Hlen : String.length (PyStr.take limit s +:+ "...") = (limit + 3)%nat).
    { rewrite append_length, take_length_min. simpl. lia. }
    split; [lia|]. split; [|split].
    + rewrite <- (Nat.add_0_r limit) at 1.
      replace limit with (String.length (PyStr.take limit s)) at 1
        by (rewrite take_length_min; lia).
      rewrite take_append. cbn [PyStr.take].
      clear. induction (PyStr.take limit s) as [|c t IH];
        rewrite ?append_nil, ?append_cons; [reflexivity | now rewrite IH].
    + lia.
    + intros _. split; [reflexivity | exact Hlen].
  - split; [lia|]. split; [reflexivity|]. split; [reflexivity | lia].
Qed.

Lemma truncate_bounds_witness :
  truncate 5 "engagement" = "engag...".
Proof.
  apply (truncate_bounds 5 "engagement"). simpl. lia.
Defined.

Lemma show_items_strings (limit : nat) (texts : gmap string string) :
  show_items limit (VStr <$> texts)
  = inr ((fun s => ShownText (truncate limit s)) <$> texts).
Proof.
  unfold show_items. cbv zeta. rewrite <- map_fmap_compose.
  assert (Hall : forallb (fun kv : string * (display_error + shown) => is_inr (snd kv))
                   (map_to_list ((show_value limit ∘ VStr) <$> texts)) = true).
  { apply forallb_forall. intros [k r] Hin. apply list_elem_of_In in Hin.
    apply elem_of_map_to_list in Hin. rewrite lookup_fmap in Hin.
    destruct (texts !! k); [|discriminate]. injection Hin as <-. reflexivity. }
  rewrite Hall. f_equal. apply map_eq. intros k.
  rewrite lookup_omap, !lookup_fmap. destruct (texts !! k); reflexivity.
Qed.

(** The two shapes of the enhanced lane's dictionary. *)
Lemma enhanced_result_shape (e : env) (self : LangChainContentAgent)
    (tweets_df : nat) (username : string) (w : world) :
  let out := analyze_content_with_langchain e self tweets_df username w in
  (exists message, fst out !! "error" = Some (VStr message))
  \/ (fst out !! "error" = None
      /\ exists texts recommendations,
          fst out !! "theme_analyses" = Some (VDict (VStr <$> texts))
          /\ fst out !! "recommendations" = Some (VStr recommendations)).
Proof.
  cbv zeta. unfold analyze_content_with_langchain. cbv zeta.
  destruct (langchain_enabled self).
  - left. eexists. reflexivity.
  - right. cbn [lookup_method lane_methods]. rewrite String.eqb_refl.
    unfold _enhanced_openai_analysis.
    repeat match goal with
           | |- context [_call_openai e ?p ?w0] =>
               destruct (_call_openai e p w0)
           end.
    cbn [fst]. split; [reflexivity|].
    match goal with
    | |- context [<["engagement" := VStr ?a]> (<["themes" := VStr ?b]> ∅)] =>
        exists (<["engagement" := a]> (<["themes" := b]> ∅))
    end.
    eexists. rewrite !fmap_insert, fmap_empty. split; reflexivity.
Qed.

Lemma standard_result_shape (e : env) (self : ContentAnalysisAgent)
    (tweets_df : nat) (username : string) (w : world) :
  let out := analyze_content_strategy e self tweets_df username w in
  (exists analysis, fst out !! "analysis" = Some (VStr analysis))
  /\ fst out !! "reply_summary" = None.
Proof.
  cbv zeta. unfold analyze_content_strategy, prepare_content_data. cbv zeta.
  match goal with
  | |- context [gen_ai_analysis e ?p ?w0] => destruct (gen_ai_analysis e p w0)
  end.
  cbn [fst]. split; [eexists|]; reflexivity.
Qed.

(** What a completed run returns: the standard dictionary, and before it
    the enhanced one when that lane was entered. *)
Lemma completed_run_results (e : env) (fuel : nat) (username : string)
    (max_tweets : Z) (use_langchain : bool) (w : world)
    (results : gmap string pyval) (w' : world) :
  get_profile_analysis e fuel username max_tweets use_langchain w
  = Returned (Some results) w' ->
  exists (agent : ContentAnalysisAgent) (tweets_df : nat) (w4 : world),
    let standard := fst (analyze_content_strategy e agent tweets_df username w4) in
    results = <["standard" := VDict standard]> ∅
    \/ (use_langchain = true
        /\ exists (enhanced_agent : LangChainContentAgent) (w3 : world),
            results
            = <["standard" := VDict standard]>
                (<["langchain" :=
                     VDict (fst (analyze_content_with_langchain e enhanced_agent tweets_df
                                   username w3))]> ∅)).
Proof.
  unfold get_profile_analysis.
  destruct (X_tweets_init e) as [client|]; [|discriminate].
  destruct (get_users_tweets e fuel username max_tweets client w)
    as [[|t ts] [client' w1] | [client' w1]]; try discriminate.
  destruct (tweets_to_dataframe (t :: ts)) as [df|]; [|discriminate].
  cbn [alloc_frame].
  destruct (ContentAnalysisAgent_init e) as [content_agent|]; [|discriminate].
  set (w3 := assign_content_category _ _ _).
  destruct use_langchain; [destruct (LangChainContentAgent_init e) as [agent|]|].
  - destruct (analyze_content_with_langchain e agent (next_frame w1) username w3)
      as [enhanced w4] eqn:He.
    destruct (analyze_content_strategy e content_agent (next_frame w1) username w4)
      as [standard w5] eqn:Hs.
    intros [= <- <-]. exists content_agent, (next_frame w1), w4. cbv zeta. right.
    split; [reflexivity|]. exists agent, w3. rewrite He, Hs. reflexivity.
  - destruct (analyze_content_strategy e content_agent (next_frame w1) username w3)
      as [standard w5] eqn:Hs.
    intros [= <- <-]. exists content_agent, (next_frame w1), w3. cbv zeta. left.
    rewrite Hs. reflexivity.
  - destruct (analyze_content_strategy e content_agent (next_frame w1) username w3)
      as [standard w5] eqn:Hs.
    intros [= <- <-]. exists content_agent, (next_frame w1), w3. cbv zeta. left.
    rewrite Hs. reflexivity.
Qed.

(** X24.  The presenter never fails on the results of a completed run,
    whatever the flag it is given.  It shows the standard analysis, cut
    at 500 characters, and no reply section.  Of the enhanced lane it
    shows the analyses cut at 400 characters and the recommendations cut
    at 600; when the enhanced entry is the error marker, or the flag is
    off, it shows nothing of that lane, not even the error message. *)
Theorem display_of_completed_run (e : env) (fuel : nat) (username : string)
    (max_tweets : Z) (use_langchain show_langchain : bool) (w : world)
    (results : gmap string pyval) (w' : world) :
  get_profile_analysis e fuel username max_tweets use_langchain w
  = Returned (Some results) w' ->
  exists (d : display) (analysis : string),
    results = VDict <$> lane_dicts results
    /\ display_results (lane_dicts results) username show_langchain = inr d
    /\ shown_standard d = Some (ShownText (truncate 500 analysis))
    /\ shown_reply d = None
    /\ match lane_dicts results !! "langchain" with
       | Some enhanced =>
           if show_langchain && negb (bool_decide (is_Some (enhanced !! "error")))
           then exists texts recommendations,
               enhanced !! "theme_analyses" = Some (VDict (VStr <$> texts))
               /\ enhanced !! "recommendations" = Some (VStr recommendations)
               /\ shown_theme_analyses d
                  = (fun s => ShownText (truncate 400 s)) <$> texts
               /\ shown_recommendations d
                  = Some (ShownText (truncate 600 recommendations))
           else shown_theme_analyses d = ∅ /\ shown_recommendations d = None
       | None => shown_theme_analyses d = ∅ /\ shown_recommendations d = None
       end.
Proof.
  intros Hrun.
  destruct (completed_run_results _ _ _ _ _ _ _ _ Hrun) as (agent & tweets_df & w4 & H).
  cbv zeta in H.
  destruct (standard_result_shape e agent tweets_df username w4) as ((analysis & Ha) & Hr).
  set (standard := fst (analyze_content_strategy e agent tweets_df username w4)) in *.
  assert (Hstd : display_standard standard = inr (ShownText (truncate 500 analysis), None)).
  { unfold display_standard. rewrite Ha. cbn [show_value]. rewrite Hr. reflexivity. }
  destruct H as [-> | (_ & enhanced_agent & w3 & ->)].
  - assert (Hd : lane_dicts (<["standard" := VDict standard]> ∅)
                 = <["standard" := standard]> ∅).
    { unfold lane_dicts. rewrite (omap_insert_Some _ _ _ _ standard) by reflexivity.
      now rewrite omap_empty. }
    rewrite Hd. unfold display_results.
    rewrite lookup_insert_ne by discriminate. rewrite lookup_empty, lookup_insert_eq, Hstd.
    eexists _, analysis. split; [now rewrite fmap_insert, fmap_empty|].
    split; [reflexivity|]. cbn. auto.
  - set (enhanced := fst (analyze_content_with_langchain e enhanced_agent tweets_df
                            username w3)).
    assert (Hd : lane_dicts (<["standard" := VDict standard]>
                               (<["langchain" := VDict enhanced]> ∅))
                 = <["standard" := standard]> (<["langchain" := enhanced]> ∅)).
    { unfold lane_dicts. rewrite (omap_insert_Some _ _ _ _ standard) by reflexivity.
      rewrite (omap_insert_Some _ _ _ _ enhanced) by reflexivity.
      now rewrite omap_empty. }
    rewrite Hd. unfold display_results.
    rewrite (lookup_insert_ne _ "standard" "langchain") by discriminate.
    rewrite !lookup_insert_eq.
    assert (Hfmap : <["standard" := VDict standard]> (<["langchain" := VDict enhanced]> ∅)
                    = VDict <$> (<["standard" := standard]> (<["langchain" := enhanced]> ∅)))
      by (now rewrite !fmap_insert, fmap_empty).
    destruct (show_langchain && negb (bool_decide (is_Some (enhanced !! "error")))) eqn:Hshow.
    + apply andb_true_iff in Hshow as [_ Hnoerr].
      apply negb_true_iff, bool_decide_eq_false in Hnoerr.
      destruct (enhanced_result_shape e enhanced_agent tweets_df username w3)
        as [(message & Hm) | (_ & texts & recommendations & Ht & Hrec)].
      * exfalso. apply Hnoerr. fold enhanced in Hm. rewrite Hm. eauto.
      * fold enhanced in Ht, Hrec. unfold display_langchain.
        rewrite Ht, show_items_strings, Hrec. cbn [show_value]. rewrite Hstd.
        eexists _, analysis. split; [exact Hfmap|]. split; [reflexivity|].
        cbn [shown_standard shown_reply shown_theme_analyses shown_recommendations].
        split; [reflexivity|]. split; [reflexivity|].
        exists texts, recommendations. auto.
    + rewrite Hstd. eexists _, analysis. split; [exact Hfmap|]. split; [reflexivity|].
      cbn. auto.
Qed.

(** The scenario's run is displayed without failure. *)
Lemma display_of_completed_run_witness :
  exists d,
    display_results (lane_dicts (results_of scenario_run)) "someone" true = inr d
    /\ shown_standard d = Some (ShownText "insights").
Proof.
  assert (Hrun : scenario_run
                 = Returned (Some (results_of scenario_run)) (state_of scenario_run))
    by (vm_compute; reflexivity).
  destruct (display_of_completed_run scenario_env 1 "someone" 10 true true initial_world
              (results_of scenario_run) (state_of scenario_run) Hrun)
    as (d & analysis & _ & Hd & _).
  exists d. split; [exact Hd|].
  revert Hd. vm_compute. intros [= <-]. reflexivity.
Defined.

(** ** The entry point of the command line *)

Lemma remove_char_absent (c : ascii) (s : string) :
  ~ In c (list_ascii_of_string (py_remove_char c s)).
Proof.
  induction s as [|a s IH]; simpl; [tauto|].
  destruct (Ascii.eqb_spec a c) as [->|Hne]; [exact IH|].
  simpl. intros [H|H]; [congruence | exact (IH H)].
Qed.

Lemma remove_char_id (c : ascii) (s : string) :
  ~ In c (list_ascii_of_string s) -> py_remove_char c s = s.
Proof.
  induction s as [|a s IH]; simpl; [reflexivity|]. intros H.
  destruct (Ascii.eqb_spec a c) as [->|Hne]; [tauto|].
  rewrite IH; [reflexivity | tauto].
Qed.

Lemma lstrip_chars (x : ascii) (s : string) :
  In x (list_ascii_of_string (py_lstrip s)) -> In x (list_ascii_of_string s).
Proof.
  induction s as [|a s IH]; simpl; [tauto|].
  destruct (PyStr.is_space a); simpl; tauto.
Qed.

Lemma rstrip_chars (x : ascii) (s : string) :
  In x (list_ascii_of_string (py_rstrip s)) -> In x (list_ascii_of_string s).
Proof.
  induction s as [|a s IH]; simpl; [tauto|].
  destruct (py_rstrip s) as [|b rest].
  - destruct (PyStr.is_space a); simpl; tauto.
  - simpl in *. tauto.
Qed.

Lemma lstrip_head (s : string) (c : ascii) (rest : string) :
  py_lstrip s = String c rest -> PyStr.is_space c = false.
Proof.
  induction s as [|a s IH]; simpl; [discriminate|].
  destruct (PyStr.is_space a) eqn:Ha; [exact IH|].
  intros [= <- _]. exact Ha.
Qed.

Lemma rstrip_head (s : string) (c : ascii) (rest : string) :
  py_rstrip s = String c rest -> exists rest', s = String c rest'.
Proof.
  destruct s as [|a s]; simpl; [discriminate|].
  destruct (py_rstrip s); [destruct (PyStr.is_space a); [discriminate|]|];
    intros [= <- _]; eauto.
Qed.

Lemma rstrip_last (s init : string) (c : ascii) :
  py_rstrip s = (init +:+ String c EmptyString)%string -> PyStr.is_space c = false.
Proof.
  revert init. induction s as [|a s IH]; intros init; simpl.
  - destruct init; rewrite ?append_nil, ?append_cons; discriminate.
  - destruct (py_rstrip s) as [|b rest] eqn:E.
    + destruct (PyStr.is_space a) eqn:Ha.
      * destruct init; rewrite ?append_nil, ?append_cons; discriminate.
      * destruct init as [|x [|y init]]; rewrite ?append_nil, ?append_cons;
          try discriminate.
        intros [= <-]. exact Ha.
    + destruct init as [|x init]; rewrite ?append_nil, ?append_cons; [discriminate|].
      intros [= _ H]. exact (IH init H).
Qed.

Lemma lstrip_id (s : string) :
  (forall c rest, s = String c rest -> PyStr.is_space c = false) -> py_lstrip s = s.
Proof.
  destruct s as [|a s]; simpl; [reflexivity|]. intros H.
  now rewrite (H a s eq_refl).
Qed.

Lemma rstrip_idempotent (s : string) : py_rstrip (py_rstrip s) = py_rstrip s.
Proof.
  induction s as [|a s IH]; simpl; [reflexivity|].
  destruct (py_rstrip s) as [|b rest] eqn:E.
  - destruct (PyStr.is_space a) eqn:Ha; simpl; [reflexivity | now rewrite Ha].
  - change (py_rstrip (String a (String b rest)))
      with (match py_rstrip (String b rest) with
            | EmptyString =>
                if PyStr.is_space a then EmptyString else String a EmptyString
            | rest' => String a rest'
            end).
    now rewrite IH.
Qed.

Lemma strip_head (s : string) (c : ascii) (rest : string) :
  py_strip s = String c rest -> PyStr.is_space c = false.
Proof.
  unfold py_strip. intros H. destruct (rstrip_head _ _ _ H) as (rest' & H').
  exact (lstrip_head _ _ _ H').
Qed.

Lemma strip_idempotent (s : string) : py_strip (py_strip s) = py_strip s.
Proof.
  unfold py_strip at 1. rewrite lstrip_id; [|intros c rest; apply strip_head].
  unfold py_strip. apply rstrip_idempotent.
Qed.

(** X25.  The name [main] passes on: it holds no at-sign, it neither
    begins nor ends with a white-space character, and cleaning it again
    changes nothing. *)
Theorem normalize_username_clean (raw : string) :
  let username := normalize_username raw in
  ~ In "@"%char (list_ascii_of_string username)
  /\ (forall c rest, username = String c rest -> PyStr.is_space c = false)
  /\ (forall init c, username = (init +:+ String c EmptyString)%string ->
      PyStr.is_space c = false)
  /\ normalize_username username = username.
Proof.
  cbv zeta. unfold normalize_username.
  assert (Hat : ~ In "@"%char
                  (list_ascii_of_string (py_strip (py_remove_char "@" raw)))).
  { unfold py_strip. intros H. apply rstrip_chars, lstrip_chars in H.
    exact (remove_char_absent _ _ H). }
  split; [exact Hat|]. split; [|split].
  - intros c rest. apply strip_head.
  - intros init c. unfold py_strip. apply rstrip_last.
  - rewrite (remove_char_id _ _ Hat). apply strip_idempotent.
Qed.

Lemma normalize_username_clean_witness :
  normalize_username " @some@one  " = "someone"
  /\ PyStr.is_space "s" = false.
Proof.
  split; [reflexivity|].
  apply (normalize_username_clean " @some@one  ") with (rest := "omeone"%string).
  reflexivity.
Defined.

Lemma run_results_not_empty (e : env) (fuel : nat) (username : string)
    (max_tweets : Z) (use_langchain : bool) (w : world)
    (results : gmap string pyval) (w' : world) :
  get_profile_analysis e fuel username max_tweets use_langchain w
  = Returned (Some results) w' ->
  size results <> 0%nat.
Proof.
  intros Hrun Hsize. apply map_size_empty_inv in Hsize. subst results.
  destruct (completed_run_results _ _ _ _ _ _ _ _ Hrun) as (a & df & w4 & H).
  cbv zeta in H.
  assert (Hl : (∅ : gmap string pyval) !! "standard" = None) by apply lookup_empty.
  destruct H as [H | (_ & a' & w3 & H)]; rewrite H, lookup_insert_eq in Hl; discriminate.
Qed.

(** X26.  [main] exits with status 1, before any call or pause, when the
    cleaned name is empty or a credential is missing or empty.
    Otherwise it runs the analysis on the cleaned name, with the enhanced
    lane unless [--no-langchain] was given, and succeeds exactly when the
    run returned results: the emptiness test on the results never
    refuses a completed run. *)
Theorem main_exit_status (e : env) (fuel : nat) (args : cli_args) (w : world) :
  let username := normalize_username (arg_username args) in
  let ready := negb (String.eqb username "") && truthy (twitter_bearer_token e)
               && truthy (openai_api_key e) in
  (ready = false -> main e fuel args w = Returned ExitFailure w)
  /\ (ready = true ->
      main e fuel args w
      = match get_profile_analysis e fuel username (arg_tweets args)
                (negb (arg_no_langchain args)) w with
        | Pending w' => Pending w'
        | Returned (Some _) w' => Returned ExitSuccess w'
        | Returned None w' => Returned ExitFailure w'
        end).
Proof.
  cbv zeta. unfold main. cbv zeta.
  destruct (String.eqb (normalize_username (arg_username args)) "");
    destruct (truthy (twitter_bearer_token e));
    destruct (truthy (openai_api_key e)); cbn [negb andb];
    split; try discriminate; try reflexivity.
  intros _.
  destruct (get_profile_analysis e fuel (normalize_username (arg_username args))
              (arg_tweets args) (negb (arg_no_langchain args)) w)
    as [[results|] w' | w'] eqn:Hrun; try reflexivity.
  apply run_results_not_empty in Hrun.
  destruct (size results); [congruence | reflexivity].
Qed.

(** A name of white space and at-signs is refused whatever the
    credentials. *)
Lemma main_exit_status_witness :
  main scenario_env 1
    {| arg_username := " @ "; arg_tweets := 20; arg_no_langchain := false;
       arg_save := false; arg_visualize := false |} initial_world
  = Returned ExitFailure initial_world.
Proof.
  apply (main_exit_status scenario_env 1
           {| arg_username := " @ "; arg_tweets := 20; arg_no_langchain := false;
              arg_save := false; arg_visualize := false |} initial_world).
  reflexivity.
Defined.

(** ** The dashboard *)

(** X27.  The key check of the dashboard only asks whether the two
    variables are set.  With a bearer token set to the empty string it
    lets the page through, and a click on the button then ends in the
    failure message of the half-built client, before any call or pause;
    the command line refuses the same process at its own check. *)
Theorem dashboard_accepts_empty_token (e : env) (fuel : nat) (username : string)
    (max_tweets : Z) (kind : Streamlit.analysis_type) (args : cli_args) (w : world) :
  twitter_bearer_token e = Some EmptyString ->
  is_Some (openai_api_key e) ->
  username <> EmptyString ->
  Streamlit.check_api_keys e
  = {| Streamlit.status_twitter := true; Streamlit.status_openai := true |}
  /\ Streamlit.main e fuel username true max_tweets kind w
     = Returned
         (Streamlit.Failed "'X_tweets' object has no attribute 'last_request_time'") w
  /\ main e fuel args w = Returned ExitFailure w.
Proof.
  intros Htoken Hkey Hname.
  assert (Hcheck : Streamlit.check_api_keys e
                   = {| Streamlit.status_twitter := true;
                        Streamlit.status_openai := true |}).
  { unfold Streamlit.check_api_keys. rewrite Htoken.
    rewrite (bool_decide_eq_true_2 _ Hkey).
    rewrite bool_decide_eq_true_2 by eauto. reflexivity. }
  split; [exact Hcheck|]. split.
  - unfold Streamlit.main. cbv zeta. rewrite Hcheck.
    cbn [Streamlit.status_twitter Streamlit.status_openai negb orb].
    destruct (String.eqb_spec username ""); [contradiction|].
    unfold X_tweets_init. rewrite Htoken. reflexivity.
  - unfold main. cbv zeta. rewrite Htoken. cbn [truthy negb].
    destruct (String.eqb _ _); reflexivity.
Qed.

Lemma dashboard_accepts_empty_token_witness :
  Streamlit.main empty_token_env 1 "someone" true 20 Streamlit.Both initial_world
  = Returned
      (Streamlit.Failed "'X_tweets' object has no attribute 'last_request_time'")
      initial_world.
Proof.
  apply (dashboard_accepts_empty_token empty_token_env 1 "someone" 20 Streamlit.Both
           {| arg_username := "someone"; arg_tweets := 20; arg_no_langchain := false;
              arg_save := false; arg_visualize := false |} initial_world).
  - reflexivity.
  - simpl. eauto.
  - discriminate.
Defined.

(** X28.  With "Enhanced Analysis" alone selected, a failure of the
    enhanced agent's constructor leaves the results empty, and taking
    their first key fails: once the posts are fetched and categorised the
    page ends in the message "list index out of range", with no
    generation call made. *)
Theorem dashboard_enhanced_only_without_agent (e : env) (fuel : nat) (username : string)
    (max_tweets : Z) (w w1 : world) (client client' : X_tweets) (t : Tweet)
    (ts : list Tweet) (df : DataFrame) (agent : ContentAnalysisAgent) (ex : exn) :
  is_Some (twitter_bearer_token e) ->
  is_Some (openai_api_key e) ->
  username <> EmptyString ->
  X_tweets_init e = Some client ->
  get_users_tweets e fuel username max_tweets client w = Returned (t :: ts) (client', w1) ->
  tweets_to_dataframe (t :: ts) = Ok df ->
  ContentAnalysisAgent_init e = Ok agent ->
  LangChainContentAgent_init e = Raise ex ->
  exists w',
    Streamlit.main e fuel username true max_tweets Streamlit.EnhancedAnalysis w
    = Returned (Streamlit.Failed "list index out of range") w'
    /\ chat_calls w' = chat_calls w1
    /\ lanes_entered (log w') = lanes_entered (log w1).
Proof.
  intros Htoken Hkey Hname Hclient Hfetch Hframe Hagent Henh.
  unfold Streamlit.main. cbv zeta. unfold Streamlit.check_api_keys.
  rewrite (bool_decide_eq_true_2 _ Htoken), (bool_decide_eq_true_2 _ Hkey).
  cbn [Streamlit.status_twitter Streamlit.status_openai negb orb].
  destruct (String.eqb_spec username ""); [contradiction|].
  rewrite Hclient, Hfetch, Hframe. cbn [alloc_frame]. rewrite Hagent.
  cbn [Streamlit.wants_enhanced Streamlit.wants_standard]. rewrite Henh.
  eexists. split; [reflexivity|]. split; reflexivity.
Qed.

Lemma dashboard_enhanced_only_without_agent_witness :
  exists w',
    Streamlit.main empty_key_env 1 "someone" true 20 Streamlit.EnhancedAnalysis
      initial_world
    = Returned (Streamlit.Failed "list index out of range") w'.
Proof.
  destruct (get_users_tweets empty_key_env 1 "someone" 20 fresh_client initial_world)
    as [[|t ts] [client' w1] | s] eqn:Hfetch;
    try (vm_compute in Hfetch; discriminate).
  destruct (tweets_to_dataframe (t :: ts)) as [df|ex] eqn:Hframe.
  - destruct (dashboard_enhanced_only_without_agent empty_key_env 1 "someone" 20
                initial_world w1 fresh_client client' t ts df
                {| ca_name := "Content Analysis Agent" |}
                (ValueError
                   "OpenAI API key not found. Please set OPENAI_API_KEY in your .env file"))
      as (w' & H & _); try reflexivity; try (simpl; eauto); try discriminate.
  - exfalso. revert Hframe.
    assert (Hposts : t :: ts = scenario_tweets)
      by (vm_compute in Hfetch; injection Hfetch as <- <- _; reflexivity).
    rewrite Hposts. vm_compute. discriminate.
Defined.

(** ** The cost of a run *)

Lemma standard_lane_cost (e : env) (self : ContentAnalysisAgent)
    (tweets_df : nat) (username : string) (w : world) :
  let out := analyze_content_strategy e self tweets_df username w in
  chat_calls (snd out) = S (chat_calls w)
  /\ exists p, log (snd out) = p ++ log w /\ lanes_entered p = [StandardLane].
Proof.
  cbv zeta. unfold analyze_content_strategy, prepare_content_data, gen_ai_analysis.
  cbv zeta. cbn [chat_calls assign_content_category push fst snd].
  destruct (chat_completion e (chat_calls w) _);
    cbn [fst snd chat_call chat_calls log]; (split; [reflexivity|]);
    eexists [_; _; _]; split; reflexivity.
Qed.

Lemma enhanced_lane_cost (e : env) (self : LangChainContentAgent)
    (tweets_df : nat) (username : string) (w : world) :
  let out := analyze_content_with_langchain e self tweets_df username w in
  chat_calls (snd out)
  = (chat_calls w + if bool_decide (is_Some (fst out !! "error")) then 0 else 3)%nat
  /\ exists p, log (snd out) = p ++ log w /\ lanes_entered p = [EnhancedLane].
Proof.
  cbv zeta. destruct (langchain_enabled self) eqn:Hflag.
  - rewrite (langchain_enabled_returns_error_marker_aux e self tweets_df username w Hflag).
    cbn [fst snd push chat_calls log]. split.
    + rewrite bool_decide_eq_true_2 by (unfold error_marker; eauto). lia.
    + exists [EvLane EnhancedLane]. split; reflexivity.
  - unfold analyze_content_with_langchain. cbv zeta. rewrite Hflag.
    cbn [lookup_method lane_methods]. rewrite String.eqb_refl.
    destruct (_enhanced_openai_analysis_spec e self tweets_df username
                (push (EvLane EnhancedLane) w)) as (d & r1 & r2 & r3 & Hrun & Herr & _).
    rewrite Hrun. cbn [fst snd chat_call chat_calls push log]. split.
    + rewrite bool_decide_eq_false_2 by (rewrite Herr; intros [v Hv]; discriminate). lia.
    + exists [EvChat r3; EvChat r2; EvChat r1; EvLane EnhancedLane]. split; reflexivity.
Qed.

(** X29.  What a completed run costs can be read off its results.  It
    makes one generation call when the enhanced entry is absent or is the
    error marker, and four when the enhanced entry is an analysis; the
    fetch makes none.  The standard lane is entered exactly once and
    last, after the enhanced lane when that one left an entry. *)
Theorem run_generation_calls (e : env) (fuel : nat) (username : string)
    (max_tweets : Z) (use_langchain : bool) (w : world)
    (results : gmap string pyval) (w' : world) :
  get_profile_analysis e fuel username max_tweets use_langchain w
  = Returned (Some results) w' ->
  chat_calls w'
  = (chat_calls w
     + match results !! "langchain" with
       | Some (VDict enhanced) =>
           if bool_decide (is_Some (enhanced !! "error")) then 1 else 4
       | _ => 1
       end)%nat
  /\ exists p,
      log w' = p ++ log w
      /\ lanes_entered p
         = match results !! "langchain" with
           | Some _ => [StandardLane; EnhancedLane]
           | None => [StandardLane]
           end.
Proof.
  unfold get_profile_analysis.
  destruct (X_tweets_init e) as [client|]; [|discriminate].
  pose proof (client_steps_get_users_tweets e fuel username max_tweets client w) as Hsteps.
  destruct (get_users_tweets e fuel username max_tweets client w)
    as [[|t ts] [client' w1] | [client' w1]]; try discriminate.
  cbn [state_of snd] in Hsteps.
  destruct Hsteps as ((p0 & Hlog & Hclient) & _ & _ & Hchat & _ & _).
  destruct (client_events_silent p0 Hclient) as (Hlanes0 & _ & _).
  destruct (tweets_to_dataframe (t :: ts)) as [df|]; [|discriminate].
  cbn [alloc_frame].
  destruct (ContentAnalysisAgent_init e) as [content_agent|]; [|discriminate].
  set (w3 := assign_content_category _ _ _).
  assert (Hw3 : chat_calls w3 = chat_calls w
                /\ log w3 = (EvSetColumn (next_frame w1) "content_category"
                               (map categorize_tweet
                                  (map text (df_rows (frame_at (next_frame w1)
                                     {| now := now w1; provider_calls := provider_calls w1;
                                        chat_calls := chat_calls w1;
                                        frames := <[next_frame w1 := df]> (frames w1);
                                        next_frame := S (next_frame w1);
                                        log := log w1 |}))))
                             :: p0) ++ log w).
  { subst w3. cbn [assign_content_category chat_calls log]. rewrite Hlog. auto. }
  destruct Hw3 as [Hchat3 Hlog3]. clearbody w3.
  assert (Hstandard : forall w4 p4,
             log w4 = p4 ++ log w ->
             forall standard w5,
               analyze_content_strategy e content_agent (next_frame w1) username w4
               = (standard, w5) ->
               chat_calls w5 = S (chat_calls w4)
               /\ exists p, log w5 = p ++ log w
                            /\ lanes_entered p = StandardLane :: lanes_entered p4).
  { intros w4 p4 Hl standard w5 Hs.
    destruct (standard_lane_cost e content_agent (next_frame w1) username w4)
      as (Hc & p & Hp & Hlane).
    rewrite Hs in Hc, Hp. cbn [snd] in Hc, Hp. split; [exact Hc|].
    exists (p ++ p4). rewrite Hp, Hl, app_assoc. split; [reflexivity|].
    now rewrite lanes_entered_app, Hlane. }
  assert (Hlanes3 : lanes_entered (EvSetColumn (next_frame w1) "content_category"
                       (map categorize_tweet
                          (map text (df_rows (frame_at (next_frame w1)
                             {| now := now w1; provider_calls := provider_calls w1;
                                chat_calls := chat_calls w1;
                                frames := <[next_frame w1 := df]> (frames w1);
                                next_frame := S (next_frame w1);
                                log := log w1 |})))) :: p0) = [])
    by exact Hlanes0.
  destruct use_langchain; [destruct (LangChainContentAgent_init e) as [agent|]|].
  - destruct (enhanced_lane_cost e agent (next_frame w1) username w3)
      as (Hc & pe & Hpe & Hlane).
    destruct (analyze_content_with_langchain e agent (next_frame w1) username w3)
      as [enhanced w4].
    cbn [fst snd] in Hc, Hpe.
    destruct (analyze_content_strategy e content_agent (next_frame w1) username w4)
      as [standard w5] eqn:Hs.
    intros [= <- <-].
    rewrite lookup_insert_ne by discriminate. rewrite lookup_insert_eq.
    assert (Hl4 : log w4 = (pe ++ _) ++ log w)
      by (rewrite Hpe, Hlog3, app_assoc; reflexivity).
    destruct (Hstandard w4 _ Hl4 standard w5 Hs) as (Hc5 & p & Hp & Hlane5).
    split.
    + rewrite Hc5, Hc, Hchat3. destruct (bool_decide _); lia.
    + exists p. split; [exact Hp|].
      now rewrite Hlane5, lanes_entered_app, Hlane, Hlanes3.
  - destruct (analyze_content_strategy e content_agent (next_frame w1) username w3)
      as [standard w5] eqn:Hs.
    intros [= <- <-].
    rewrite lookup_insert_ne by discriminate. rewrite lookup_empty.
    destruct (Hstandard w3 _ Hlog3 standard w5 Hs) as (Hc5 & p & Hp & Hlane5).
    split; [rewrite Hc5, Hchat3; lia|].
    exists p. split; [exact Hp|]. now rewrite Hlane5, Hlanes3.
  - destruct (analyze_content_strategy e content_agent (next_frame w1) username w3)
      as [standard w5] eqn:Hs.
    intros [= <- <-].
    rewrite lookup_insert_ne by discriminate. rewrite lookup_empty.
    destruct (Hstandard w3 _ Hlog3 standard w5 Hs) as (Hc5 & p & Hp & Hlane5).
    split; [rewrite Hc5, Hchat3; lia|].
    exists p. split; [exact Hp|]. now rewrite Hlane5, Hlanes3.
Qed.

(** The scenario's run makes four generation calls. *)
Lemma run_generation_calls_witness :
  chat_calls (state_of scenario_run) = 4%nat.
Proof.
  assert (Hrun : scenario_run
                 = Returned (Some (results_of scenario_run)) (state_of scenario_run))
    by (vm_compute; reflexivity).
  destruct (run_generation_calls scenario_env 1 "someone" 10 true initial_world
              (results_of scenario_run) (state_of scenario_run) Hrun) as [H _].
  rewrite H. vm_compute. reflexivity.
Defined.

(** X30.  With the LangChain packages in place the dashboard shows
    nothing of the enhanced lane.  Whenever it shows results after an
    analysis that includes the enhanced one, the enhanced entry is the
    error marker and the enhanced part of the view holds neither
    analyses nor recommendations, the marker's message included; the
    standard analysis is shown exactly when "Both" was selected. *)
Theorem dashboard_hides_enhanced_error (e : env) (fuel : nat) (username : string)
    (analyze_button : bool) (max_tweets : Z) (kind : Streamlit.analysis_type)
    (w w' : world) (agent : LangChainContentAgent)
    (results : gmap string (gmap string pyval)) (t : Streamlit.tabs) :
  LangChainContentAgent_init e = Ok agent ->
  langchain_enabled agent = true ->
  Streamlit.wants_enhanced kind = true ->
  Streamlit.main e fuel username analyze_button max_tweets kind w
  = Returned (Streamlit.Shown results t) w' ->
  (exists enhanced message,
      results !! "enhanced" = Some enhanced
      /\ enhanced !! "error" = Some (VStr message))
  /\ Streamlit.tab_theme_analyses t = ∅
  /\ Streamlit.tab_recommendations t = None
  /\ (if Streamlit.wants_standard kind
      then exists analysis, Streamlit.tab_standard t = Some (VStr analysis)
      else Streamlit.tab_standard t = None).
Proof.
  intros Hagent Hflag Hkind. unfold Streamlit.main. cbv zeta.
  destruct (negb _ || negb _); [discriminate|].
  destruct (String.eqb username ""); [discriminate|].
  destruct (negb analyze_button); [discriminate|].
  destruct (X_tweets_init e) as [client|]; [|discriminate].
  destruct (get_users_tweets e fuel username max_tweets client w)
    as [[|p ps] [client' w1] | [client' w1]]; try discriminate.
  destruct (tweets_to_dataframe (p :: ps)) as [df|]; [|discriminate].
  cbn [alloc_frame].
  destruct (ContentAnalysisAgent_init e) as [content_agent|]; [|discriminate].
  rewrite Hkind, Hagent.
  rewrite (langchain_enabled_returns_error_marker_aux e agent _ username _ Hflag).
  set (marker := error_marker e agent username _ _).
  assert (Herr : exists message, marker !! "error" = Some (VStr message))
    by (eexists; reflexivity).
  assert (Hpart : Streamlit.enhanced_part marker = inr (∅, None)) by reflexivity.
  clearbody marker.
  destruct kind; [discriminate| |]; cbn [Streamlit.wants_standard].
  - unfold Streamlit.show_results.
    rewrite insert_empty, map_size_singleton, map_to_list_singleton.
    cbn [Nat.ltb Nat.leb]. rewrite String.eqb_refl, Hpart.
    intros [= <- <- _]. rewrite lookup_singleton_eq.
    destruct Herr as [message Herr]. split; [eauto|]. cbn. auto.
  - match goal with
    | |- context [analyze_content_strategy e content_agent ?df username ?w0] =>
        destruct (standard_result_shape e content_agent df username w0)
          as ((analysis & Ha) & _);
        destruct (analyze_content_strategy e content_agent df username w0)
          as [standard w5]
    end.
    cbn [fst] in Ha. unfold Streamlit.show_results.
    rewrite map_size_insert_None
      by (rewrite lookup_insert_ne by discriminate; apply lookup_empty).
    rewrite insert_empty, map_size_singleton. cbn [Nat.ltb Nat.leb].
    rewrite lookup_insert_eq. unfold Streamlit.standard_part. rewrite Ha.
    rewrite lookup_insert_ne by discriminate. rewrite lookup_singleton_eq, Hpart.
    intros [= <- <- _].
    rewrite lookup_insert_ne by discriminate. rewrite lookup_singleton_eq.
    destruct Herr as [message Herr]. split; [eauto|]. cbn. eauto.
Qed.

(** With the packages in place, "Both" shows the standard analysis and an
    empty enhanced tab. *)
Lemma dashboard_hides_enhanced_error_witness :
  match Streamlit.main langchain_env 1 "someone" true 20 Streamlit.Both initial_world with
  | Returned (Streamlit.Shown _ t) _ =>
      Streamlit.tab_theme_analyses t = ∅
      /\ Streamlit.tab_standard t = Some (VStr "insights")
  | _ => False
  end.
Proof.
  destruct (Streamlit.main langchain_env 1 "someone" true 20 Streamlit.Both initial_world)
    as [[| | | message | results t] w' | w'] eqn:Hrun;
    try (vm_compute in Hrun; discriminate).
  destruct (dashboard_hides_enhanced_error langchain_env 1 "someone" true 20 Streamlit.Both
              initial_world w'
              {| lc_name := "Enhanced Content Analysis Agent"; langchain_enabled := true |}
              results t eq_refl eq_refl eq_refl Hrun) as (_ & Hthemes & _ & _).
  split; [exact Hthemes|].
  vm_compute in Hrun. injection Hrun as _ <- _. reflexivity.
Defined.
